(** * SEC filing retrieval and extraction: a shallow embedding of
      [app/tools/sec_search.py]

    The development follows the Python module function by function:
    identifier resolution, the document fetcher with its disk cache, the
    section extractor, the fact extractors and the orchestrating
    [sec_search].

    Conventions of the embedding.
    - A Python [str] is a Rocq [string].  The model covers ASCII text: the
      letters, digits and white space of a text are the ASCII ones, and a
      code point above 127 is an uninterpreted byte.
    - A Python exception is a value of [exn]; a function that can raise
      returns a [result].
    - A [dict] whose key order is observable is an association list kept in
      insertion order.
    - A Python [float] is a binary64 number, computed with the Standard
      Library's [SpecFloat] operations at precision 53.
    - Regular expressions are kept as the source writes them, as pattern
      strings, and run by a backtracking matcher that follows the rules of
      Python's [re] (leftmost match, ordered alternation, greedy and lazy
      repetition). *)

From Stdlib Require Import List String Ascii ZArith Lia Bool Arith PeanoNat.
From Stdlib Require Import Sorting.Sorted Sorting.Permutation.
From Stdlib Require Import Floats.SpecFloat.
Import ListNotations.
Local Open Scope string_scope.
Local Open Scope list_scope.
Local Open Scope nat_scope.

Set Implicit Arguments.

(* ================================================================== *)
(** * Exceptions *)
(* ================================================================== *)

Inductive exn : Type :=
| ValueError
| TypeError
| IndexError
| AttributeError
| OverflowError.

Inductive result (A : Type) : Type :=
| Ok (a : A)
| Raise (e : exn).

Arguments Ok {A} a.
Arguments Raise {A} e.

Definition bind {A B : Type} (r : result A) (f : A -> result B) : result B :=
  match r with
  | Ok a => f a
  | Raise e => Raise e
  end.

Notation "x <- c1 ;; c2" := (bind c1 (fun x => c2))
  (at level 61, c1 at next level, right associativity).

(** [for x in xs: ...] over a body that can raise: the list comprehension
    [[f(x) for x in xs]]. *)
Fixpoint mapM {A B : Type} (f : A -> result B) (xs : list A) : result (list B) :=
  match xs with
  | [] => Ok []
  | x :: xs' => y <- f x ;; ys <- mapM f xs' ;; Ok (y :: ys)
  end.

(* ================================================================== *)
(** * Python strings *)
(* ================================================================== *)

Module PyStr.

Definition code (a : ascii) : nat := nat_of_ascii a.

Definition is_digit (a : ascii) : bool := (48 <=? code a) && (code a <=? 57).
Definition is_upper (a : ascii) : bool := (65 <=? code a) && (code a <=? 90).
Definition is_lower (a : ascii) : bool := (97 <=? code a) && (code a <=? 122).
Definition is_alpha (a : ascii) : bool := is_upper a || is_lower a.

(** [str.isspace] on ASCII: tab, line feed, vertical tab, form feed,
    carriage return, the four separators 28..31 and the space. *)
Definition is_space (a : ascii) : bool :=
  ((9 <=? code a) && (code a <=? 13)) || ((28 <=? code a) && (code a <=? 32)).

(** The [\w] class on ASCII. *)
Definition is_word (a : ascii) : bool :=
  is_alpha a || is_digit a || (code a =? 95).

Definition upper_char (a : ascii) : ascii :=
  if is_lower a then ascii_of_nat (code a - 32) else a.
Definition lower_char (a : ascii) : ascii :=
  if is_upper a then ascii_of_nat (code a + 32) else a.
Definition swapcase_char (a : ascii) : ascii :=
  if is_lower a then upper_char a else lower_char a.

Definition chars (s : string) : list ascii := list_ascii_of_string s.
Definition str (l : list ascii) : string := string_of_list_ascii l.

Definition upper (s : string) : string := str (map upper_char (chars s)).
Definition lower (s : string) : string := str (map lower_char (chars s)).

Fixpoint lstrip_chars (l : list ascii) : list ascii :=
  match l with
  | a :: l' => if is_space a then lstrip_chars l' else l
  | [] => []
  end.

Definition rstrip_chars (l : list ascii) : list ascii :=
  rev (lstrip_chars (rev l)).

(** [s.strip()] *)
Definition strip (s : string) : string :=
  str (rstrip_chars (lstrip_chars (chars s))).

Definition len (s : string) : nat := String.length s.

Definition is_empty (s : string) : bool :=
  match s with EmptyString => true | _ => false end.

(** Truthiness of a string: [if s:] *)
Definition truthy (s : string) : bool := negb (is_empty s).

Fixpoint prefix_chars (p l : list ascii) : bool :=
  match p, l with
  | [], _ => true
  | a :: p', b :: l' => Ascii.eqb a b && prefix_chars p' l'
  | _ :: _, [] => false
  end.

(** [s.startswith(p)] *)
Definition startswith (s p : string) : bool := prefix_chars (chars p) (chars s).

(** [s.endswith(p)] *)
Definition endswith (s p : string) : bool :=
  prefix_chars (rev (chars p)) (rev (chars s)).

Fixpoint contains_chars (p l : list ascii) : bool :=
  prefix_chars p l ||
  match l with
  | [] => false
  | _ :: l' => contains_chars p l'
  end.

(** [p in s] *)
Definition contains (p s : string) : bool := contains_chars (chars p) (chars s).

(** [s[:n]] *)
Definition take (n : nat) (s : string) : string := str (firstn n (chars s)).

(** [s[:n]] for a large constant [n] *)
Definition take_N (n : N) (s : string) : string := take (N.to_nat n) s.

(** [len(s) > n] for a large constant [n] *)
Definition longer_than (n : N) (s : string) : bool := (n <? N.of_nat (String.length s))%N.

(** [s[a:b]] for [0 <= a], [0 <= b] *)
Definition slice (a b : nat) (s : string) : string :=
  str (firstn (b - a) (skipn a (chars s))).

(** [s[1:-1]] *)
Definition strip_ends (s : string) : string :=
  str (removelast (tl (chars s))).

(** [s.replace(old, new)] for a non-empty [old]; the recursion carries the
    number of characters still covered by the occurrence being replaced. *)
Fixpoint replace_chars (old new : list ascii) (skip : nat) (l : list ascii) : list ascii :=
  match l with
  | [] => []
  | a :: l' =>
      match skip with
      | S k => replace_chars old new k l'
      | O =>
          if prefix_chars old l
          then new ++ replace_chars old new (List.length old - 1) l'
          else a :: replace_chars old new 0 l'
      end
  end.

Definition replace (old new s : string) : string :=
  match old with
  | EmptyString => s
  | _ => str (replace_chars (chars old) (chars new) 0 (chars s))
  end.

(** [s.split()]: the words between runs of white space. *)
Fixpoint split_ws_chars (cur : list ascii) (l : list ascii) : list (list ascii) :=
  match l with
  | [] => match cur with [] => [] | _ => [rev cur] end
  | a :: l' =>
      if is_space a
      then match cur with
           | [] => split_ws_chars [] l'
           | _ => rev cur :: split_ws_chars [] l'
           end
      else split_ws_chars (a :: cur) l'
  end.

Definition split_ws (s : string) : list string :=
  map str (split_ws_chars [] (chars s)).

(** [s.split(sep, 1)] for a one-character separator: the text before the
    first separator and, when there is one, the text after it. *)
Fixpoint split1_chars (sep : ascii) (l : list ascii) : list ascii * option (list ascii) :=
  match l with
  | [] => ([], None)
  | a :: l' =>
      if Ascii.eqb a sep then ([], Some l')
      else let '(h, t) := split1_chars sep l' in (a :: h, t)
  end.

(** [s.split(sep)] for a one-character separator. *)
Fixpoint split_chars (sep : ascii) (cur : list ascii) (l : list ascii) : list (list ascii) :=
  match l with
  | [] => [rev cur]
  | a :: l' =>
      if Ascii.eqb a sep then rev cur :: split_chars sep [] l'
      else split_chars sep (a :: cur) l'
  end.

Definition split (sep : ascii) (s : string) : list string :=
  map str (split_chars sep [] (chars s)).

Definition LF : ascii := ascii_of_nat 10.
Definition CR : ascii := ascii_of_nat 13.

(** A line boundary of [str.splitlines] on ASCII text: line feed, vertical
    tab, form feed, carriage return and the separators 28..30. *)
Definition is_linebreak (a : ascii) : bool :=
  ((10 <=? code a) && (code a <=? 13)) || ((28 <=? code a) && (code a <=? 30)).

(** [s.splitlines()]: a carriage return followed by a line feed is one
    boundary ([after_cr]); no empty line is produced after a final
    boundary. *)
Fixpoint splitlines_chars (cur : list ascii) (after_cr : bool) (l : list ascii)
  : list (list ascii) :=
  match l with
  | [] => match cur with [] => [] | _ => [rev cur] end
  | a :: l' =>
      if after_cr && Ascii.eqb a LF then splitlines_chars cur false l'
      else if is_linebreak a
      then rev cur :: splitlines_chars [] (Ascii.eqb a CR) l'
      else splitlines_chars (a :: cur) false l'
  end.

Definition splitlines (s : string) : list string :=
  map str (splitlines_chars [] false (chars s)).

(** [sep.join(parts)] *)
Fixpoint join (sep : string) (parts : list string) : string :=
  match parts with
  | [] => ""
  | [p] => p
  | p :: rest => p ++ sep ++ join sep rest
  end.

Definition zero : ascii := "0"%char.

(** [s.zfill(width)]: zeros are inserted after a leading sign. *)
Definition zfill (width : nat) (s : string) : string :=
  let l := chars s in
  let pad := repeat zero (width - List.length l) in
  match l with
  | a :: l' =>
      if Ascii.eqb a "+"%char || Ascii.eqb a "-"%char
      then str (a :: pad ++ l')
      else str (pad ++ l)
  | [] => str pad
  end.

Definition all_digits (s : string) : bool := forallb is_digit (chars s).

Definition nl : string := String LF EmptyString.

End PyStr.

(* ================================================================== *)
(** * Regular expressions: the part of Python's [re] the module uses *)
(* ================================================================== *)

Module Re.
Import PyStr.
Local Open Scope char_scope.
Local Open Scope nat_scope.

(** The flags the module passes: [re.I], [re.S], [re.VERBOSE]. *)
Record flags : Type := Flags { ignorecase : bool; dotall : bool; verbose : bool }.

Definition NOFLAG : flags := Flags false false false.
Definition I : flags := Flags true false false.
Definition I_S : flags := Flags true true false.
Definition VERBOSE : flags := Flags false false true.

(** ** Syntax *)

(** A member of a bracketed class. [CBeyond] stands for a code point above
    the byte range (an escape such as [\u2019]): it matches no character of
    the model. *)
Inductive citem : Type :=
| CLit (c : ascii)
| CRange (lo hi : ascii)
| CDigit
| CSpace
| CWord
| CNot (i : citem)
| CBeyond.

Inductive cset : Type :=
| CDot
| CSet (neg : bool) (items : list citem).

(** Unbounded repetition is kept for one-character bodies ([RStar]), which
    is all the module's patterns need; a bounded repetition may have any
    body ([RRep]). *)
Inductive re : Type :=
| REps
| RChar (cs : cset)
| RCat (r1 r2 : re)
| RAlt (r1 r2 : re)
| RStar (cs : cset) (lo : nat) (greedy : bool)
| RRep (r : re) (lo hi : nat) (greedy : bool)
| RGroup (n : nat) (r : re)
| RLook (positive : bool) (r : re)
| RBol
| REol
| REndZ
| RWordB.

(** ** Parsing a pattern string *)

Definition is_re_space (a : ascii) : bool :=
  ((9 <=? code a) && (code a <=? 13)) || (code a =? 32).

Definition hexval (a : ascii) : option nat :=
  if is_digit a then Some (code a - 48)
  else if (97 <=? code a) && (code a <=? 102) then Some (code a - 87)
  else if (65 <=? code a) && (code a <=? 70) then Some (code a - 55)
  else None.

Fixpoint read_hex (n acc : nat) (s : list ascii) : option (nat * list ascii) :=
  match n with
  | O => Some (acc, s)
  | S n' =>
      match s with
      | a :: s' =>
          match hexval a with
          | Some v => read_hex n' (acc * 16 + v) s'
          | None => None
          end
      | [] => None
      end
  end.

Definition lit_of_code (n : nat) : citem :=
  if n <? 256 then CLit (ascii_of_nat n) else CBeyond.

(** The escape after a backslash, when it denotes a character or a
    category. *)
Definition parse_escape (in_class : bool) (s : list ascii) : option (citem * list ascii) :=
  match s with
  | "d" :: s' => Some (CDigit, s')
  | "D" :: s' => Some (CNot CDigit, s')
  | "s" :: s' => Some (CSpace, s')
  | "S" :: s' => Some (CNot CSpace, s')
  | "w" :: s' => Some (CWord, s')
  | "W" :: s' => Some (CNot CWord, s')
  | "n" :: s' => Some (CLit LF, s')
  | "t" :: s' => Some (CLit (ascii_of_nat 9), s')
  | "r" :: s' => Some (CLit CR, s')
  | "f" :: s' => Some (CLit (ascii_of_nat 12), s')
  | "v" :: s' => Some (CLit (ascii_of_nat 11), s')
  | "u" :: s' =>
      match read_hex 4 0 s' with
      | Some (n, s'') => Some (lit_of_code n, s'')
      | None => None
      end
  | "x" :: s' =>
      match read_hex 2 0 s' with
      | Some (n, s'') => Some (lit_of_code n, s'')
      | None => None
      end
  | "b" :: s' => if in_class then Some (CLit (ascii_of_nat 8), s') else None
  | a :: s' => if is_alpha a || is_digit a then None else Some (CLit a, s')
  | [] => None
  end.

Definition read_class_atom (s : list ascii) : option (citem * list ascii) :=
  match s with
  | "\" :: s' => parse_escape true s'
  | a :: s' => Some (CLit a, s')
  | [] => None
  end.

Fixpoint parse_class (fuel : nat) (s : list ascii) (acc : list citem)
  : option (list citem * list ascii) :=
  match fuel with
  | O => None
  | S f =>
      match s with
      | "]" :: s' => Some (rev acc, s')
      | _ =>
          match read_class_atom s with
          | Some (CLit lo, "-" :: "]" :: s2) =>
              Some (rev (CLit "-" :: CLit lo :: acc), s2)
          | Some (CLit lo, "-" :: s2) =>
              match read_class_atom s2 with
              | Some (CLit hi, s3) => parse_class f s3 (CRange lo hi :: acc)
              | _ => None
              end
          | Some (it, s1) => parse_class f s1 (it :: acc)
          | None => None
          end
      end
  end.

Fixpoint read_digits (acc : nat) (seen : bool) (s : list ascii) : nat * bool * list ascii :=
  match s with
  | a :: s' =>
      if is_digit a then read_digits (acc * 10 + (code a - 48)) true s'
      else (acc, seen, s)
  | [] => (acc, seen, s)
  end.

(** The text after an opening brace: [m}], [m,}], [m,n}] or [,n}]. *)
Definition parse_braces (s : list ascii) : option (nat * option nat * list ascii) :=
  match s with
  | "}" :: _ => None
  | _ =>
      let '(lo, seen_lo, s1) := read_digits 0 false s in
      match s1 with
      | "}" :: s2 => if seen_lo then Some (lo, Some lo, s2) else None
      | "," :: s2 =>
          let '(hi, seen_hi, s3) := read_digits 0 false s2 in
          match s3 with
          | "}" :: s4 => Some (lo, if seen_hi then Some hi else None, s4)
          | _ => None
          end
      | _ => None
      end
  end.

Definition apply_quant (r : re) (lo : nat) (hi : option nat) (greedy : bool) : option re :=
  match hi with
  | Some h => Some (RRep r lo h greedy)
  | None =>
      match r with
      | RChar cs => Some (RStar cs lo greedy)
      | _ => None
      end
  end.

Definition finish_quant (r : re) (lo : nat) (hi : option nat) (s : list ascii)
  : option (re * list ascii) :=
  match s with
  | "?" :: s' => option_map (fun q => (q, s')) (apply_quant r lo hi false)
  | _ => option_map (fun q => (q, s)) (apply_quant r lo hi true)
  end.

Definition parse_quant (r : re) (s : list ascii) : option (re * list ascii) :=
  match s with
  | "*" :: s1 => finish_quant r 0 None s1
  | "+" :: s1 => finish_quant r 1 None s1
  | "?" :: s1 => finish_quant r 0 (Some 1) s1
  | "{" :: s1 =>
      match parse_braces s1 with
      | Some (lo, hi, s2) => finish_quant r lo hi s2
      | None => Some (r, s)
      end
  | _ => Some (r, s)
  end.

(** In verbose mode white space and [#] comments outside a class are
    skipped. *)
Fixpoint skip_verbose (in_comment : bool) (s : list ascii) : list ascii :=
  match s with
  | a :: s' =>
      if in_comment then skip_verbose (negb (Ascii.eqb a LF)) s'
      else if is_re_space a then skip_verbose false s'
      else if Ascii.eqb a "#" then skip_verbose true s'
      else s
  | [] => []
  end.

Definition lit (a : ascii) : re := RChar (CSet false [CLit a]).

(** Recursive descent; [g] counts the capturing groups opened so far, so a
    group is numbered by its opening parenthesis. *)
Fixpoint parse_alt (fuel : nat) (vb : bool) (s : list ascii) (g : nat) {struct fuel}
  : option (re * list ascii * nat) :=
  match fuel with
  | O => None
  | S f =>
      match parse_seq f vb s g with
      | Some (r1, "|" :: s2, g1) =>
          match parse_alt f vb s2 g1 with
          | Some (r2, s3, g2) => Some (RAlt r1 r2, s3, g2)
          | None => None
          end
      | other => other
      end
  end

with parse_seq (fuel : nat) (vb : bool) (s : list ascii) (g : nat) {struct fuel}
  : option (re * list ascii * nat) :=
  match fuel with
  | O => None
  | S f =>
      let s0 := if vb then skip_verbose false s else s in
      match s0 with
      | [] => Some (REps, s0, g)
      | "|" :: _ => Some (REps, s0, g)
      | ")" :: _ => Some (REps, s0, g)
      | _ =>
          match parse_atom f vb s0 g with
          | Some (a, s1, g1) =>
              match parse_quant a (if vb then skip_verbose false s1 else s1) with
              | Some (q, s2) =>
                  match parse_seq f vb s2 g1 with
                  | Some (REps, s3, g3) => Some (q, s3, g3)
                  | Some (r, s3, g3) => Some (RCat q r, s3, g3)
                  | None => None
                  end
              | None => None
              end
          | None => None
          end
      end
  end

with parse_atom (fuel : nat) (vb : bool) (s : list ascii) (g : nat) {struct fuel}
  : option (re * list ascii * nat) :=
  match fuel with
  | O => None
  | S f =>
      match s with
      | "(" :: "?" :: ":" :: s1 =>
          match parse_alt f vb s1 g with
          | Some (r, ")" :: s2, g1) => Some (r, s2, g1)
          | _ => None
          end
      | "(" :: "?" :: "=" :: s1 =>
          match parse_alt f vb s1 g with
          | Some (r, ")" :: s2, g1) => Some (RLook true r, s2, g1)
          | _ => None
          end
      | "(" :: "?" :: "!" :: s1 =>
          match parse_alt f vb s1 g with
          | Some (r, ")" :: s2, g1) => Some (RLook false r, s2, g1)
          | _ => None
          end
      | "(" :: "?" :: _ => None
      | "(" :: s1 =>
          match parse_alt f vb s1 (S g) with
          | Some (r, ")" :: s2, g1) => Some (RGroup (S g) r, s2, g1)
          | _ => None
          end
      | "[" :: "^" :: s1 =>
          match parse_class (S (List.length s1)) s1 [] with
          | Some (items, s2) => Some (RChar (CSet true items), s2, g)
          | None => None
          end
      | "[" :: s1 =>
          match parse_class (S (List.length s1)) s1 [] with
          | Some (items, s2) => Some (RChar (CSet false items), s2, g)
          | None => None
          end
      | "\" :: "b" :: s1 => Some (RWordB, s1, g)
      | "\" :: "Z" :: s1 => Some (REndZ, s1, g)
      | "\" :: "A" :: s1 => Some (RBol, s1, g)
      | "\" :: s1 =>
          match parse_escape false s1 with
          | Some (it, s2) => Some (RChar (CSet false [it]), s2, g)
          | None => None
          end
      | "." :: s1 => Some (RChar CDot, s1, g)
      | "^" :: s1 => Some (RBol, s1, g)
      | "$" :: s1 => Some (REol, s1, g)
      | "*" :: _ => None
      | "+" :: _ => None
      | "?" :: _ => None
      | ")" :: _ => None
      | "|" :: _ => None
      | a :: s1 => Some (lit a, s1, g)
      | [] => None
      end
  end.

Definition parse (vb : bool) (pat : string) : option (re * nat) :=
  match parse_alt (4 * String.length pat + 8) vb (chars pat) 0 with
  | Some (r, [], g) => Some (r, g)
  | _ => None
  end.

(** A compiled pattern: [re.compile(pat, flags)]. A pattern outside the
    supported syntax compiles to the expression that matches nothing;
    [compiles] tells the two apart. *)
Record pattern : Type := Pattern { p_re : re; p_groups : nat; p_flags : flags }.

Definition never : re := RChar (CSet false []).

Definition compile (pat : string) (fl : flags) : pattern :=
  match parse (verbose fl) pat with
  | Some (r, g) => Pattern r g fl
  | None => Pattern never 0 fl
  end.

Definition compiles (pat : string) (fl : flags) : bool :=
  match parse (verbose fl) pat with
  | Some _ => true
  | None => false
  end.

(** ** Matching *)

Fixpoint item_match (it : citem) (a : ascii) : bool :=
  match it with
  | CLit c => Ascii.eqb a c
  | CRange lo hi => (code lo <=? code a) && (code a <=? code hi)
  | CDigit => is_digit a
  | CSpace => is_space a
  | CWord => is_word a
  | CNot i => negb (item_match i a)
  | CBeyond => false
  end.

Definition cset_match (fl : flags) (cs : cset) (a : ascii) : bool :=
  match cs with
  | CDot => dotall fl || negb (Ascii.eqb a LF)
  | CSet neg items =>
      xorb neg
        (existsb (fun it =>
                    item_match it a ||
                    (ignorecase fl && item_match it (swapcase_char a))) items)
  end.

(** Captured groups, the most recent first: group number, start, end. *)
Definition caps : Type := list (nat * (nat * nat)).

(** A continuation receives the position reached: its index, the character
    before it and the text after it, with the groups captured so far. *)
Definition cont : Type := nat -> option ascii -> list ascii -> caps -> option (nat * caps).

Section Matcher.
Variable fl : flags.

Fixpoint star (cs : cset) (lo : nat) (greedy : bool) (k : cont) (c : caps)
         (n i : nat) (pv : option ascii) (s : list ascii) {struct s}
  : option (nat * caps) :=
  match s with
  | a :: s' =>
      if cset_match fl cs a then
        if greedy then
          match star cs lo greedy k c (S n) (S i) (Some a) s' with
          | Some x => Some x
          | None => if lo <=? n then k i pv s c else None
          end
        else
          match (if lo <=? n then k i pv s c else None) with
          | Some x => Some x
          | None => star cs lo greedy k c (S n) (S i) (Some a) s'
          end
      else if lo <=? n then k i pv s c else None
  | [] => if lo <=? n then k i pv s c else None
  end.

Definition at_word_boundary (pv : option ascii) (s : list ascii) : bool :=
  xorb (match pv with Some a => is_word a | None => false end)
       (match s with a :: _ => is_word a | [] => false end).

Definition accept : cont := fun i _ _ c => Some (i, c).

Fixpoint m (r : re) (k : cont) (i : nat) (pv : option ascii) (s : list ascii) (c : caps)
         {struct r} : option (nat * caps) :=
  match r with
  | REps => k i pv s c
  | RChar cs =>
      match s with
      | a :: s' => if cset_match fl cs a then k (S i) (Some a) s' c else None
      | [] => None
      end
  | RCat r1 r2 => m r1 (fun i' pv' s' c' => m r2 k i' pv' s' c') i pv s c
  | RAlt r1 r2 =>
      match m r1 k i pv s c with
      | Some x => Some x
      | None => m r2 k i pv s c
      end
  | RStar cs lo greedy => star cs lo greedy k c 0 i pv s
  | RRep r1 lo hi greedy =>
      (fix loop (budget n i : nat) (pv : option ascii) (s : list ascii) (c : caps)
           {struct budget} : option (nat * caps) :=
         match budget with
         | O => if lo <=? n then k i pv s c else None
         | S b =>
             if greedy then
               match m r1 (loop b (S n)) i pv s c with
               | Some x => Some x
               | None => if lo <=? n then k i pv s c else None
               end
             else
               match (if lo <=? n then k i pv s c else None) with
               | Some x => Some x
               | None => m r1 (loop b (S n)) i pv s c
               end
         end) hi 0 i pv s c
  | RGroup g r1 => m r1 (fun i' pv' s' c' => k i' pv' s' ((g, (i, i')) :: c')) i pv s c
  | RLook positive r1 =>
      match m r1 accept i pv s c with
      | Some (_, c') => if positive then k i pv s c' else None
      | None => if positive then None else k i pv s c
      end
  | RBol => if i =? 0 then k i pv s c else None
  | REol =>
      match s with
      | [] => k i pv s c
      | [a] => if Ascii.eqb a LF then k i pv s c else None
      | _ => None
      end
  | REndZ =>
      match s with
      | [] => k i pv s c
      | _ => None
      end
  | RWordB => if at_word_boundary pv s then k i pv s c else None
  end.

(** A match found: start, end, groups. *)
Definition span : Type := (nat * nat * caps)%type.

Definition match_at (r : re) (i : nat) (pv : option ascii) (s : list ascii) : option span :=
  match m r accept i pv s [] with
  | Some (e, c) => Some (i, e, c)
  | None => None
  end.

(** The leftmost match at or after the current position. *)
Fixpoint search_from (r : re) (i : nat) (pv : option ascii) (s : list ascii) {struct s}
  : option span :=
  match match_at r i pv s with
  | Some x => Some x
  | None =>
      match s with
      | a :: s' => search_from r (S i) (Some a) s'
      | [] => None
      end
  end.

(** All matches, left to right and not overlapping: [skip] counts the
    characters still covered by the last match. *)
Fixpoint scan (r : re) (skip i : nat) (pv : option ascii) (s : list ascii) {struct s}
  : list span :=
  match skip with
  | S k =>
      match s with
      | a :: s' => scan r k (S i) (Some a) s'
      | [] => []
      end
  | O =>
      match match_at r i pv s with
      | Some (b, e, c) =>
          (b, e, c) ::
          match s with
          | a :: s' => scan r (e - i - 1) (S i) (Some a) s'
          | [] => []
          end
      | None =>
          match s with
          | a :: s' => scan r 0 (S i) (Some a) s'
          | [] => []
          end
      end
  end.

(** Substitution of a constant text for every match. *)
Fixpoint sub_scan (r : re) (repl : list ascii) (skip i : nat) (pv : option ascii)
         (s : list ascii) {struct s} : list ascii :=
  match skip with
  | S k =>
      match s with
      | a :: s' => sub_scan r repl k (S i) (Some a) s'
      | [] => []
      end
  | O =>
      match match_at r i pv s with
      | Some (_, e, _) =>
          repl ++
          match s with
          | a :: s' =>
              if e =? i then a :: sub_scan r repl 0 (S i) (Some a) s'
              else sub_scan r repl (e - i - 1) (S i) (Some a) s'
          | [] => []
          end
      | None =>
          match s with
          | a :: s' => a :: sub_scan r repl 0 (S i) (Some a) s'
          | [] => []
          end
      end
  end.

End Matcher.

(** ** Match objects and the module-level functions *)

Record rmatch : Type := Match { m_text : string; m_start : nat; m_end : nat; m_caps : caps }.

Fixpoint lookup_group (g : nat) (c : caps) : option (nat * nat) :=
  match c with
  | [] => None
  | (g', se) :: c' => if g' =? g then Some se else lookup_group g c'
  end.

(** [m.group(0)] *)
Definition group0 (x : rmatch) : string := slice (m_start x) (m_end x) (m_text x).

(** [m.group(g)] for [g >= 1]: [None] when the group took no part. *)
Definition group (x : rmatch) (g : nat) : option string :=
  match lookup_group g (m_caps x) with
  | Some (b, e) => Some (slice b e (m_text x))
  | None => None
  end.

(** [m.group(g)] used as text: a group that took no part is [None], and
    the conversion or method applied to it raises. *)
Definition group_str (e : exn) (x : rmatch) (g : nat) : result string :=
  match group x g with
  | Some s => Ok s
  | None => Raise e
  end.

(** [m.lastindex is None] *)
Definition no_group_matched (x : rmatch) : bool :=
  match m_caps x with [] => true | _ => false end.

Definition to_match (text : string) (x : span) : rmatch :=
  let '(b, e, c) := x in Match text b e c.

(** [p.search(text)] *)
Definition search (p : pattern) (text : string) : option rmatch :=
  option_map (to_match text) (search_from (p_flags p) (p_re p) 0 None (chars text)).

(** [p.match(text)]: a match that starts at the beginning of the text. *)
Definition match_ (p : pattern) (text : string) : option rmatch :=
  option_map (to_match text) (match_at (p_flags p) (p_re p) 0 None (chars text)).

(** [p.finditer(text)] *)
Definition finditer (p : pattern) (text : string) : list rmatch :=
  map (to_match text) (scan (p_flags p) (p_re p) 0 0 None (chars text)).

Definition group_or_empty (x : rmatch) (g : nat) : string :=
  match group x g with Some s => s | None => EmptyString end.

(** [p.findall(text)] for a pattern with at most one group: the group, or
    the whole match when the pattern has none. *)
Definition findall (p : pattern) (text : string) : list string :=
  map (fun x => match p_groups p with O => group0 x | _ => group_or_empty x 1 end)
      (finditer p text).

(** [p.findall(text)] for a pattern with several groups: one tuple per
    match. *)
Definition findall_tuples (p : pattern) (text : string) : list (list string) :=
  map (fun x => map (group_or_empty x) (seq 1 (p_groups p))) (finditer p text).

(** [p.sub(repl, text)] for a replacement without group references. *)
Definition sub (p : pattern) (repl text : string) : string :=
  str (sub_scan (p_flags p) (p_re p) (chars repl) 0 0 None (chars text)).

End Re.

(* ================================================================== *)
(** * Python floats *)
(* ================================================================== *)

Module PyFloat.
Local Open Scope Z_scope.

(** A [float] is a binary64 number: precision 53, largest exponent 1024. *)
Definition float : Type := spec_float.

Definition prec : Z := 53.
Definition emax : Z := 1024.

Definition add (x y : float) : float := SFadd prec emax x y.
Definition sub (x y : float) : float := SFsub prec emax x y.
Definition mul (x y : float) : float := SFmul prec emax x y.
(** [x / y] for a divisor the caller has checked to be non-zero. *)
Definition div (x y : float) : float := SFdiv prec emax x y.

Definition eqb (x y : float) : bool := SFeqb x y.
Definition ltb (x y : float) : bool := SFltb x y.
Definition leb (x y : float) : bool := SFleb x y.

(** The float nearest to the quotient of two positive integers. *)
Definition of_ratio (n d : positive) : float :=
  SFdiv prec emax (S754_finite false n 0) (S754_finite false d 0).

(** The float nearest to an integer. *)
Definition of_Z (z : Z) : float := binary_normalize prec emax z 0 false.

(** [float(n)] for an integer, as the interpreter converts one that meets
    a float in arithmetic: the nearest float, ties to even; an integer
    that rounds beyond the largest float, [2^1024 - 2^970] or more in
    magnitude, raises [OverflowError]. *)
Definition of_int (z : Z) : result float :=
  if 2 ^ 1024 - 2 ^ 970 <=? Z.abs z then Raise OverflowError else Ok (of_Z z).

Definition digit_val (a : ascii) : Z := Z.of_nat (PyStr.code a - 48).

Fixpoint digits_val (acc : Z) (l : list ascii) : Z :=
  match l with
  | [] => acc
  | a :: l' => digits_val (10 * acc + digit_val a) l'
  end.

(** [float(s)] for the texts the extractors pass: captures made of digits
    and dots.  One dot at most and one digit at least, or [ValueError].
    (Python's [float] also reads signs, exponents, underscores, [inf],
    [nan] and surrounding white space; no caller passes such a text.) *)
Definition of_string (s : string) : result float :=
  let l := PyStr.chars s in
  let '(ip, rest) := PyStr.split1_chars "."%char l in
  let fp := match rest with Some f => f | None => [] end in
  if forallb PyStr.is_digit ip && forallb PyStr.is_digit fp
     && negb (Nat.eqb (List.length ip + List.length fp) 0)
  then
    match digits_val 0 (ip ++ fp) with
    | Zpos n => Ok (of_ratio n (Z.to_pos (10 ^ Z.of_nat (List.length fp))))
    | _ => Ok (S754_zero false)
    end
  else Raise ValueError.

(** Rounding of a quotient to the nearest integer, ties to even. *)
Definition round_half_even (num den : Z) : Z :=
  let q := num / den in
  match (2 * (num mod den)) ?= den with
  | Lt => q
  | Gt => q + 1
  | Eq => if Z.even q then q else q + 1
  end.

(** [round(x, ndigits)]: the exact value of [x] is rounded to [ndigits]
    decimals, ties to even, and the decimal is read back as the nearest
    float. Infinities and NaN round to themselves. *)
Definition round (x : float) (ndigits : nat) : float :=
  match x with
  | S754_finite s m e =>
      let p := 10 ^ Z.of_nat ndigits in
      let r := if 0 <=? e then Zpos m * 2 ^ e * p
               else round_half_even (Zpos m * p) (2 ^ (- e)) in
      match r with
      | Zpos rp => SFdiv prec emax (S754_finite s rp 0) (S754_finite false (Z.to_pos p) 0)
      | _ => S754_zero s
      end
  | _ => x
  end.

(** [int(x)]: truncation toward zero. *)
Definition to_int (x : float) : result Z :=
  match x with
  | S754_zero _ => Ok 0
  | S754_finite s m e =>
      let a := if 0 <=? e then Zpos m * 2 ^ e else Zpos m / 2 ^ (- e) in
      Ok (if s then - a else a)
  | S754_infinity _ => Raise OverflowError
  | S754_nan => Raise ValueError
  end.

Definition zero : float := S754_zero false.

End PyFloat.

(* ================================================================== *)
(** * Python integers read from and written to text *)
(* ================================================================== *)

Module PyInt.
Local Open Scope Z_scope.

(** [sys.int_max_str_digits]: the interpreter refuses to convert between
    text and an integer of more digits. *)
Definition int_max_str_digits : nat := 4300.

(** Digits, with single underscores allowed between two digits. *)
Fixpoint digits (acc : Z) (count : nat) (after_digit : bool) (l : list ascii)
  : option (Z * nat) :=
  match l with
  | [] => if after_digit then Some (acc, count) else None
  | a :: l' =>
      if PyStr.is_digit a
      then digits (10 * acc + PyFloat.digit_val a) (S count) true l'
      else if Ascii.eqb a "_"%char && after_digit
      then digits acc count false l'
      else None
  end.

(** The white space [int] skips at both ends of an ASCII text: tab, line
    feed, vertical tab, form feed, carriage return and the space.
    ([str.strip] also removes the separators 28..31; [int] leaves them in
    place and fails on them.) *)
Definition is_blank (a : ascii) : bool :=
  (((9 <=? PyStr.code a) && (PyStr.code a <=? 13)) || (PyStr.code a =? 32))%nat.

Fixpoint skip_blank (l : list ascii) : list ascii :=
  match l with
  | a :: l' => if is_blank a then skip_blank l' else l
  | [] => []
  end.

Definition trim (l : list ascii) : list ascii :=
  rev (skip_blank (rev (skip_blank l))).

(** [int(s)] in base ten: surrounding white space, an optional sign, the
    digits. *)
Definition of_string (s : string) : result Z :=
  let l := trim (PyStr.chars s) in
  let '(neg, body) :=
    match l with
    | a :: l' =>
        if Ascii.eqb a "-"%char then (true, l')
        else if Ascii.eqb a "+"%char then (false, l')
        else (false, l)
    | [] => (false, l)
    end in
  match digits 0 0 false body with
  | Some (n, count) =>
      if (int_max_str_digits <? count)%nat then Raise ValueError
      else Ok (if neg then - n else n)
  | None => Raise ValueError
  end.

Definition digit_char (d : Z) : ascii := ascii_of_nat (48 + Z.to_nat d).

(** The decimal digits of a non-negative integer, the least significant
    first; [fuel] bounds their number. *)
Fixpoint digits_rev (fuel : nat) (n : Z) : list ascii :=
  match fuel with
  | O => []
  | S f => digit_char (n mod 10) :: (if n <? 10 then [] else digits_rev f (n / 10))
  end.

(** The decimal text of an integer; its binary length bounds the number
    of its digits. *)
Definition decimal (n : Z) : string :=
  let body := PyStr.str (rev (digits_rev (S (Z.to_nat (Z.log2 (Z.abs n)))) (Z.abs n))) in
  if n <? 0 then String "-"%char body else body.

(** [str(n)] *)
Definition to_string (n : Z) : result string :=
  if Z.abs n <? 10 ^ Z.of_nat int_max_str_digits
  then Ok (decimal n)
  else Raise ValueError.

Definition nat_to_string (n : nat) : string := decimal (Z.of_nat n).

End PyInt.

(* ================================================================== *)
(** * Utility functions *)
(* ================================================================== *)

(** Normalize company name for matching. *)
Definition clean_company_name (name : string) : string :=
  let s := PyStr.upper name in
  let s := Re.sub (Re.compile
             "\b(CORPORATION|CORP|INC|LLC|LLP|LTD|LIMITED|CO|COMPANY|PLC|AG|SA)\b\.?"
             Re.NOFLAG) "" s in
  let s := Re.sub (Re.compile "[.,&''\-—–/\\()]+" Re.NOFLAG) " " s in
  let s := PyStr.strip (Re.sub (Re.compile "\s+" Re.NOFLAG) " " s) in
  let s := Re.sub (Re.compile "^THE\s+" Re.NOFLAG) "" s in
  let s := Re.sub (Re.compile "\s+THE$" Re.NOFLAG) "" s in
  PyStr.strip (PyStr.lower s).

(* ================================================================== *)
(** * CIK lookup *)
(* ================================================================== *)

(** What an HTTP request for a JSON or text resource comes to: an
    exception (connection failure, timeout, malformed body), a status other
    than 200, or the decoded body. *)
Inductive http (A : Type) : Type :=
| HttpException (message : string)
| HttpStatus (status : nat)
| HttpBody (body : A).

Arguments HttpException {A} message.
Arguments HttpStatus {A} status.
Arguments HttpBody {A} body.

(** A cell of a registry row, as JSON decodes it. Rows are arrays of
    scalar cells; floats and nested values are left out of the model. *)
Inductive cell : Type :=
| CellNone
| CellBool (b : bool)
| CellInt (n : Z)
| CellStr (s : string).

Definition row : Type := list cell.

(** [str(x)] *)
Definition cell_str (x : cell) : result string :=
  match x with
  | CellNone => Ok "None"
  | CellBool true => Ok "True"
  | CellBool false => Ok "False"
  | CellInt n => PyInt.to_string n
  | CellStr s => Ok s
  end.

(** [int(x)] *)
Definition cell_int (x : cell) : result Z :=
  match x with
  | CellNone => Raise TypeError
  | CellBool b => Ok (if b then 1 else 0)%Z
  | CellInt n => Ok n
  | CellStr s => PyInt.of_string s
  end.

(** The loop over the registry rows of [get_cik_from_ticker_or_name]. The
    conversion of the identifier has its own handler (the row is skipped);
    an exception raised anywhere else leaves the loop. *)
Fixpoint scan_rows (company_clean ticker_upper : string) (rows : list row)
  : result (option string * option string) :=
  match rows with
  | [] => Ok (None, None)
  | r :: rest =>
      if List.length r <? 4 then scan_rows company_clean ticker_upper rest
      else
        let cik_raw := nth 0 r CellNone in
        legal <- cell_str (nth 1 r CellNone) ;;
        symbol <- cell_str (nth 2 r CellNone) ;;
        let name := clean_company_name (PyStr.lower legal) in
        let ticker := PyStr.upper (PyStr.strip symbol) in
        match (n <- cell_int cik_raw ;; PyInt.to_string n) with
        | Raise _ => scan_rows company_clean ticker_upper rest
        | Ok digits =>
            let cik_str := PyStr.zfill 10 digits in
            if String.eqb ticker ticker_upper then Ok (Some cik_str, Some ticker)
            else if String.eqb company_clean (clean_company_name name)
            then Ok (Some cik_str, Some ticker)
            else scan_rows company_clean ticker_upper rest
        end
  end.

(** [company_name.strip() if company_name else ""] *)
Definition strip_or_empty (s : option string) : string :=
  match s with
  | Some x => if PyStr.truthy x then PyStr.strip x else ""
  | None => ""
  end.

(** Resolve company identifier to 10-digit CIK. Returns: (cik, ticker). *)
Definition get_cik_from_ticker_or_name
           (company_name ticker_symbol : option string)
           (registry : http (list row)) : option string * option string :=
  let wcompany_name := strip_or_empty company_name in
  let wticker_symbol := strip_or_empty ticker_symbol in
  if negb (PyStr.truthy wcompany_name) && negb (PyStr.truthy wticker_symbol)
  then (None, None)
  else
    match registry with
    | HttpException _ => (None, None)
    | HttpStatus _ => (None, None)
    | HttpBody rows =>
        match scan_rows (clean_company_name wcompany_name)
                        (PyStr.upper wticker_symbol) rows with
        | Ok found => found
        | Raise _ => (None, None)
        end
    end.

(** ** The disk cache under [data/sec] *)

(** A cache file holds text, or exists and cannot be read. *)
Inductive file : Type :=
| FileText (content : string)
| FileUnreadable.

(** The cache directory: the files by name, and the names a write fails
    on. *)
Record disk : Type := Disk {
  files : string -> option file;
  write_fails : string -> bool
}.

(** [path.write_text(content)]: [None] when the write raises. *)
Definition write_text (d : disk) (name content : string) : option disk :=
  if write_fails d name then None
  else Some (Disk (fun n => if String.eqb n name then Some (FileText content) else files d n)
                  (write_fails d)).

(** The scan of the archive's lines in [get_cik_from_archive]. *)
Fixpoint scan_lines (search_lower : string) (lines : list string) : option string :=
  match lines with
  | [] => None
  | line :: rest =>
      match PyStr.split1_chars ":"%char (PyStr.chars line) with
      | (_, None) => scan_lines search_lower rest
      | (name_part, Some cik_part) =>
          let padded := PyStr.zfill 10 (PyStr.strip (PyStr.str cik_part)) in
          let cik := PyStr.str (fst (PyStr.split1_chars ":"%char (PyStr.chars padded))) in
          let clean_name := clean_company_name (PyStr.str name_part) in
          if negb (String.eqb cik "0000000000") && String.eqb clean_name search_lower
          then Some cik
          else scan_lines search_lower rest
      end
  end.

(** Fallback: search SEC's archive. The company name is [None] when the
    caller gave only a ticker: [company_name.strip()] then raises before
    the function's [try]. The result is the identifier, [None], or the
    empty text returned when the cache file cannot be read. *)
Definition get_cik_from_archive
           (company_name : option string) (use_disk_cache : bool)
           (cache_filename : option string)
           (archive : http string) (d : disk) : result (option string * disk) :=
  match company_name with
  | None => Raise AttributeError
  | Some name =>
      let search_lower := clean_company_name (PyStr.strip name) in
      let caching :=
        match cache_filename with
        | Some f => if use_disk_cache && PyStr.truthy f then Some f else None
        | None => None
        end in
      let cached := match caching with Some f => files d f | None => None end in
      match cached with
      | Some FileUnreadable => Ok (Some "", d)
      | Some (FileText data) => Ok (scan_lines search_lower (PyStr.splitlines data), d)
      | None =>
          match archive with
          | HttpException _ => Ok (None, d)
          | HttpStatus _ => Ok (None, d)
          | HttpBody data =>
              let d' :=
                match caching with
                | Some f => match write_text d f data with Some d1 => d1 | None => d end
                | None => d
                end in
              Ok (scan_lines search_lower (PyStr.splitlines data), d')
          end
      end
  end.

(* ================================================================== *)
(** * HTML/XML fetching *)
(* ================================================================== *)

(** What a request for a document comes to. *)
Inductive response : Type :=
| Timeout                                    (* [asyncio.TimeoutError] *)
| Failure                                    (* any other exception *)
| Reply (status : nat) (retry_after : option string) (body : string).

(** The network answers a request by its rank among the requests made so
    far and its URL. *)
Definition network : Type := nat -> string -> response.

(** The state a fetch works on: the cache directory and the requests
    issued so far, the latest first. *)
Record io : Type := IO { io_disk : disk; io_requests : list string }.

Definition request (net : network) (url : string) (s : io) : response * io :=
  (net (List.length (io_requests s)) url, IO (io_disk s) (url :: io_requests s)).

(** An element BeautifulSoup's [find_all(['a', 'td', 'tr'])] yields: its
    name, its text ([get_text(strip=True)]), its own [href] attribute and
    the [href] of its first descendant link ([find('a', href=True)]). *)
Record tag : Type := Tag {
  tag_name : string;
  tag_text : string;
  tag_href : option string;
  tag_inner_href : option string
}.

(** The lines of a text, stripped, without the blank ones, joined again. *)
Definition clean_lines (text : string) : string :=
  PyStr.join PyStr.nl
    (filter PyStr.truthy (map PyStr.strip (PyStr.splitlines text))).

Definition truthy_opt (s : option string) : bool :=
  match s with
  | Some x => PyStr.truthy x
  | None => false
  end.

Section Fetcher.

(** BeautifulSoup is outside the module: the elements it finds in a
    document and the text it extracts once [script] and [style] are
    removed. *)
Variable find_all : string -> list tag.
Variable get_text : string -> string.

(** The link a tag offers, when it has one. *)
Definition tag_link (t : tag) : option string :=
  let text := PyStr.lower (tag_text t) in
  if String.eqb (tag_name t) "a" && truthy_opt (tag_href t) then tag_href t
  else if (String.eqb (tag_name t) "td" || String.eqb (tag_name t) "tr")
          && PyStr.contains "99.1" text
  then tag_inner_href t
  else None.

Definition match_conditions (text href_lower : string) : bool :=
  PyStr.contains "99.1" text
  || PyStr.contains "exhibit 99" text
  || PyStr.contains "press release" text
  || (PyStr.contains "earnings" href_lower && PyStr.contains ".htm" href_lower)
  || (PyStr.contains "press" href_lower && PyStr.contains ".htm" href_lower)
  || (PyStr.contains "q1fy" href_lower || PyStr.contains "q2fy" href_lower
      || PyStr.contains "q3fy" href_lower || PyStr.contains "q4fy" href_lower).

Definition exhibit_full_url (cik accession href : string) : string :=
  if PyStr.startswith href "http" then href
  else if PyStr.startswith href "/" then "https://www.sec.gov" ++ href
  else "https://www.sec.gov/Archives/edgar/data/" ++ cik ++ "/"
       ++ PyStr.replace "-" "" accession ++ "/" ++ href.

(** Step 3: the first tag whose text or link looks like Exhibit 99.1. *)
Fixpoint find_exhibit_url (cik accession : string) (tags : list tag) : option string :=
  match tags with
  | [] => None
  | t :: rest =>
      match tag_link t with
      | Some href =>
          if PyStr.truthy href
             && match_conditions (PyStr.lower (tag_text t)) (PyStr.lower href)
          then Some (exhibit_full_url cik accession href)
          else find_exhibit_url cik accession rest
      | None => find_exhibit_url cik accession rest
      end
  end.

(** The two cache files of a filing. *)
Definition exhibit_cache_name (cache_filename : string) : string :=
  PyStr.replace ".txt" "_ex991.txt" cache_filename.

(** [path.read_text()] under [try ... except Exception: pass], when the
    file exists. *)
Definition read_cached (d : disk) (name : string) : option string :=
  match files d name with
  | Some (FileText content) => Some content
  | Some FileUnreadable => None
  | None => None
  end.

(** Steps 3 to 6 of one attempt, once the filing's HTML has arrived. *)
Definition process_download
           (net : network) (cik accession : string) (caching : option string)
           (exhibit_text : option string) (original_html : string) (s : io)
  : (string * option string) * io :=
  let '(exhibit_text, s) :=
    match find_exhibit_url cik accession (find_all original_html) with
    | Some exhibit_url =>
        if PyStr.truthy exhibit_url then
          let '(resp, s1) := request net exhibit_url s in
          match resp with
          | Reply status _ exhibit_html =>
              if status =? 200 then (Some (clean_lines (get_text exhibit_html)), s1)
              else (exhibit_text, s1)
          | Timeout => (None, s1)
          | Failure => (None, s1)
          end
        else (exhibit_text, s)
    | None => (exhibit_text, s)
    end in
  let filing_text := clean_lines (get_text original_html) in
  let d :=
    match caching with
    | Some cache_filename =>
        match write_text (io_disk s) cache_filename filing_text with
        | Some d1 =>
            match exhibit_text with
            | Some e =>
                if PyStr.truthy e then
                  match write_text d1 (exhibit_cache_name cache_filename) e with
                  | Some d2 => d2
                  | None => d1
                  end
                else d1
            | None => d1
            end
        | None => io_disk s
        end
    | None => io_disk s
    end in
  ((filing_text, exhibit_text), IO d (io_requests s)).

(** [int(response.headers.get('Retry-After', 10))]: the header's text
    read as an integer, ten when the header is missing. *)
Definition retry_wait (retry_after : option string) : result Z :=
  match retry_after with
  | Some wait => PyInt.of_string wait
  | None => Ok 10%Z
  end.

(** [await asyncio.sleep(delay)] for an integer delay.  The clock is not
    modelled, so all that is left of a pause is the exception it can
    raise: a delay of zero or less returns at once; a positive one is added
    to the loop's clock, a float, and an integer that has no float raises
    [OverflowError]. *)
Definition sleep (delay : Z) : result unit :=
  if (delay <=? 0)%Z then Ok tt
  else (when <- PyFloat.of_int delay ;; Ok tt).

(** Step 2: the download, tried [attempts] times.  A timeout moves to the
    next attempt; a 429 does so once its pause is over; any exception on
    the way, the header's conversion and the pause included, ends the
    download with the empty result. *)
Fixpoint download (attempts : nat) (net : network) (url cik accession : string)
         (caching : option string) (exhibit_text : option string) (s : io)
  : (string * option string) * io :=
  match attempts with
  | O => (("", None), s)
  | S attempts' =>
      let '(resp, s1) := request net url s in
      match resp with
      | Timeout => download attempts' net url cik accession caching exhibit_text s1
      | Failure => (("", None), s1)
      | Reply status retry_after original_html =>
          if status =? 429 then
            match (wait_time <- retry_wait retry_after ;; sleep wait_time) with
            | Ok _ => download attempts' net url cik accession caching exhibit_text s1
            | Raise _ => (("", None), s1)
            end
          else if negb (status =? 200) then (("", None), s1)
          else process_download net cik accession caching exhibit_text original_html s1
      end
  end.

(** Fetch filing AND its Exhibit 99.1 (if exists) in one go.
    Returns: (filing_text, exhibit_text). *)
Definition fetch_filing_and_exhibit_html
           (net : network) (url cik accession : string)
           (use_disk_cache : bool) (cache_filename : option string) (s : io)
  : (string * option string) * io :=
  let caching :=
    match cache_filename with
    | Some f => if use_disk_cache && PyStr.truthy f then Some f else None
    | None => None
    end in
  let max_retries := 3 in
  match caching with
  | Some f =>
      let filing_text := read_cached (io_disk s) f in
      let exhibit_text := read_cached (io_disk s) (exhibit_cache_name f) in
      if truthy_opt filing_text && truthy_opt exhibit_text
      then ((match filing_text with Some t => t | None => "" end, exhibit_text), s)
      else if truthy_opt filing_text && negb (truthy_opt exhibit_text)
      then ((match filing_text with Some t => t | None => "" end, None), s)
      else download max_retries net url cik accession caching exhibit_text s
  | None => download max_retries net url cik accession caching None s
  end.

End Fetcher.

(* ================================================================== *)
(** * Dictionaries in insertion order *)
(* ================================================================== *)

Section Dict.
Variable V : Type.

Definition dict : Type := list (string * V).

Fixpoint dict_get (k : string) (d : dict) : option V :=
  match d with
  | [] => None
  | (k', v) :: d' => if String.eqb k' k then Some v else dict_get k d'
  end.

(** [k in d] *)
Definition dict_has (k : string) (d : dict) : bool :=
  match dict_get k d with Some _ => true | None => false end.

(** [d[k] = v]: a new key goes last, a known key keeps its place. *)
Fixpoint dict_set (k : string) (v : V) (d : dict) : dict :=
  match d with
  | [] => [(k, v)]
  | (k', v') :: d' =>
      if String.eqb k' k then (k, v) :: d' else (k', v') :: dict_set k v d'
  end.

(** [list(d.keys())] *)
Definition dict_keys (d : dict) : list string := map fst d.

(** Truthiness of a dictionary or list: not empty. *)
Definition nonempty {A : Type} (l : list A) : bool :=
  match l with [] => false | _ => true end.

End Dict.

Arguments dict_get {V} k d.
Arguments dict_has {V} k d.
Arguments dict_set {V} k v d.
Arguments dict_keys {V} d.

(* ================================================================== *)
(** * Section extraction *)
(* ================================================================== *)

(** 8-K: material events. *)
Definition patterns_8k : list (string * string) := [
  ("item_1_01", "(Item\s+1\.01.*?)(?=Item\s+\d|\Z)");
  ("item_2_01", "(Item\s+2\.01.*?)(?=Item\s+\d|\Z)");
  ("item_2_02", "(Item\s+2\.02.*?)(?=Item\s+\d|\Z)");
  ("item_5_02", "(Item\s+5\.02.*?)(?=Item\s+\d|\Z)");
  ("item_8_01", "(Item\s+8\.01.*?)(?=Item\s+\d|\Z)");
  ("ma_activity", "([Mm]erger|[Aa]cquisition|[Dd]ivestiture|[Dd]eal)[^\n]*.*?(?=\n\n|\Z)");
  ("guidance_section", "(?:guidance|outlook|expects?|projections?|forecasts?)[\s\S]{0,4000}");
  ("earnings_release", "(?:EARNINGS RELEASE|RESULTS OF OPERATIONS|QUARTERLY RESULTS)[\s\S]{0,6000}");
  ("financial_outlook", "(?:Financial Outlook|Business Outlook|2025 Outlook)[\s\S]{0,5000}");
  ("board_changes", "(?:director.*(?:appointed|elected|resigned|nominated))[\s\S]{0,3000}")
].

(** DEF 14A: proxy statements. *)
Definition patterns_proxy : list (string * string) := [
  ("board_nominees", "(?:ELECTION OF DIRECTORS|PROPOSAL.*ELECT.*DIRECTOR|DIRECTOR NOMINEES?)[\s\S]{0,8000}");
  ("nominee_details", "(?:Class\s+[I]+\s+Director|Nominee[s]?\s+for\s+Election)[\s\S]{0,5000}");
  ("director_qualifications", "(?:DIRECTOR QUALIFICATIONS|NOMINEE BIOGRAPHIES?)[\s\S]{0,8000}");
  ("proposal_1", "(PROPOSAL\s+(?:1|ONE).*?)(?=PROPOSAL\s+(?:2|TWO)|\Z)")
].

(** 10-K/10-Q: financial reports. *)
Definition patterns_periodic : list (string * string) := [
  ("business", "(Item\s+1\.?\s+Business.*?)(?=Item\s+1A|\Z)");
  ("risk_factors", "(Item\s+1A\.?\s+Risk\s+Factors.*?)(?=Item\s+1B|\Z)");
  ("mda", "(Item\s+7\.?\s+Management[^\n]*.*?)(?=Item\s+7A|Item\s+8|\Z)");
  ("financial_statements", "(Item\s+8\.?\s+Financial\s+Statements.*?)(?=Item\s+9|\Z)");
  ("subscriber_metrics", "(?:paid.*member|subscriber|streaming.*member|average.*user)[\s\S]{0,3000}");
  ("revenue_per_user", "(?:average.*revenue.*(?:per|/)|ARPU|ARPPU)[\s\S]{0,3000}");
  ("membership_table", "(?:membership|subscriber).*(?:table|data)[\s\S]{0,5000}");
  ("quarterly_table", "(?:Q[1-4]|First|Second|Third|Fourth).*?Quarter[\s\S]{0,5000}");
  ("three_months_ended", "(?:Three|3)\s+Months\s+Ended[\s\S]{0,4000}");
  ("margin_analysis", "(?:gross margin|operating margin|pre-tax margin|profit margin)[\s\S]{0,3000}")
].

Definition section_patterns (form : string) : list (string * string) :=
  let form_upper := PyStr.upper form in
  if PyStr.contains "8-K" form_upper then patterns_8k
  else if PyStr.contains "DEF 14A" form_upper || PyStr.contains "DEFA14A" form_upper
  then patterns_proxy
  else patterns_periodic.

(** One pattern of the table: the section it yields, if any. A pattern
    that does not match, or whose group took no part, adds nothing. *)
Definition extract_section (text : string) (entry : string * string) : list (string * string) :=
  let '(name, pattern) := entry in
  match Re.search (Re.compile pattern Re.I_S) text with
  | Some m =>
      let content := if Re.no_group_matched m then Some (Re.group0 m) else Re.group m 1 in
      match content with
      | Some c => [(name, PyStr.strip (PyStr.take_N 12000 c))]
      | None => []
      end
  | None => []
  end.

(** Extract all relevant sections based on form type and keywords. The
    keywords are lower-cased and then not used: the filter that read them
    is disabled in the source. *)
Definition extract_all_sections (text form : string) (keywords : option (list string))
  : dict string :=
  flat_map (extract_section text) (section_patterns form).

(* ================================================================== *)
(** * Lists of values: sets, sorting, counting *)
(* ================================================================== *)

Section Collections.
Variable A : Type.
Variable eqb : A -> A -> bool.
Variable leb : A -> A -> bool.

Definition mem (x : A) (l : list A) : bool := existsb (eqb x) l.

(** The values of a list without repetition, in the order they first
    occur: the [seen] idiom, and the content of [set(l)]. *)
Fixpoint distinct (seen : list A) (l : list A) : list A :=
  match l with
  | [] => []
  | x :: l' => if mem x seen then distinct seen l' else x :: distinct (x :: seen) l'
  end.

Fixpoint insert_sorted (x : A) (l : list A) : list A :=
  match l with
  | [] => [x]
  | y :: l' => if leb x y then x :: l else y :: insert_sorted x l'
  end.

(** [sorted(l)] *)
Fixpoint sorted (l : list A) : list A :=
  match l with
  | [] => []
  | x :: l' => insert_sorted x (sorted l')
  end.

(** [Counter(l)]: each value with the number of its occurrences, in the
    order the values first occur. *)
Fixpoint counter_add (x : A) (c : list (A * nat)) : list (A * nat) :=
  match c with
  | [] => [(x, 1)]
  | (y, n) :: c' => if eqb y x then (y, S n) :: c' else (y, n) :: counter_add x c'
  end.

Definition counter (l : list A) : list (A * nat) :=
  fold_left (fun c x => counter_add x c) l [].

(** [max(items, key=count)]: the first of the entries with the largest
    count. *)
Fixpoint max_count (c : list (A * nat)) : option (A * nat) :=
  match c with
  | [] => None
  | (x, n) :: c' =>
      match max_count c' with
      | Some (y, k) => if n <? k then Some (y, k) else Some (x, n)
      | None => Some (x, n)
      end
  end.

(** [Counter(l).most_common(1)[0][0]] *)
Definition most_common (l : list A) : option A :=
  option_map fst (max_count (counter l)).

Definition count (x : A) (l : list A) : nat := List.length (filter (eqb x) l).

End Collections.

Arguments mem {A} eqb x l.
Arguments distinct {A} eqb seen l.
Arguments insert_sorted {A} leb x l.
Arguments sorted {A} leb l.
Arguments counter_add {A} eqb x c.
Arguments counter {A} eqb l.
Arguments max_count {A} c.
Arguments most_common {A} eqb l.
Arguments count {A} eqb x l.

(* ================================================================== *)
(** * Pre-tax margin extraction *)
(* ================================================================== *)

Module PRETAX_PATTERNS_FINAL.

(** Pattern 1: TJX style - "pretax profit margin of 12.3%...well above...plan" *)
Definition tjx_style : Re.pattern :=
  Re.compile
    "pretax\s+profit\s+margin\s+of\s+([\d.]+)%.*?(?:well\s+)?(above|below).*?(?:plan|guidance)"
    Re.I.

(** Pattern 2: with explicit difference - "margin was X%...above plan by Y percentage points" *)
Definition explicit_diff : Re.pattern :=
  Re.compile
    "pretax\s+(?:profit\s+)?margin.*?([\d.]+)%.*?(above|below).*?(?:plan|guidance).*?by\s+([\d.]+)\s+percentage\s+point"
    Re.I.

(** Pattern 3: simple extraction - "pretax profit margin of X%" *)
Definition simple : Re.pattern :=
  Re.compile "pretax\s+profit\s+margin\s+of\s+([\d.]+)%" Re.I.

(** Pattern 4: Q3/Q4 context - "Q3 pretax profit margin of X%" *)
Definition quarterly : Re.pattern :=
  Re.compile "Q[1-4]\s+pretax\s+profit\s+margin\s+of\s+([\d.]+)%" Re.I.

End PRETAX_PATTERNS_FINAL.

(** The dictionary [extract_pretax_margin_data] returns: a key that is not
    set is [None]. *)
Record pretax_data : Type := PretaxData {
  actual_pct : option PyFloat.float;
  beat_or_miss : option string;
  difference_bps : option Z;
  guidance_high_pct : option PyFloat.float;
  margin_values : option (list PyFloat.float);
  quarterly_values : option (list PyFloat.float);
  pretax_confidence : option string;
  pretax_source : option string
}.

Definition pretax_empty : pretax_data :=
  PretaxData None None None None None None None None.

(** [if pretax_data:] *)
Definition pretax_nonempty (d : pretax_data) : bool :=
  match actual_pct d, beat_or_miss d, difference_bps d, guidance_high_pct d,
        margin_values d, quarterly_values d, pretax_confidence d, pretax_source d with
  | None, None, None, None, None, None, None, None => false
  | _, _, _, _, _, _, _, _ => true
  end.

Definition hundred : PyFloat.float := PyFloat.of_Z 100.

Definition diff_pattern : Re.pattern :=
  Re.compile "(?:up|down|by)\s+([\d.]+)\s+percentage\s+points?" Re.I.

(** Limit search scope for speed:
    [text[:100000] if len(text) > 100000 else text]. *)
Definition limit_scope (text : string) : string :=
  if PyStr.longer_than 100000 text then PyStr.take_N 100000 text else text.

(** The text near a match, from 200 characters before it to 500 after. *)
Definition nearby (m : Re.rmatch) (search_text : string) : string :=
  PyStr.slice (Re.m_start m - 200)
              (Nat.min (PyStr.len search_text) (Re.m_end m + 500)) search_text.

Definition extract_pretax_margin_data (text : string) : result pretax_data :=
  let search_text := limit_scope text in
  (* Pattern 1: TJX style *)
  match Re.search PRETAX_PATTERNS_FINAL.tjx_style search_text with
  | Some m =>
      g1 <- Re.group_str TypeError m 1 ;;
      actual <- PyFloat.of_string g1 ;;
      g2 <- Re.group_str AttributeError m 2 ;;
      let direction := PyStr.lower g2 in
      let verdict := if String.eqb direction "above" then "beat" else "miss" in
      let context := nearby m search_text in
      match Re.search diff_pattern context with
      | Some diff_match =>
          d1 <- Re.group_str TypeError diff_match 1 ;;
          diff <- PyFloat.of_string d1 ;;
          bps <- PyFloat.to_int (PyFloat.mul diff hundred) ;;
          let guidance :=
            if String.eqb verdict "beat"
            then PyFloat.round (PyFloat.sub actual diff) 1
            else PyFloat.round (PyFloat.add actual diff) 1 in
          Ok (PretaxData (Some actual) (Some verdict) (Some bps) (Some guidance)
                         None None (Some "high") (Some "tjx_style_above_below_plan"))
      | None =>
          Ok (PretaxData (Some actual) (Some verdict) None None
                         None None (Some "medium") (Some "tjx_style_above_below_plan"))
      end
  | None =>
  (* Pattern 2: explicit difference stated *)
  match Re.search PRETAX_PATTERNS_FINAL.explicit_diff search_text with
  | Some m =>
      g1 <- Re.group_str TypeError m 1 ;;
      actual <- PyFloat.of_string g1 ;;
      g2 <- Re.group_str AttributeError m 2 ;;
      let direction := PyStr.lower g2 in
      g3 <- Re.group_str TypeError m 3 ;;
      diff <- PyFloat.of_string g3 ;;
      let verdict := if String.eqb direction "above" then "beat" else "miss" in
      let guidance_high :=
        if String.eqb verdict "beat" then PyFloat.sub actual diff
        else PyFloat.add actual diff in
      bps <- PyFloat.to_int (PyFloat.mul diff hundred) ;;
      Ok (PretaxData (Some actual) (Some verdict) (Some bps)
                     (Some (PyFloat.round guidance_high 1))
                     None None (Some "high") (Some "explicit_difference"))
  | None =>
  (* Pattern 3: simple value extraction (fallback) *)
  match Re.findall PRETAX_PATTERNS_FINAL.simple search_text with
  | (_ :: _) as matches =>
      values <- mapM PyFloat.of_string (firstn 3 matches) ;;
      Ok (PretaxData None None None None (Some values) None
                     (Some "low") (Some "simple_extraction"))
  | [] =>
  (* Pattern 4: quarterly context (fallback) *)
  match Re.findall PRETAX_PATTERNS_FINAL.quarterly search_text with
  | (_ :: _) as matches =>
      values <- mapM PyFloat.of_string (firstn 4 matches) ;;
      Ok (PretaxData None None None None None (Some values)
                     (Some "low") (Some "quarterly_mentions"))
  | [] => Ok pretax_empty
  end end end end.

(* ================================================================== *)
(** * Financial data extraction *)
(* ================================================================== *)

(** [arppu_data]: what the direct ARPPU patterns found. *)
Record arppu_data : Type := ArppuData {
  arppu_direct : option (list PyFloat.float);
  arppu_overall : option (list PyFloat.float);
  arppu_source : option string
}.

(** [membership_data]: membership counts in millions. *)
Record membership_data : Type := MembershipData {
  memberships_millions : option (list PyFloat.float)
}.

(** A value of the [financial_data] dictionary. *)
Inductive metric_value : Type :=
| MetricValues (values : list string)
| MetricPretax (d : pretax_data)
| MetricArppu (d : arppu_data)
| MetricMembership (d : membership_data).

Definition financial_data : Type := dict metric_value.

Definition metrics : list (string * string) := [
  (* Standard financials *)
  ("total_revenue", "Total\s+(?:net\s+)?revenues?[\s\n:]*\$?[\s\n]*([\(\)]?[\d,]+[\(\)]?)");
  ("total_assets", "Total\s+assets[\s\n:]*\$?[\s\n]*([\(\)]?[\d,]+[\(\)]?)");
  ("total_liabilities", "Total\s+liabilities[\s\n:]*\$?[\s\n]*([\(\)]?[\d,]+[\(\)]?)");
  ("stockholders_equity", "Total\s+stockholders[\'\u2019]?\s+equity[\s\n:]*\$?[\s\n]*([\(\)]?[\d,]+[\(\)]?)");
  ("net_income", "Net\s+(?:income|earnings)[\s\n:]*\$?[\s\n]*([\(\)]?[\d,]+[\(\)]?)");
  ("operating_cash_flow", "(?:Net\s+)?[Cc]ash\s+(?:provided\s+by|from)\s+operating\s+activities[\s\n:]*\$?[\s\n]*([\(\)]?[\d,]+[\(\)]?)");
  (* Subscriber/Membership metrics *)
  ("paid_memberships", "(?:paid|average).*?member(?:ship)?s?[\s\n:]*[\s\n]*([\d,]+(?:\.\d+)?)\s*(?:million)?");
  ("streaming_members", "streaming.*?member(?:ship)?s?[\s\n:]*[\s\n]*([\d,]+(?:\.\d+)?)\s*(?:million)?");
  ("average_memberships", "average.*?(?:paying\s+)?member(?:ship)?s?[\s\n:]*[\s\n]*([\d,]+(?:\.\d+)?)\s*(?:million)?");
  (* ARPPU *)
  ("arppu", "(?:ARPPU|average\s+revenue\s+per.*?user|revenue\s+per.*?member)[\s\n:]*\$?[\s\n]*([\d,]+(?:\.\d+)?)");
  (* Margins *)
  ("gross_margin_pct", "gross\s+(?:profit\s+)?margin[\s\n:]*[\s\n]*([\d,]+(?:\.\d+)?)\s*%");
  ("operating_margin_pct", "operating\s+(?:profit\s+)?margin[\s\n:]*[\s\n]*([\d,]+(?:\.\d+)?)\s*%");
  ("pretax_margin_pct", "pre[\-\s]?tax\s+(?:profit\s+)?margin[\s\n:]*[\s\n]*([\d,]+(?:\.\d+)?)\s*%")
].

(** Convert (123) to -123. *)
Definition normalize_value (m : string) : string :=
  let value := PyStr.strip m in
  if PyStr.startswith value "(" && PyStr.endswith value ")"
  then "-" ++ PyStr.strip_ends value
  else value.

(** The loop over one metric's matches: the first ten, normalized, each
    value once. *)
Definition clean_matches (matches : list string) : list string :=
  distinct String.eqb [] (map normalize_value (firstn 10 matches)).

Definition extract_metric (text : string) (entry : string * string)
  : list (string * metric_value) :=
  let '(metric_name, pattern) := entry in
  match Re.findall (Re.compile pattern Re.I) text with
  | [] => []
  | matches =>
      match clean_matches matches with
      | [] => []
      | cleaned => [(metric_name, MetricValues cleaned)]
      end
  end.

Definition arppu_patterns : list string := [
  "average\s+monthly\s+revenue\s+per\s+paying\s+membership\s+[\$€]?\s*(\d+\.\d{2})";
  "average\s+revenue\s+per\s+paid\s+member[\s:]+[\$€]?\s*(\d+\.\d{2})";
  "ARPPU.*?[\$€]?\s*(\d+\.\d{2})";
  "global\s+average.*?[\$€]?\s*(\d+\.\d{2})"
].

(** [5.0 <= val <= 25.0] *)
Definition arppu_in_band (val : PyFloat.float) : bool :=
  PyFloat.leb (PyFloat.of_Z 5) val && PyFloat.leb val (PyFloat.of_Z 25).

(** One match of an ARPPU pattern: the value it adds to [safe_values].
    The [try] swallows a failed conversion. *)
Definition arppu_safe_value (m : string) : list PyFloat.float :=
  match PyFloat.of_string m with
  | Ok val => if arppu_in_band val then [val] else []
  | Raise _ => []
  end.

Definition arppu_safe_values (text : string) : list PyFloat.float :=
  flat_map (fun pat => flat_map arppu_safe_value (Re.findall (Re.compile pat Re.I) text))
           arppu_patterns.

Definition extract_arppu (text : string) : arppu_data :=
  match arppu_safe_values text with
  | [] => ArppuData None None None
  | safe_values =>
      let unique := sorted PyFloat.leb (distinct PyFloat.eqb [] safe_values) in
      ArppuData (Some (firstn 5 unique))
                (match most_common PyFloat.eqb safe_values with
                 | Some v => Some [v]
                 | None => None
                 end)
                (Some "global_mode_from_direct")
  end.

(** [50 <= m <= 500] *)
Definition membership_in_band (m : PyFloat.float) : bool :=
  PyFloat.leb (PyFloat.of_Z 50) m && PyFloat.leb m (PyFloat.of_Z 500).

Definition membership_pattern1 : string :=
  "(?:paid|streaming|total)\s+member(?:ship)?s?\s+(?:of\s+)?([\d.]+)\s+million".
Definition membership_pattern2 : string :=
  "([\d.]+)\s+million\s+(?:paid|streaming|total)\s+member(?:ship)?s?".
Definition membership_pattern3 : string :=
  "(?:paid|streaming)\s+member(?:ship)?s?[\s\n]+(\d{2,3}\.\d{1,2})(?!\d)".

(** [result['memberships_millions'].extend(more)], the key being created
    when absent. *)
Definition extend_memberships (cur : option (list PyFloat.float)) (more : list PyFloat.float)
  : option (list PyFloat.float) :=
  match cur with
  | Some l => Some (l ++ more)
  | None => Some more
  end.

Definition extract_membership (text : string) : result membership_data :=
  (* Pattern 1: "X.X million paid memberships" *)
  r1 <- match Re.findall (Re.compile membership_pattern1 Re.I) text with
        | [] => Ok None
        | matches => l <- mapM PyFloat.of_string (firstn 10 matches) ;; Ok (Some l)
        end ;;
  (* Pattern 2: reverse order *)
  r2 <- match Re.findall (Re.compile membership_pattern2 Re.I) text with
        | [] => Ok r1
        | matches =>
            l <- mapM PyFloat.of_string (firstn 10 matches) ;;
            Ok (extend_memberships r1 l)
        end ;;
  (* Pattern 3: table format *)
  r3 <- match Re.findall (Re.compile membership_pattern3 Re.I) text with
        | [] => Ok r2
        | matches =>
            l <- mapM PyFloat.of_string matches ;;
            match filter membership_in_band l with
            | [] => Ok r2
            | valid => Ok (extend_memberships r2 (firstn 10 valid))
            end
        end ;;
  (* Remove duplicates, keep only reasonable values *)
  Ok (MembershipData
        (match r3 with
         | Some l =>
             let valid_values := filter membership_in_band l in
             Some (sorted (fun a b => PyFloat.leb b a) (distinct PyFloat.eqb [] valid_values))
         | None => None
         end)).

(** Extract financial metrics with enhanced patterns. *)
Definition extract_financial_data (text : string) : result financial_data :=
  let financial_data := flat_map (extract_metric text) metrics in
  pretax <- extract_pretax_margin_data text ;;
  let financial_data :=
    if pretax_nonempty pretax
    then dict_set "pretax_margin_data" (MetricPretax pretax) financial_data
    else financial_data in
  (* Add to the financial_data *)
  let financial_data :=
    dict_set "arppu_data" (MetricArppu (extract_arppu text)) financial_data in
  membership <- extract_membership text ;;
  (* Add to the financial_data *)
  Ok (dict_set "membership_data" (MetricMembership membership) financial_data).

(* ================================================================== *)
(** * Board nominee extraction *)
(* ================================================================== *)

(** Stopwords that indicate NOT a name. *)
Definition STOPWORDS : list string := [
  "committee"; "board"; "director"; "nominee"; "occupation";
  "principal"; "retired"; "managing"; "election"; "proposal";
  "class"; "term"; "age"; "since"; "current"; "former";
  "independent"; "non"; "executive"; "member"; "chairman";
  "president"; "officer"; "table"; "following"; "information";
  "experience"; "qualifications"; "skills"; "company"; "board of"
].

(** [any(stop in s.lower() for stop in STOPWORDS)] *)
Definition has_stopword (s : string) : bool :=
  existsb (fun stop => PyStr.contains stop (PyStr.lower s)) STOPWORDS.

(** Pattern 1: "Nominee: John Doe" or "Director: John Doe" *)
Definition nominee_pattern1 : string :=
  "(?:Nominee|Director|Candidate):\s*([A-Z][a-z]+(?:\s+[A-Z]\.?)?\s+[A-Z][a-z]+)".
(** Pattern 2: name followed by "Age XX" or ", Age XX" *)
Definition nominee_pattern2 : string :=
  "([A-Z][a-z]+(?:\s+[A-Z]\.?)?\s+[A-Z][a-z]+)[,\s]+Age\s+\d{2}".
(** Pattern 3: name followed by "has served" or "has been" *)
Definition nominee_pattern3 : string :=
  "([A-Z][a-z]+(?:\s+[A-Z]\.?)?\s+[A-Z][a-z]+)\s+has\s+(?:served|been)".

(** The table pattern, written in verbose mode in the source. *)
Definition nominee_table_pattern : string :=
  "
        ([A-Z][a-z]+(?:\s+[A-Z][a-z.]+){1,3})   # Name: 2–4 capitalized words
        \s{3,}                                 # 3+ spaces (the real separator in BBSI)
        \d{2}                                  # Age
    ".

Definition labelled_names (pattern text : string) : list string :=
  map PyStr.strip
      (filter (fun m => negb (has_stopword m))
              (Re.findall (Re.compile pattern Re.NOFLAG) text)).

Definition table_name (m : Re.rmatch) : list string :=
  match Re.group m 1 with
  | Some g =>
      let name := PyStr.strip g in
      let name := PyStr.strip
                    (Re.sub (Re.compile "\s*(Jr\.?|Sr\.?|III|IV)$" Re.NOFLAG) "" name) in
      if (2 <=? List.length (PyStr.split_ws name)) && negb (has_stopword name)
      then [name] else []
  | None => []
  end.

(** [w[0].isupper()] for a word of more than one character. *)
Definition starts_upper (w : string) : bool :=
  match w with
  | String a _ => PyStr.is_upper a
  | EmptyString => false
  end.

(** The validation checks of the final loop. *)
Definition valid_name (name : string) : bool :=
  let words := PyStr.split_ws name in
  (* Must be 2-4 words *)
  (2 <=? List.length words) && (List.length words <=? 4)
  (* Must not contain stopwords *)
  && negb (has_stopword name)
  (* Must be Title Case *)
  && forallb starts_upper (filter (fun w => 1 <? PyStr.len w) words)
  (* Must not be a common false positive *)
  && negb (mem String.eqb name ["The Board"; "Board Of"; "Our Board"; "The Company"]).

(** Extract board nominee names from DEF 14A with STRICT validation. *)
Definition extract_board_nominees (text : string) : list string :=
  let nominees :=
    labelled_names nominee_pattern1 text
    ++ labelled_names nominee_pattern2 text
    ++ labelled_names nominee_pattern3 text in
  let text := PyStr.replace "&#160;" " " (PyStr.replace "&nbsp;" " " text) in
  let nominees :=
    nominees
    ++ flat_map table_name (Re.finditer (Re.compile nominee_table_pattern Re.VERBOSE) text) in
  (* Deduplicate and validate *)
  let cleaned := distinct String.eqb [] (filter valid_name (map PyStr.strip nominees)) in
  firstn 15 cleaned.

(* ================================================================== *)
(** * Guidance extraction *)
(* ================================================================== *)

(** A number of a result dictionary: the source stores the integer [0]
    where it skips a division. *)
Inductive number : Type :=
| Int (n : Z)
| Float (x : PyFloat.float).

Record revenue_range_entry : Type := RevenueRange {
  rev_low : PyFloat.float;
  rev_high : PyFloat.float;
  rev_unit : string;
  rev_range_pct : number;
  rev_midpoint : PyFloat.float
}.

Record margin_range_entry : Type := MarginRange {
  mar_low : PyFloat.float;
  mar_high : PyFloat.float;
  mar_midpoint : PyFloat.float;
  mar_range_bps : Z
}.

Record eps_range_entry : Type := EpsRange {
  eps_low : PyFloat.float;
  eps_high : PyFloat.float;
  eps_midpoint : PyFloat.float
}.

(** The dictionary [extract_guidance_data] returns. *)
Record guidance_data : Type := GuidanceData {
  revenue_range : option (list revenue_range_entry);
  margin_range : option (list margin_range_entry);
  eps_range : option (list eps_range_entry);
  periods : option (list string);
  guidance_values : option (list PyFloat.float);
  guidance_confidence : option string;
  guidance_source : option string
}.

Definition guidance_empty : guidance_data :=
  GuidanceData None None None None None None None.

Definition is_some {A : Type} (o : option A) : bool :=
  match o with Some _ => true | None => false end.

(** [if guidance:] *)
Definition guidance_nonempty (g : guidance_data) : bool :=
  is_some (revenue_range g) || is_some (margin_range g) || is_some (eps_range g)
  || is_some (periods g) || is_some (guidance_values g)
  || is_some (guidance_confidence g) || is_some (guidance_source g).

Definition two : PyFloat.float := PyFloat.of_Z 2.

(** [round((low + high) / 2, 2)] *)
Definition midpoint (low high : PyFloat.float) : PyFloat.float :=
  PyFloat.round (PyFloat.div (PyFloat.add low high) two) 2.

(** [round(((high - low) / low) * 100, 2) if low > 0 else 0] *)
Definition range_pct (low high : PyFloat.float) : number :=
  if PyFloat.ltb PyFloat.zero low
  then Float (PyFloat.round
                (PyFloat.mul (PyFloat.div (PyFloat.sub high low) low) hundred) 2)
  else Int 0.

(** The body of a [try] whose handler is [continue]: the entries of the
    matches that raise the handled exception are left out; any other
    exception leaves the function. *)
Fixpoint collect {A B : Type} (handled : exn -> bool) (f : A -> result B) (l : list A)
  : result (list B) :=
  match l with
  | [] => Ok []
  | x :: l' =>
      match f x with
      | Ok y => ys <- collect handled f l' ;; Ok (y :: ys)
      | Raise e => if handled e then collect handled f l' else Raise e
      end
  end.

(** [except (ValueError, ZeroDivisionError)]; no division by zero is
    reachable in the bodies, the divisors being tested or constant. *)
Definition value_error (e : exn) : bool :=
  match e with ValueError => true | _ => false end.

Definition revenue_entry (m : list string) : result revenue_range_entry :=
  low <- PyFloat.of_string (nth 0 m "") ;;
  high <- PyFloat.of_string (nth 1 m "") ;;
  let unit := PyStr.lower (nth 2 m "") in
  Ok (RevenueRange low high unit (range_pct low high) (midpoint low high)).

Definition margin_entry (m : list string) : result margin_range_entry :=
  low <- PyFloat.of_string (nth 0 m "") ;;
  high <- PyFloat.of_string (nth 1 m "") ;;
  let mid := midpoint low high in
  bps <- PyFloat.to_int (PyFloat.mul (PyFloat.sub high low) hundred) ;;
  Ok (MarginRange low high mid bps).

Definition eps_entry (m : list string) : result eps_range_entry :=
  low <- PyFloat.of_string (nth 0 m "") ;;
  high <- PyFloat.of_string (nth 1 m "") ;;
  Ok (EpsRange low high (midpoint low high)).

(** Pattern 1a: "$X billion to $Y billion" or "$X-$Y billion" *)
Definition rev_pattern1 : string :=
  "(?:revenue|sales).*?(?:guidance|outlook|expects?|projects?|forecasts?).*?\$\s*([\d.]+)\s*(?:billion|million).*?(?:to|and|-).*?\$\s*([\d.]+)\s*(billion|million)".
(** Pattern 1b: "between $X and $Y billion" *)
Definition rev_pattern2 : string :=
  "(?:revenue|sales).*?between.*?\$\s*([\d.]+).*?and.*?\$\s*([\d.]+)\s*(billion|million)".
(** Pattern 2a: "margin guidance of X% to Y%" *)
Definition margin_pattern1 : string :=
  "(?:margin|pre-?tax|gross|operating).*?(?:guidance|outlook|expects?|projects?).*?([\d.]+)\s*%.*?(?:to|and|-).*?([\d.]+)\s*%".
(** Pattern 2b: "margin between X% and Y%" *)
Definition margin_pattern2 : string :=
  "(?:margin|pre-?tax).*?between.*?([\d.]+)\s*%.*?and.*?([\d.]+)\s*%".
(** Pattern 3a: "EPS guidance of $X to $Y" *)
Definition eps_pattern1 : string :=
  "(?:EPS|earnings\s+per\s+share).*?(?:guidance|outlook|expects?).*?\$\s*([\d.]+).*?(?:to|and|-).*?\$\s*([\d.]+)".

(** Fiscal year/quarter mentions. *)
Definition period_pattern1 : string := "(?:fiscal|FY|full\s+year)\s*(\d{4})".
Definition period_pattern2 : string := "(Q[1-4])\s*(?:fiscal|FY)?\s*(\d{4})".
Definition period_pattern3 : string := "(?:first|second|third|fourth)\s+quarter.*?(\d{4})".

Definition fallback_pattern : string := "guidance.*?([\d.]+)\s*(?:%|billion|million)".

(** The matches of a pattern, when there are any: [if matches:]. *)
Definition matches_of (pattern text : string) : option (list (list string)) :=
  match Re.findall_tuples (Re.compile pattern Re.I_S) text with
  | [] => None
  | l => Some l
  end.

(** [' '.join(str(m) for m in match if m)] *)
Definition join_period (match_ : list string) : string :=
  PyStr.join " " (filter PyStr.truthy match_).

Definition periods_found (text : string) : list string :=
  Re.findall (Re.compile period_pattern1 Re.I) text
  ++ map join_period (Re.findall_tuples (Re.compile period_pattern2 Re.I) text)
  ++ Re.findall (Re.compile period_pattern3 Re.I) text.

(** The first of two patterns that matches fills the key; the second is
    read only when the key is not set. *)
Definition range_entries {B : Type} (handled : exn -> bool)
           (entry : list string -> result B) (pattern1 : string)
           (pattern2 : option string) (text : string) : result (option (list B)) :=
  match matches_of pattern1 text with
  | Some matches => l <- collect handled entry (firstn 3 matches) ;; Ok (Some l)
  | None =>
      match pattern2 with
      | Some p2 =>
          match matches_of p2 text with
          | Some matches => l <- collect handled entry (firstn 3 matches) ;; Ok (Some l)
          | None => Ok None
          end
      | None => Ok None
      end
  end.

(** Extract forward-looking guidance from earnings releases and 8-Ks. *)
Definition extract_guidance_data (text : string) : result guidance_data :=
  (* PATTERN 1: Revenue Guidance *)
  revenue <- range_entries value_error revenue_entry rev_pattern1 (Some rev_pattern2) text ;;
  (* PATTERN 2: Margin Guidance *)
  margin <- range_entries value_error margin_entry margin_pattern1 (Some margin_pattern2) text ;;
  (* PATTERN 3: EPS Guidance *)
  eps <- range_entries value_error eps_entry eps_pattern1 None text ;;
  (* PATTERN 4: Time Period Context *)
  let found := periods_found text in
  let period_list :=
    match found with
    | [] => None
    | _ => Some (firstn 5 (sorted String.leb (distinct String.eqb [] found)))
    end in
  (* PATTERN 5: General Guidance Mentions (Fallback) *)
  if is_some revenue || is_some margin || is_some eps then
    Ok (GuidanceData revenue margin eps period_list None
                     (Some "high") (Some "structured_guidance"))
  else if is_some period_list then
    Ok (GuidanceData None None None period_list None
                     (Some "low") (Some "period_mentions_only"))
  else
    match Re.findall (Re.compile fallback_pattern Re.I_S) text with
    | [] => Ok guidance_empty
    | matches =>
        values <- mapM PyFloat.of_string (firstn 5 matches) ;;
        Ok (GuidanceData None None None None (Some values)
                         (Some "very_low") (Some "unstructured_mentions"))
    end.

(* ================================================================== *)
(** * Dates *)
(* ================================================================== *)

(** A [datetime] at midnight: year, month, day. *)
Record date : Type := Date { year : nat; month : nat; day : nat }.

Definition is_leap (y : nat) : bool :=
  ((y mod 4 =? 0) && negb (y mod 100 =? 0)) || (y mod 400 =? 0).

Definition days_in_month (y m : nat) : nat :=
  match m with
  | 2 => if is_leap y then 29 else 28
  | 4 | 6 | 9 | 11 => 30
  | _ => 31
  end.

(** The expression the standard library's [_strptime] builds for the
    format [%Y-%m-%d] (its named groups are numbered here); it is compiled
    with [IGNORECASE] and applied with [match]. *)
Definition ymd_regex : Re.pattern :=
  Re.compile "(\d\d\d\d)-(1[0-2]|0[1-9]|[1-9])-(3[0-1]|[1-2]\d|0[1-9]|[1-9]| [1-9])" Re.I.

Definition nat_of_digits (s : string) : nat :=
  Z.to_nat (PyFloat.digits_val 0 (PyStr.chars (PyStr.strip s))).

(** [datetime.strptime(s, "%Y-%m-%d")]: the text must match the format to
    its end and name a day of the calendar, years running from 1 to
    9999. *)
Definition strptime (s : string) : result date :=
  match Re.match_ ymd_regex s with
  | Some m =>
      if negb (Re.m_end m =? PyStr.len s) then Raise ValueError
      else
        let y := nat_of_digits (Re.group_or_empty m 1) in
        let mo := nat_of_digits (Re.group_or_empty m 2) in
        let d := nat_of_digits (Re.group_or_empty m 3) in
        if (1 <=? y) && (1 <=? d) && (d <=? days_in_month y mo)
        then Ok (Date y mo d)
        else Raise ValueError
  | None => Raise ValueError
  end.

(** [a < b] on dates. *)
Definition date_ltb (a b : date) : bool :=
  (year a <? year b)
  || ((year a =? year b)
      && ((month a <? month b) || ((month a =? month b) && (day a <? day b)))).

(** The day after a date. *)
Definition next_day (a : date) : date :=
  if day a <? days_in_month (year a) (month a) then Date (year a) (month a) (S (day a))
  else if month a <? 12 then Date (year a) (S (month a)) 1
  else Date (S (year a)) 1 1.

(* ================================================================== *)
(** * Main SEC search function *)
(* ================================================================== *)

(** The recent filings of a company, as the submissions document lists
    them: four arrays read side by side. *)
Record filings_index : Type := FilingsIndex {
  idx_form : list string;
  idx_filingDate : list string;
  idx_accessionNumber : list string;
  idx_primaryDocument : list string
}.

Record submission : Type := Submission {
  sub_name : option string;
  sub_sic : option string;
  sub_sicDescription : option string;
  sub_recent : filings_index
}.

Record filing : Type := Filing {
  form : string;
  filing_date : string;
  accession_number : string;
  primary_document : string
}.

(** [xs[i]] *)
Definition index (xs : list string) (i : nat) : result string :=
  match nth_error xs i with
  | Some x => Ok x
  | None => Raise IndexError
  end.

(** [any(ft.upper() in form.upper() for ft in form_types)] *)
Definition form_matches (form_types : list string) (form : string) : bool :=
  existsb (fun ft => PyStr.contains (PyStr.upper ft) (PyStr.upper form)) form_types.

(** The inline date check of the filing loop: [true] when the filing is
    kept. A date that does not parse is skipped. *)
Definition date_kept (start_dt end_dt : option date) (filing_date : string) : bool :=
  match strptime filing_date with
  | Ok filing_dt =>
      if match start_dt with Some s => date_ltb filing_dt s | None => false end then false
      else if match end_dt with Some e => date_ltb e filing_dt | None => false end then false
      else true
  | Raise _ => false
  end.

(** Parse recent filings: the loop over the index, from position [i] for
    [n] rows. *)
Fixpoint parse_recent (form_types : list string) (has_date_filter : bool)
         (start_dt end_dt : option date) (recent : filings_index) (i n : nat)
  : result (list filing) :=
  match n with
  | O => Ok []
  | S n' =>
      form <- index (idx_form recent) i ;;
      filing_date <- index (idx_filingDate recent) i ;;
      if negb (form_matches form_types form)
      then parse_recent form_types has_date_filter start_dt end_dt recent (S i) n'
      else if has_date_filter && negb (date_kept start_dt end_dt filing_date)
      then parse_recent form_types has_date_filter start_dt end_dt recent (S i) n'
      else
        accession <- index (idx_accessionNumber recent) i ;;
        document <- index (idx_primaryDocument recent) i ;;
        rest <- parse_recent form_types has_date_filter start_dt end_dt recent (S i) n' ;;
        Ok (Filing form filing_date accession document :: rest)
  end.

(** Pre-parse date bounds once: [None] for a bound that is not given. *)
Definition parse_bound (bound : option string) : result (option date) :=
  match bound with
  | Some s => if PyStr.truthy s then d <- strptime s ;; Ok (Some d) else Ok None
  | None => Ok None
  end.

(** The filings located for the given form types and date bounds. *)
Definition locate_filings (form_types : list string) (start_date end_date : option string)
           (recent : filings_index) : result (list filing) :=
  start_dt <- parse_bound start_date ;;
  end_dt <- parse_bound end_date ;;
  parse_recent form_types (truthy_opt start_date || truthy_opt end_date)
               start_dt end_dt recent 0 (List.length (idx_form recent)).

Record timeline_entry : Type := TimelineEntry {
  te_date : string;
  te_form : string;
  te_accession : string;
  te_url : string;
  te_financial_metrics : financial_data;
  te_sections : dict string;
  te_guidance_data : guidance_data;
  te_board_nominees : list string;
  te_sections_found : list string;
  te_metrics_found : list string
}.

(** What [sec_search] returns: an error dictionary or the report. *)
Inductive search_result : Type :=
| SearchError (error : string) (suggestion : option string)
| SearchReport (company : option string) (ticker_symbol cik : string)
               (sic sic_description : option string)
               (timeline : list timeline_entry) (total_found : nat).

(** The services a search talks to. *)
Record world : Type := World {
  registry : http (list row);          (* company_tickers_exchange.json *)
  archive : http string;               (* cik-lookup-data.txt *)
  submissions : string -> http submission;   (* CIK{cik}.json, by identifier *)
  documents : network                  (* filings and exhibits *)
}.

Section Search.

Variable find_all : string -> list tag.
Variable get_text : string -> string.

(** Steps 1 to 7 for one filing whose text has arrived: the entry to
    append, if any. *)
Definition build_entry (f : filing) (doc_url filing_text : string)
           (exhibit_text : option string) (keywords : option (list string))
  : result (option timeline_entry) :=
  (* STEP 1: Extract sections first *)
  let sections := extract_all_sections filing_text (form f) keywords in
  (* STEP 2: Add exhibit to sections if found *)
  let exhibit := match exhibit_text with
                 | Some e => if PyStr.truthy e then Some e else None
                 | None => None
                 end in
  let sections := match exhibit with
                  | Some e => dict_set "exhibit_99_1" e sections
                  | None => sections
                  end in
  (* STEP 3: Combine text sources *)
  let combined_text :=
    match exhibit with
    | Some e => (e ++ PyStr.nl ++ PyStr.nl ++ filing_text)%string
    | None =>
        match dict_get "earnings_release" sections with
        | Some release => (release ++ PyStr.nl ++ PyStr.nl ++ filing_text)%string
        | None => filing_text
        end
    end in
  (* STEP 4: Extract financial data ONCE from combined text *)
  metrics <- extract_financial_data combined_text ;;
  (* STEP 5: Extract guidance (if 8-K) *)
  guidance <-
    (if PyStr.contains "8-K" (PyStr.upper (form f)) then
       g <- match dict_get "guidance_section" sections with
            | Some section => extract_guidance_data section
            | None => Ok guidance_empty
            end ;;
       if negb (guidance_nonempty g) then extract_guidance_data combined_text else Ok g
     else Ok guidance_empty) ;;
  (* STEP 6: Extract board nominees (if DEF 14A) *)
  let nominees :=
    if PyStr.contains "DEF 14A" (PyStr.upper (form f))
    then extract_board_nominees filing_text else [] in
  (* STEP 7: Add to timeline *)
  if nonempty sections || nonempty metrics || guidance_nonempty guidance || nonempty nominees
  then Ok (Some (TimelineEntry (filing_date f) (form f) (accession_number f) doc_url
                               metrics sections guidance nominees
                               (dict_keys sections) (dict_keys metrics)))
  else Ok None.

(** Download and extract: the loop over the located filings. *)
Fixpoint process_filings (net : network) (cik : string) (use_disk_cache : bool)
         (keywords : option (list string)) (raw_filings : list filing) (s : io)
  : result (list timeline_entry * io) :=
  match raw_filings with
  | [] => Ok ([], s)
  | f :: rest =>
      let acc_clean := PyStr.replace "-" "" (accession_number f) in
      let doc_url := ("https://www.sec.gov/Archives/edgar/data/" ++ cik ++ "/"
                      ++ acc_clean ++ "/" ++ primary_document f)%string in
      let cache_filename := ("CIK" ++ cik ++ "-" ++ acc_clean ++ "-"
                             ++ primary_document f ++ ".txt")%string in
      let '((filing_text, exhibit_text), s1) :=
        fetch_filing_and_exhibit_html find_all get_text net doc_url cik
                                      (accession_number f) use_disk_cache
                                      (Some cache_filename) s in
      if negb (PyStr.truthy filing_text)
      then process_filings net cik use_disk_cache keywords rest s1
      else
        entry <- build_entry f doc_url filing_text exhibit_text keywords ;;
        more <- process_filings net cik use_disk_cache keywords rest s1 ;;
        let '(timeline, s2) := more in
        Ok (match entry with
            | Some e => e :: timeline
            | None => timeline
            end, s2)
  end.

(** [x or y] on optional texts. *)
Definition or_else (x y : option string) : option string :=
  if truthy_opt x then x else y.

(** [str(x)] of an optional text. *)
Definition str_opt (x : option string) : string :=
  match x with Some s => s | None => "None" end.

(** Enhanced SEC filing search with comprehensive data extraction. *)
Definition sec_search (w : world)
           (company_name ticker_symbol cik : option string)
           (form_types : list string) (start_date end_date : option string)
           (keywords : option (list string)) (use_disk_cache : bool) (s : io)
  : result (search_result * io) :=
  (* Resolve CIK *)
  resolved <-
    (if (truthy_opt company_name || truthy_opt ticker_symbol) && negb (truthy_opt cik)
     then
       let '(found, ticker) :=
         get_cik_from_ticker_or_name company_name ticker_symbol (registry w) in
       if negb (truthy_opt found) then
         looked <- get_cik_from_archive company_name use_disk_cache
                                        (Some "cik-lookup-data.txt") (archive w)
                                        (io_disk s) ;;
         let '(from_archive, d) := looked in
         Ok (from_archive, ticker, IO d (io_requests s))
       else Ok (found, ticker, s)
     else Ok (cik, ticker_symbol, s)) ;;
  let '(cik, ticker, s) := resolved in
  match cik with
  | None =>
      Ok (SearchError ("Company not found: "
                       ++ str_opt (or_else company_name ticker_symbol))%string
                      (Some "Try variations of the name or use ticker symbol"), s)
  | Some cik =>
      if negb (PyStr.truthy cik) then
        Ok (SearchError ("Company not found: "
                         ++ str_opt (or_else company_name ticker_symbol))%string
                        (Some "Try variations of the name or use ticker symbol"), s)
      else
        (* Fetch submissions *)
        match submissions w cik with
        | HttpStatus status =>
            Ok (SearchError ("SEC API returned " ++ PyInt.nat_to_string status)%string None, s)
        | HttpException e =>
            Ok (SearchError ("Failed to fetch submissions: " ++ e)%string None, s)
        | HttpBody data =>
            match locate_filings form_types start_date end_date (sub_recent data) with
            | Raise ValueError =>
                Ok (SearchError "Invalid date format. Use YYYY-MM-DD" None, s)
            | Raise e => Raise e
            | Ok raw_filings =>
                processed <- process_filings (documents w) cik use_disk_cache
                                             keywords raw_filings s ;;
                let '(timeline, s') := processed in
                Ok (SearchReport (sub_name data)
                                 (match ticker with
                                  | Some t => if PyStr.truthy t then t else ""
                                  | None => ""
                                  end)
                                 cik (sub_sic data) (sub_sicDescription data)
                                 timeline (List.length timeline), s')
            end
        end
  end.

End Search.

(* ================================================================== *)
(** * Concrete inputs and derived notions used in the statements *)
(* ================================================================== *)

(** A compiled pattern lies inside the supported syntax when it is not
    the expression that matches nothing. *)
Definition supported (p : Re.pattern) : bool :=
  match Re.p_re p with
  | Re.RChar (Re.CSet false []) => false
  | _ => true
  end.

(** The float a decimal literal of the source or of the specification
    denotes. *)
Definition flt (literal : string) : PyFloat.float :=
  match PyFloat.of_string literal with
  | Ok x => x
  | Raise _ => S754_nan
  end.

(** The exhibit a cache hit on the filing returns with it: the text of the
    exhibit cache file when it can be read and is not empty. *)
Definition cached_exhibit (d : disk) (cache_filename : string) : option string :=
  match read_cached d (exhibit_cache_name cache_filename) with
  | Some e => if PyStr.truthy e then Some e else None
  | None => None
  end.

(** A cache directory given by the list of its files, every write
    succeeding. *)
Definition disk_of (l : list (string * file)) : disk :=
  Disk (fun name => dict_get name l) (fun _ => false).

(** A network that is down: every request fails. *)
Definition offline : network := fun _ _ => Failure.

(** Stand-ins for BeautifulSoup where no document is downloaded. *)
Definition no_tags : string -> list tag := fun _ => [].
Definition plain_text : string -> string := fun html => html.

(** Row [i] of the filings index read as a filing. *)
Definition row_at (recent : filings_index) (i : nat) (f : filing) : Prop :=
  nth_error (idx_form recent) i = Some (form f)
  /\ nth_error (idx_filingDate recent) i = Some (filing_date f)
  /\ nth_error (idx_accessionNumber recent) i = Some (accession_number f)
  /\ nth_error (idx_primaryDocument recent) i = Some (primary_document f).

(** The two tests of the filing loop on one row. *)
Definition row_kept (form_types : list string) (has_date_filter : bool)
           (start_dt end_dt : option date) (f : filing) : bool :=
  form_matches form_types (form f)
  && (negb has_date_filter || date_kept start_dt end_dt (filing_date f)).

(** An index of four annual reports filed around the year 2024. *)
Definition index_2024 : filings_index :=
  FilingsIndex ["10-K"; "10-K"; "10-K"; "10-K"]
               ["2025-01-01"; "2024-12-31"; "2024-01-01"; "2023-12-31"]
               ["0000000001-25-000001"; "0000000001-24-000002";
                "0000000001-24-000001"; "0000000001-23-000001"]
               ["d4.htm"; "d3.htm"; "d2.htm"; "d1.htm"].

Definition filing_2025_01_01 : filing :=
  Filing "10-K" "2025-01-01" "0000000001-25-000001" "d4.htm".
Definition filing_2024_12_31 : filing :=
  Filing "10-K" "2024-12-31" "0000000001-24-000002" "d3.htm".
Definition filing_2024_01_01 : filing :=
  Filing "10-K" "2024-01-01" "0000000001-24-000001" "d2.htm".
Definition filing_2023_12_31 : filing :=
  Filing "10-K" "2023-12-31" "0000000001-23-000001" "d1.htm".

(** A registry row that, met alone, resolves nothing: it is skipped, or
    matches neither the ticker nor the name asked for. *)
Definition row_silent (company_clean ticker_upper : string) (r : row) : Prop :=
  scan_rows company_clean ticker_upper [r] = Ok (None, None).

(** A registry of two companies. *)
Definition registry_two : list row := [
  [CellInt 1; CellStr "Apple Inc."; CellStr "AAPL"; CellStr "Nasdaq"];
  [CellInt 2; CellStr "Banana Corp"; CellStr "BAN"; CellStr "NYSE"]
].

(** A 10-character numeric string. *)
Definition is_cik10 (s : string) : bool :=
  (PyStr.len s =? 10) && PyStr.all_digits s.

(** The identifier field of an archive line: the text after the first
    colon, stripped. *)
Definition archive_field (line : string) : option string :=
  match PyStr.split1_chars ":"%char (PyStr.chars line) with
  | (_, Some cik_part) => Some (PyStr.strip (PyStr.str cik_part))
  | (_, None) => None
  end.

(** [s.split(":", 1)[0]] *)
Definition before_colon (s : string) : string :=
  PyStr.str (fst (PyStr.split1_chars ":"%char (PyStr.chars s))).

(** The identifier fields the padding handles: ten digits followed by a
    colon (the archive's own layout), or at most ten digits and nothing
    else. *)
Definition canonical_field (field : string) : bool :=
  match PyStr.split1_chars ":"%char (PyStr.chars field) with
  | (digits, Some _) => forallb PyStr.is_digit digits && (List.length digits =? 10)
  | (digits, None) => forallb PyStr.is_digit digits && (List.length digits <=? 10)
  end.

(** A registry row whose identifier has eleven digits, and an archive of
    one line whose identifier field is short and ends in a colon. *)
Definition registry_eleven : list row :=
  [[CellInt 12345678901; CellStr "Acme Corp"; CellStr "ACME"; CellStr "NYSE"]].

Definition archive_short : string := "ACME CORP:1234:".

(** A text that ends in a membership count written with an ellipsis. *)
Definition ellipsis_text : string := "paid memberships of ... million".

(** A company with an annual report, a current report and a proxy
    statement whose texts offer nothing to any extractor; the three
    documents are in the disk cache. *)
Definition acme_registry : list row :=
  [[CellInt 1; CellStr "Acme Corp"; CellStr "ACME"; CellStr "NYSE"]].

Definition acme_submission : submission :=
  Submission (Some "Acme Corp") (Some "3490") (Some "Misc Fabricated Metal Products")
             (FilingsIndex ["10-K"; "8-K"; "DEF 14A"]
                           ["2024-03-01"; "2024-02-01"; "2024-01-15"]
                           ["0000000001-24-000003"; "0000000001-24-000002";
                            "0000000001-24-000001"]
                           ["acme10k.htm"; "acme8k.htm"; "acmeproxy.htm"]).

Definition acme_world : world :=
  World (HttpBody acme_registry) (HttpStatus 404) (fun _ => HttpBody acme_submission) offline.

Definition widgets : string := "We make widgets.".

Definition acme_disk : disk :=
  disk_of [("CIK0000000001-000000000124000003-acme10k.htm.txt", FileText widgets);
           ("CIK0000000001-000000000124000002-acme8k.htm.txt", FileText widgets);
           ("CIK0000000001-000000000124000001-acmeproxy.htm.txt", FileText widgets)].

(** The entry of a filing for which no extractor produced anything. *)
Definition no_signal_entry (filing_date form accession url : string) : timeline_entry :=
  TimelineEntry filing_date form accession url
    [("arppu_data", MetricArppu (ArppuData None None None));
     ("membership_data", MetricMembership (MembershipData None))]
    [] guidance_empty []
    [] ["arppu_data"; "membership_data"].

Definition acme_timeline : list timeline_entry :=
  [no_signal_entry "2024-03-01" "10-K" "0000000001-24-000003"
     "https://www.sec.gov/Archives/edgar/data/0000000001/000000000124000003/acme10k.htm";
   no_signal_entry "2024-02-01" "8-K" "0000000001-24-000002"
     "https://www.sec.gov/Archives/edgar/data/0000000001/000000000124000002/acme8k.htm";
   no_signal_entry "2024-01-15" "DEF 14A" "0000000001-24-000001"
     "https://www.sec.gov/Archives/edgar/data/0000000001/000000000124000001/acmeproxy.htm"].

(** The nominee table the source describes for BBSI, alone and under the
    header row of a proxy statement. *)
Definition bbsi_table : string :=
  "Thomas J. Carley              65    Chairman of the Board" ++ PyStr.nl ++
  "Anthony Meeker                73    Director" ++ PyStr.nl.

Definition proxy_table : string :=
  "Nominating Committee" ++ PyStr.nl ++
  "Name                          Age   Principal Occupation" ++ PyStr.nl ++
  bbsi_table.

(** A text in which the header phrases and the names are each followed by
    a two-digit field, no name being preceded by a capitalized word. *)
Definition plain_table : string :=
  "Nominating Committee   12" ++ PyStr.nl ++
  "Principal Occupation   34" ++ PyStr.nl ++
  "Thomas J. Carley   65" ++ PyStr.nl ++
  "Anthony Meeker   73".

(** The sentence of the specification's margin example, and the two
    sentences of the source's docstring and comments. *)
Definition tjx_text : string :=
  "pretax profit margin of 12.3%, up 0.3 percentage points... well above plan".

Definition explicit_text : string :=
  "pretax margin was 11.6% above plan by 0.7 percentage points".

Definition below_text : string :=
  "pretax profit margin of 10.0%, down 0.5 percentage points and below plan".

(** The result of the comparator when a verdict and a difference were
    found. *)
Definition comparison (actual : PyFloat.float) (verdict : string) (bps : Z)
           (guidance : PyFloat.float) (source : string) : pretax_data :=
  PretaxData (Some actual) (Some verdict) (Some bps) (Some guidance)
             None None (Some "high") (Some source).

(** The result of the comparator when a verdict was found and no
    difference. *)
Definition verdict_only (actual : PyFloat.float) (verdict source : string) : pretax_data :=
  PretaxData (Some actual) (Some verdict) None None None None
             (Some "medium") (Some source).

(** The sentence of the margin example after a sentence about sales, on
    the same line. *)
Definition sales_context : string :=
  ("Comparable sales were down 2.0 percentage points. " ++ tjx_text)%string.

(** The sentence of the margin example with its ellipsis spelled out: the
    margin is compared with last year's before it is compared with the
    plan. *)
Definition below_then_above_text : string :=
  "pretax profit margin of 12.3%, up 0.3 percentage points, was below last year but well above plan".

(** A difference phrase, [gap] spaces, then the sentence of the margin
    example. *)
Definition phrase_then_sentence (gap : nat) : string :=
  PyStr.str (PyStr.chars "down 2.0 percentage points" ++ repeat " "%char gap
             ++ PyStr.chars tjx_text).

(** A sentence with a margin and a verdict, [gap] spaces, then a
    difference phrase. *)
Definition sentence_then_phrase (gap : nat) : string :=
  PyStr.str (PyStr.chars "pretax profit margin of 12.3% well above plan"
             ++ repeat " "%char gap ++ PyStr.chars "up 0.3 percentage points").

(** The sentence of the specification's guidance example. *)
Definition guidance_text : string := "revenue guidance of $5.0 billion to $5.2 billion".

(** A structured numeric range was found: one of the three range keys is
    set. *)
Definition has_range (g : guidance_data) : bool :=
  is_some (revenue_range g) || is_some (margin_range g) || is_some (eps_range g).

(** A positive finite float. *)
Definition pos_finite (v : PyFloat.float) : Prop :=
  match v with
  | S754_finite false _ _ => True
  | _ => False
  end.



(* ================================================================== *)
(** * Further inputs and notions: the fetcher, the resolvers, the search *)
(* ================================================================== *)

(** The requests a computation issued, given the state before and the
    state after: the trace grows at its head. *)
Definition issued (before after : io) (urls : list string) : Prop :=
  io_requests after = urls ++ io_requests before.

(** A network whose first two answers are timeouts and whose later
    answers are a page of HTML. *)
Definition slow_start : network :=
  fun rank _ => if rank <? 2 then Timeout else Reply 200 None "Quarterly results".

(** A document in which BeautifulSoup finds one link to a press release. *)
Definition one_link : string -> list tag :=
  fun _ => [Tag "a" "Press release" (Some "ex99.htm") None].

(** A network that answers every request with the same page. *)
Definition always (body : string) : network := fun _ _ => Reply 200 None body.

(** An empty cache directory in which every write succeeds. *)
Definition empty_disk : disk := disk_of [].

(** What the resolver's loop reads in a row it returns: a row of at least
    four cells whose identifier converts, with the identifier padded and
    the ticker upper-cased, and which matches the query by its ticker or by
    its name. *)
Definition row_matches (company_clean ticker_upper : string) (r : row)
           (cik ticker : string) : Prop :=
  4 <= List.length r
  /\ exists legal symbol n,
      cell_str (nth 1 r CellNone) = Ok legal
      /\ cell_str (nth 2 r CellNone) = Ok symbol
      /\ cell_int (nth 0 r CellNone) = Ok n
      /\ cik = PyStr.zfill 10 (PyInt.decimal n)
      /\ ticker = PyStr.upper (PyStr.strip symbol)
      /\ (ticker = ticker_upper
          \/ company_clean = clean_company_name (clean_company_name (PyStr.lower legal))).


(** An archive of three lines: a company, a line without a colon and a
    company whose identifier is all zeros. *)
Definition archive_three : string :=
  "ZERO HOLDINGS:0000000000:" ++ PyStr.nl ++
  "no identifier here" ++ PyStr.nl ++
  "ACME CORP:0000001234:" ++ PyStr.nl.

(** One list is another with some of its elements left out, the order
    kept. *)
Inductive subseq {A : Type} : list A -> list A -> Prop :=
| subseq_nil : subseq [] []
| subseq_skip : forall x l1 l2, subseq l1 l2 -> subseq l1 (x :: l2)
| subseq_keep : forall x l1 l2, subseq l1 l2 -> subseq (x :: l1) (x :: l2).

(** The address of a filing's primary document, as the download loop
    builds it. *)
Definition doc_url (cik : string) (f : filing) : string :=
  ("https://www.sec.gov/Archives/edgar/data/" ++ cik ++ "/"
   ++ PyStr.replace "-" "" (accession_number f) ++ "/" ++ primary_document f)%string.

(** What identifies a filing in the index and in the timeline: its date,
    form, accession number and address. *)
Definition filing_key (cik : string) (f : filing) : string * string * string * string :=
  (filing_date f, form f, accession_number f, doc_url cik f).

Definition entry_key (e : timeline_entry) : string * string * string * string :=
  (te_date e, te_form e, te_accession e, te_url e).

(** The Acme company of the search examples, its three documents served
    by the network and nothing cached. *)
Definition acme_online : world :=
  World (HttpBody acme_registry) (HttpStatus 404) (fun _ => HttpBody acme_submission)
        (always widgets).

(** A world whose registry lists two companies and whose archive is
    unreachable. *)
Definition two_company_world : world :=
  World (HttpBody registry_two) (HttpStatus 503) (fun _ => HttpStatus 404) offline.

(** A cache directory whose copy of the archive cannot be read. *)
Definition broken_archive_cache : disk :=
  disk_of [("cik-lookup-data.txt", FileUnreadable)].

(** A world whose registry is empty and whose archive lists Acme. *)
Definition archive_only_world : world :=
  World (HttpBody []) (HttpBody archive_three) (fun _ => HttpStatus 404) offline.

(** An index of two annual reports, the first with a date that is not a
    day of the calendar. *)
Definition index_odd_date : filings_index :=
  FilingsIndex ["10-K"; "10-K"] ["2024-13-45"; "2024-06-30"]
               ["0000000001-24-000002"; "0000000001-24-000001"] ["b.htm"; "a.htm"].

Definition filing_odd_date : filing :=
  Filing "10-K" "2024-13-45" "0000000001-24-000002" "b.htm".

(** Strictly descending order on floats. *)
Definition float_gt (a b : PyFloat.float) : Prop := PyFloat.ltb b a = true.

(** A text with two membership counts, and one with a count outside the
    band. *)
Definition membership_text : string :=
  "We ended the year with 280.6 million paid memberships, against paid memberships of 301.6 million forecast.".

(** Strictly ascending order on strings, by character codes. *)
Definition string_lt (a b : string) : Prop := String.ltb a b = true.

(** A line of a cleaned text: not empty, without a line boundary, without
    white space at either end. *)
Definition clean_line (l : string) : Prop :=
  PyStr.truthy l = true
  /\ (forall a, In a (PyStr.chars l) -> PyStr.is_linebreak a = false)
  /\ PyStr.strip l = l.

(** A reply that makes the fetcher try again: a timeout, or a status 429
    whose pause goes through, the [Retry-After] header being missing or an
    integer the event loop can wait for. *)
Definition retried (r : response) : bool :=
  match r with
  | Timeout => true
  | Failure => false
  | Reply status retry_after _ =>
      (status =? 429)
      && match (wait_time <- retry_wait retry_after ;; sleep wait_time) with
         | Ok _ => true
         | Raise _ => false
         end
  end.

(** A network that is rate limited: every reply is a 429 asking for a
    second's wait. *)
Definition rate_limited : network := fun _ _ => Reply 429 (Some "1") "".

(** A network whose 429 carries a date in [Retry-After]. *)
Definition retry_after_date : network :=
  fun _ _ => Reply 429 (Some "Wed, 21 Oct 2026 07:28:00 GMT") "".

(** A network whose 429 asks for a wait no float can hold: a one followed
    by 320 zeros. *)
Definition retry_after_huge : network :=
  fun _ _ => Reply 429 (Some (PyStr.str ("1"%char :: repeat "0"%char 320))) "".

(** A network whose 429 pads the wait with a unit separator, which
    [str.strip] would remove and [int] does not. *)
Definition retry_after_padded : network :=
  fun _ _ => Reply 429 (Some (String (ascii_of_nat 31) "5")) "".

Unset Implicit Arguments.

(* ================================================================== *)
(** * The patterns of the source *)
(* ================================================================== *)

(** Every pattern of the module is inside the syntax the matcher
    supports, under the flags the source gives it. *)
Lemma source_patterns_compile :
  forallb (fun e => Re.compiles (snd e) Re.I_S)
          (patterns_8k ++ patterns_proxy ++ patterns_periodic) = true
  /\ forallb (fun e => Re.compiles (snd e) Re.I) metrics = true
  /\ forallb (fun p => Re.compiles p Re.I)
             (arppu_patterns
              ++ [membership_pattern1; membership_pattern2; membership_pattern3;
                  period_pattern1; period_pattern2; period_pattern3]) = true
  /\ forallb (fun p => Re.compiles p Re.I_S)
             [rev_pattern1; rev_pattern2; margin_pattern1; margin_pattern2;
              eps_pattern1; fallback_pattern] = true
  /\ forallb (fun p => Re.compiles p Re.NOFLAG)
             [nominee_pattern1; nominee_pattern2; nominee_pattern3] = true
  /\ Re.compiles nominee_table_pattern Re.VERBOSE = true
  /\ forallb supported
             [PRETAX_PATTERNS_FINAL.tjx_style; PRETAX_PATTERNS_FINAL.explicit_diff;
              PRETAX_PATTERNS_FINAL.simple; PRETAX_PATTERNS_FINAL.quarterly;
              diff_pattern; ymd_regex] = true.
Proof. repeat split; vm_compute; reflexivity. Qed.

(* ================================================================== *)
(** * The document fetcher and its cache *)
(* ================================================================== *)

Section FetcherFacts.

Variable find_all : string -> list tag.
Variable get_text : string -> string.

(** C2 (as amended). With disk caching enabled and a filing cache file
    that yields non-empty text, the fetcher returns that text paired with
    the cached exhibit text when the exhibit cache file is readable and
    non-empty, and with null otherwise; it issues no request and leaves the
    cache as it is, so the answer does not depend on the network. *)
Theorem cache_hit_returns_without_network :
  forall (net : network) (url cik accession f : string) (s : io) (t : string),
    PyStr.truthy f = true ->
    files (io_disk s) f = Some (FileText t) ->
    PyStr.truthy t = true ->
    fetch_filing_and_exhibit_html find_all get_text net url cik accession true (Some f) s
    = ((t, cached_exhibit (io_disk s) f), s)
    /\ forall net' : network,
        fetch_filing_and_exhibit_html find_all get_text net' url cik accession true (Some f) s
        = fetch_filing_and_exhibit_html find_all get_text net url cik accession true (Some f) s.
Proof.
  intros net url cik accession f s t Hf Hfile Ht.
  assert (Hgen : forall n : network,
             fetch_filing_and_exhibit_html find_all get_text n url cik accession
                                           true (Some f) s
             = ((t, cached_exhibit (io_disk s) f), s)).
  { intro n.
    assert (Hrc : read_cached (io_disk s) f = Some t)
      by (unfold read_cached; rewrite Hfile; reflexivity).
    unfold fetch_filing_and_exhibit_html, cached_exhibit.
    cbn [andb]. rewrite Hf, Hrc. cbn [truthy_opt]. rewrite Ht.
    destruct (read_cached (io_disk s) (exhibit_cache_name f)) as [e|]; cbn.
    - destruct (PyStr.truthy e); reflexivity.
    - reflexivity. }
  split.
  - apply Hgen.
  - intro net'. rewrite (Hgen net'), (Hgen net). reflexivity.
Qed.

End FetcherFacts.

(** The claim at a concrete cache: the filing and a non-empty exhibit are
    both cached, and the network is down. *)
Lemma cache_hit_returns_without_network_witness :
  let d := disk_of [("f.txt", FileText "filing text");
                    ("f_ex991.txt", FileText "exhibit text")] in
  fetch_filing_and_exhibit_html no_tags plain_text offline "u" "1" "a" true
                                (Some "f.txt") (IO d [])
  = (("filing text", Some "exhibit text"), IO d []).
Proof.
  intro d.
  destruct (cache_hit_returns_without_network no_tags plain_text offline "u" "1" "a"
              "f.txt" (IO d []) "filing text") as [H _];
    [reflexivity | reflexivity | reflexivity | ].
  exact H.
Defined.

(** C2, counterexample to the claim as stated. An exhibit cache entry
    exists and holds the empty text; the fetcher returns null for the
    exhibit, not the cached exhibit text. *)
Lemma cache_hit_empty_exhibit_counterexample :
  let d := disk_of [("f.txt", FileText "filing text"); ("f_ex991.txt", FileText "")] in
  files d (exhibit_cache_name "f.txt") = Some (FileText "")
  /\ fst (fetch_filing_and_exhibit_html no_tags plain_text offline "u" "1" "a" true
                                        (Some "f.txt") (IO d []))
     = ("filing text", None)
  /\ fst (fetch_filing_and_exhibit_html no_tags plain_text offline "u" "1" "a" true
                                        (Some "f.txt") (IO d []))
     <> ("filing text", Some "").
Proof.
  intro d. split; [reflexivity | split; [reflexivity | discriminate]].
Qed.

(* ================================================================== *)
(** * The filing locator *)
(* ================================================================== *)

Lemma date_ltb_irrefl : forall a, date_ltb a a = false.
Proof.
  intro a. unfold date_ltb.
  rewrite !Nat.ltb_irrefl, !Nat.eqb_refl. reflexivity.
Qed.

Lemma date_ltb_next_day : forall a, date_ltb a (next_day a) = true.
Proof.
  intros [y mo d]. unfold next_day, date_ltb; cbn [year month day].
  destruct (d <? days_in_month y mo) eqn:Hd; cbn [year month day].
  - rewrite !Nat.eqb_refl, !Nat.ltb_irrefl.
    assert (H : (d <? S d) = true) by (apply Nat.ltb_lt; lia).
    rewrite H. reflexivity.
  - destruct (mo <? 12) eqn:Hm; cbn [year month day].
    + rewrite Nat.eqb_refl, Nat.ltb_irrefl.
      assert (H : (mo <? S mo) = true) by (apply Nat.ltb_lt; lia).
      rewrite H. reflexivity.
    + assert (H : (y <? S y) = true) by (apply Nat.ltb_lt; lia).
      rewrite H. reflexivity.
Qed.

Lemma index_nth : forall xs i x, nth_error xs i = Some x -> index xs i = Ok x.
Proof. intros xs i x H. unfold index. rewrite H. reflexivity. Qed.

Lemma parse_bound_given :
  forall b d, parse_bound b = Ok (Some d) -> truthy_opt b = true.
Proof.
  intros [s|] d H; cbn in *; [|discriminate].
  destruct (PyStr.truthy s); [reflexivity|discriminate].
Qed.

(** Every row that passes the two tests is among the parsed filings. *)
Lemma parse_recent_complete :
  forall form_types hdf start_dt end_dt recent n i located,
    parse_recent form_types hdf start_dt end_dt recent i n = Ok located ->
    forall j f, i <= j < i + n -> row_at recent j f ->
                row_kept form_types hdf start_dt end_dt f = true ->
                In f located.
Proof.
  intros form_types hdf start_dt end_dt recent n.
  induction n as [|n IH]; intros i located Hp j f Hj Hrow Hkept; [lia|].
  cbn [parse_recent] in Hp. unfold bind in Hp.
  destruct (index (idx_form recent) i) as [fm|] eqn:Hfm; [|discriminate].
  destruct (index (idx_filingDate recent) i) as [fd|] eqn:Hfd; [|discriminate].
  destruct (Nat.eq_dec j i) as [->|Hne].
  - destruct Hrow as (R1 & R2 & R3 & R4).
    rewrite (index_nth _ _ _ R1) in Hfm. injection Hfm as <-.
    rewrite (index_nth _ _ _ R2) in Hfd. injection Hfd as <-.
    unfold row_kept in Hkept. apply andb_prop in Hkept as [K1 K2].
    rewrite K1 in Hp. cbn [negb] in Hp.
    assert (K : (hdf && negb (date_kept start_dt end_dt (filing_date f))) = false).
    { destruct hdf; cbn in *; [rewrite K2|]; reflexivity. }
    rewrite K in Hp.
    rewrite (index_nth _ _ _ R3), (index_nth _ _ _ R4) in Hp.
    destruct (parse_recent form_types hdf start_dt end_dt recent (S i) n); [|discriminate].
    injection Hp as <-. left. destruct f; reflexivity.
  - assert (Hrest : forall l, parse_recent form_types hdf start_dt end_dt recent (S i) n = Ok l
                              -> In f l).
    { intros l Hl. apply (IH (S i) l Hl j f); [lia|assumption|assumption]. }
    destruct (negb (form_matches form_types fm)); [apply Hrest; assumption|].
    destruct (hdf && negb (date_kept start_dt end_dt fd)); [apply Hrest; assumption|].
    destruct (index (idx_accessionNumber recent) i); [|discriminate].
    destruct (index (idx_primaryDocument recent) i); [|discriminate].
    destruct (parse_recent form_types hdf start_dt end_dt recent (S i) n) as [l|];
      [|discriminate].
    injection Hp as <-. right. apply Hrest. reflexivity.
Qed.

(** Every parsed filing passed the two tests. *)
Lemma parse_recent_sound :
  forall form_types hdf start_dt end_dt recent n i located,
    parse_recent form_types hdf start_dt end_dt recent i n = Ok located ->
    forall f, In f located -> row_kept form_types hdf start_dt end_dt f = true.
Proof.
  intros form_types hdf start_dt end_dt recent n.
  induction n as [|n IH]; intros i located Hp f Hin.
  - cbn in Hp. injection Hp as <-. destruct Hin.
  - cbn [parse_recent] in Hp. unfold bind in Hp.
    destruct (index (idx_form recent) i) as [fm|]; [|discriminate].
    destruct (index (idx_filingDate recent) i) as [fd|]; [|discriminate].
    destruct (negb (form_matches form_types fm)) eqn:K1; [eapply IH; eassumption|].
    destruct (hdf && negb (date_kept start_dt end_dt fd)) eqn:K2; [eapply IH; eassumption|].
    destruct (index (idx_accessionNumber recent) i) as [a|]; [|discriminate].
    destruct (index (idx_primaryDocument recent) i) as [d|]; [|discriminate].
    destruct (parse_recent form_types hdf start_dt end_dt recent (S i) n) as [l|] eqn:Hl;
      [|discriminate].
    injection Hp as <-. destruct Hin as [<-|Hin]; [|eapply IH; eassumption].
    unfold row_kept; cbn [form filing_date].
    apply negb_false_iff in K1. rewrite K1. cbn [andb].
    destruct hdf; cbn in *; [|reflexivity].
    apply negb_false_iff in K2. exact K2.
Qed.

(** C8. Filing-date filtering is inclusive at both ends. For the filings
    located under given bounds, a row of a requested form type dated
    exactly on the start date, or exactly on the end date, is located (the
    other bound, when given, not lying on the wrong side of it); a row
    dated one day before the start date, or one day after the end date, is
    not. *)
Theorem date_filter_inclusive :
  forall form_types start_date end_date recent located start_dt end_dt,
    parse_bound start_date = Ok start_dt ->
    parse_bound end_date = Ok end_dt ->
    locate_filings form_types start_date end_date recent = Ok located ->
    forall i f dt,
      row_at recent i f ->
      form_matches form_types (form f) = true ->
      strptime (filing_date f) = Ok dt ->
      (start_dt = Some dt ->
       (forall e, end_dt = Some e -> date_ltb e dt = false) -> In f located)
      /\ (end_dt = Some dt ->
          (forall s, start_dt = Some s -> date_ltb dt s = false) -> In f located)
      /\ (forall s, start_dt = Some s -> next_day dt = s -> ~ In f located)
      /\ (forall e, end_dt = Some e -> dt = next_day e -> ~ In f located).
Proof.
  intros form_types start_date end_date recent located start_dt end_dt Hs He Hloc
         i f dt Hrow Hform Hdate.
  unfold locate_filings in Hloc. rewrite Hs, He in Hloc. cbn [bind] in Hloc.
  set (hdf := truthy_opt start_date || truthy_opt end_date) in Hloc.
  assert (Hi : 0 <= i < 0 + List.length (idx_form recent)).
  { destruct Hrow as (R1 & _). split; [lia|].
    cbn. apply nth_error_Some. rewrite R1. discriminate. }
  assert (Hin : date_kept start_dt end_dt (filing_date f) = true -> In f located).
  { intro K. apply (parse_recent_complete _ _ _ _ _ _ _ _ Hloc i f Hi Hrow).
    unfold row_kept. rewrite Hform, K. destruct hdf; reflexivity. }
  assert (Hout : hdf = true -> date_kept start_dt end_dt (filing_date f) = false ->
                 ~ In f located).
  { intros Hh K Hf. pose proof (parse_recent_sound _ _ _ _ _ _ _ _ Hloc f Hf) as Hk.
    unfold row_kept in Hk. rewrite Hh, K, Hform in Hk. discriminate. }
  repeat split.
  - intros -> Hend. apply Hin. unfold date_kept. rewrite Hdate, date_ltb_irrefl.
    destruct end_dt as [e|]; [rewrite (Hend e eq_refl)|]; reflexivity.
  - intros -> Hstart. apply Hin. unfold date_kept. rewrite Hdate, date_ltb_irrefl.
    destruct start_dt as [s|]; [rewrite (Hstart s eq_refl)|]; reflexivity.
  - intros s -> <-. apply Hout.
    + unfold hdf. rewrite (parse_bound_given _ _ Hs). reflexivity.
    + unfold date_kept. rewrite Hdate, date_ltb_next_day. reflexivity.
  - intros e -> ->. apply Hout.
    + unfold hdf. rewrite (parse_bound_given _ _ He). apply orb_true_r.
    + unfold date_kept. rewrite Hdate, date_ltb_next_day.
      destruct start_dt as [s|]; [destruct (date_ltb (next_day e) s)|]; reflexivity.
Qed.

(** The claim on an index of four reports and the bounds 2024-01-01 to
    2024-12-31: the reports filed on the two bounds are located, the one
    filed the day before and the one filed the day after are not. *)
Lemma date_filter_inclusive_witness :
  exists located,
    locate_filings ["10-K"] (Some "2024-01-01") (Some "2024-12-31") index_2024 = Ok located
    /\ In filing_2024_01_01 located
    /\ In filing_2024_12_31 located
    /\ ~ In filing_2023_12_31 located
    /\ ~ In filing_2025_01_01 located.
Proof.
  exists [filing_2024_12_31; filing_2024_01_01].
  assert (Hloc : locate_filings ["10-K"] (Some "2024-01-01") (Some "2024-12-31") index_2024
                 = Ok [filing_2024_12_31; filing_2024_01_01]) by (vm_compute; reflexivity).
  assert (Hs : parse_bound (Some "2024-01-01") = Ok (Some (Date 2024 1 1)))
    by (vm_compute; reflexivity).
  assert (He : parse_bound (Some "2024-12-31") = Ok (Some (Date 2024 12 31)))
    by (vm_compute; reflexivity).
  pose proof (date_filter_inclusive _ _ _ _ _ _ _ Hs He Hloc) as T.
  split; [exact Hloc|].
  split.
  { destruct (T 2 filing_2024_01_01 (Date 2024 1 1)) as (H & _);
      [repeat split | reflexivity | vm_compute; reflexivity | ].
    apply H; [reflexivity|]. intros e E. injection E as <-. vm_compute; reflexivity. }
  split.
  { destruct (T 1 filing_2024_12_31 (Date 2024 12 31)) as (_ & H & _);
      [repeat split | reflexivity | vm_compute; reflexivity | ].
    apply H; [reflexivity|]. intros s E. injection E as <-. vm_compute; reflexivity. }
  split.
  { destruct (T 3 filing_2023_12_31 (Date 2023 12 31)) as (_ & _ & H & _);
      [repeat split | reflexivity | vm_compute; reflexivity | ].
    apply (H (Date 2024 1 1)); [reflexivity | vm_compute; reflexivity]. }
  { destruct (T 0 filing_2025_01_01 (Date 2025 1 1)) as (_ & _ & _ & H);
      [repeat split | reflexivity | vm_compute; reflexivity | ].
    apply (H (Date 2024 12 31)); [reflexivity | vm_compute; reflexivity]. }
Defined.

(* ================================================================== *)
(** * The identifier resolver *)
(* ================================================================== *)

(** [int] skips the white space of the C locale and no other: blanks and
    line ends around the digits are accepted; a unit separator, which
    [str.strip] removes, is a [ValueError], and the registry row that
    holds one is passed over. *)
Lemma int_skips_blanks_only :
  PyInt.of_string (" 5" ++ PyStr.nl)%string = Ok 5%Z
  /\ PyStr.strip (String (ascii_of_nat 31) "5") = "5"
  /\ PyInt.of_string (String (ascii_of_nat 31) "5") = Raise ValueError
  /\ scan_rows "acme corp" "ACME"
               [[CellStr (String (ascii_of_nat 31) "5"); CellStr "Acme Corp";
                 CellStr "ACME"; CellStr "NYSE"]]
     = Ok (None, None).
Proof.
  repeat split; vm_compute; reflexivity.
Qed.

Lemma scan_rows_skip :
  forall company_clean ticker_upper r rest,
    row_silent company_clean ticker_upper r ->
    scan_rows company_clean ticker_upper (r :: rest)
    = scan_rows company_clean ticker_upper rest.
Proof.
  intros c t r rest H. unfold row_silent in H. cbn [scan_rows] in *.
  destruct (List.length r <? 4); [reflexivity|].
  unfold bind in *.
  destruct (cell_str (nth 1 r CellNone)) as [legal|]; [|discriminate].
  destruct (cell_str (nth 2 r CellNone)) as [symbol|]; [|discriminate].
  destruct (cell_int (nth 0 r CellNone)) as [n|]; [|reflexivity].
  destruct (PyInt.to_string n) as [digits|]; [|reflexivity].
  destruct (String.eqb (PyStr.upper (PyStr.strip symbol)) t); [discriminate|].
  destruct (String.eqb c (clean_company_name (clean_company_name (PyStr.lower legal))));
    [discriminate|reflexivity].
Qed.

Lemma scan_rows_skip_all :
  forall company_clean ticker_upper pre rest,
    Forall (row_silent company_clean ticker_upper) pre ->
    scan_rows company_clean ticker_upper (pre ++ rest)
    = scan_rows company_clean ticker_upper rest.
Proof.
  intros c t pre rest H. induction H as [|r pre Hr _ IH]; [reflexivity|].
  cbn [app]. rewrite scan_rows_skip by assumption. exact IH.
Qed.

(** C7 (as amended). The registry rows are scanned in order and the first
    row that matches decides: after rows that resolve nothing, a usable row
    whose ticker equals the upper-cased query ticker, or whose normalized
    name equals the normalized query name, gives the result, whatever rows
    follow it. *)
Theorem first_matching_row_decides :
  forall (company_name ticker_symbol : option string) (pre post : list row) (r : row)
         (legal symbol digits : string) (n : Z),
    let company_clean := clean_company_name (strip_or_empty company_name) in
    let ticker_upper := PyStr.upper (strip_or_empty ticker_symbol) in
    PyStr.truthy (strip_or_empty company_name)
    || PyStr.truthy (strip_or_empty ticker_symbol) = true ->
    Forall (row_silent company_clean ticker_upper) pre ->
    4 <= List.length r ->
    cell_str (nth 1 r CellNone) = Ok legal ->
    cell_str (nth 2 r CellNone) = Ok symbol ->
    cell_int (nth 0 r CellNone) = Ok n ->
    PyInt.to_string n = Ok digits ->
    PyStr.upper (PyStr.strip symbol) = ticker_upper
    \/ company_clean = clean_company_name (clean_company_name (PyStr.lower legal)) ->
    get_cik_from_ticker_or_name company_name ticker_symbol (HttpBody (pre ++ r :: post))
    = (Some (PyStr.zfill 10 digits), Some (PyStr.upper (PyStr.strip symbol))).
Proof.
  intros company_name ticker_symbol pre post r legal symbol digits n c t
         Hq Hpre Hlen Hlegal Hsymbol Hint Hstr Hmatch.
  unfold get_cik_from_ticker_or_name. fold c. fold t.
  assert (Hq' : negb (PyStr.truthy (strip_or_empty company_name))
                && negb (PyStr.truthy (strip_or_empty ticker_symbol)) = false).
  { destruct (PyStr.truthy (strip_or_empty company_name)); [reflexivity|].
    cbn in Hq. rewrite Hq. reflexivity. }
  rewrite Hq'. rewrite scan_rows_skip_all by assumption.
  cbn [scan_rows].
  assert (Hl : (List.length r <? 4) = false) by (apply Nat.ltb_ge; lia).
  rewrite Hl, Hlegal, Hsymbol. cbn [bind]. rewrite Hint. cbn [bind]. rewrite Hstr.
  destruct Hmatch as [Ht|Hn].
  - rewrite Ht, String.eqb_refl. reflexivity.
  - destruct (String.eqb (PyStr.upper (PyStr.strip symbol)) t); [reflexivity|].
    rewrite <- Hn, String.eqb_refl. reflexivity.
Qed.

(** The amended claim on the registry of two companies: asked for the
    ticker BAN alone, the resolver passes the first row and returns the
    second. *)
Lemma first_matching_row_decides_witness :
  get_cik_from_ticker_or_name None (Some "ban") (HttpBody registry_two)
  = (Some "0000000002", Some "BAN").
Proof.
  apply (first_matching_row_decides None (Some "ban")
           [[CellInt 1; CellStr "Apple Inc."; CellStr "AAPL"; CellStr "Nasdaq"]] []
           [CellInt 2; CellStr "Banana Corp"; CellStr "BAN"; CellStr "NYSE"]
           "Banana Corp" "BAN" "2" 2%Z).
  - reflexivity.
  - constructor; [vm_compute; reflexivity | constructor].
  - cbn; lia.
  - reflexivity.
  - reflexivity.
  - reflexivity.
  - vm_compute; reflexivity.
  - left. vm_compute; reflexivity.
Defined.

(** C7, counterexample to the claim as stated. The second row's ticker
    equals the query ticker, yet the resolver returns the first row, whose
    name matches the query name: the name match of an earlier row decides
    although a row's ticker matches. *)
Lemma ticker_match_loses_to_earlier_name_counterexample :
  PyStr.upper (PyStr.strip "BAN") = PyStr.upper (strip_or_empty (Some "ban"))
  /\ get_cik_from_ticker_or_name (Some "Apple") (Some "ban") (HttpBody registry_two)
     = (Some "0000000001", Some "AAPL")
  /\ get_cik_from_ticker_or_name (Some "Apple") (Some "ban") (HttpBody registry_two)
     <> (Some "0000000002", Some "BAN").
Proof.
  split; [vm_compute; reflexivity|].
  split; [vm_compute; reflexivity|].
  vm_compute. discriminate.
Qed.

(** ** The shape of a resolved identifier *)

Lemma chars_str : forall l, PyStr.chars (PyStr.str l) = l.
Proof. intro l. apply list_ascii_of_string_of_list_ascii. Qed.

Lemma str_chars : forall s, PyStr.str (PyStr.chars s) = s.
Proof. intro s. apply string_of_list_ascii_of_string. Qed.

Lemma len_str : forall l, PyStr.len (PyStr.str l) = List.length l.
Proof.
  induction l as [|a l IH]; [reflexivity|].
  unfold PyStr.len, PyStr.str in *. cbn. rewrite IH. reflexivity.
Qed.

Lemma is_cik10_str :
  forall l, List.length l = 10 -> forallb PyStr.is_digit l = true ->
            is_cik10 (PyStr.str l) = true.
Proof.
  intros l Hl Hd. unfold is_cik10, PyStr.all_digits.
  rewrite len_str, chars_str, Hl, Hd. reflexivity.
Qed.

Lemma digit_not_sign :
  forall a, PyStr.is_digit a = true ->
            Ascii.eqb a "+"%char || Ascii.eqb a "-"%char = false.
Proof.
  intros a H.
  destruct (Ascii.eqb_spec a "+"%char) as [->|_]; [discriminate|].
  destruct (Ascii.eqb_spec a "-"%char) as [->|_]; [discriminate|reflexivity].
Qed.

Lemma digit_not_colon :
  forall a, PyStr.is_digit a = true -> Ascii.eqb a ":"%char = false.
Proof.
  intros a H. destruct (Ascii.eqb_spec a ":"%char) as [->|_]; [discriminate|reflexivity].
Qed.

Lemma forallb_repeat_zero :
  forall k, forallb PyStr.is_digit (repeat PyStr.zero k) = true.
Proof. induction k as [|k IH]; [reflexivity|]. cbn [repeat forallb]. rewrite IH. reflexivity. Qed.

(** Padding a text of at most ten digits gives ten digits. *)
Lemma zfill_digits :
  forall l, forallb PyStr.is_digit l = true -> List.length l <= 10 ->
            PyStr.chars (PyStr.zfill 10 (PyStr.str l)) = repeat PyStr.zero (10 - List.length l) ++ l.
Proof.
  intros l Hd Hl. unfold PyStr.zfill. rewrite chars_str.
  destruct l as [|a l'].
  - rewrite chars_str, app_nil_r. reflexivity.
  - cbn [forallb] in Hd. apply andb_prop in Hd as [Ha _].
    rewrite (digit_not_sign a Ha), chars_str. reflexivity.
Qed.

(** Padding a text of ten characters or more changes nothing. *)
Lemma zfill_long :
  forall l, 10 <= List.length l -> PyStr.zfill 10 (PyStr.str l) = PyStr.str l.
Proof.
  intros l Hl. unfold PyStr.zfill. rewrite chars_str.
  replace (10 - List.length l) with 0 by lia. cbn [repeat app].
  destruct l as [|a l']; [reflexivity|].
  destruct (Ascii.eqb a "+"%char || Ascii.eqb a "-"%char); reflexivity.
Qed.

Lemma split1_no_colon :
  forall l, forallb PyStr.is_digit l = true ->
            PyStr.split1_chars ":"%char l = (l, None).
Proof.
  induction l as [|a l IH]; intro H; [reflexivity|].
  cbn [forallb] in H. apply andb_prop in H as [Ha Hl].
  cbn [PyStr.split1_chars]. rewrite (digit_not_colon a Ha), (IH Hl). reflexivity.
Qed.

Lemma split1_some :
  forall l h t, PyStr.split1_chars ":"%char l = (h, Some t) -> l = h ++ ":"%char :: t.
Proof.
  induction l as [|a l IH]; intros h t H; [discriminate|].
  cbn [PyStr.split1_chars] in H.
  destruct (Ascii.eqb_spec a ":"%char) as [->|_].
  - injection H as <- <-. reflexivity.
  - destruct (PyStr.split1_chars ":"%char l) as [h' t'] eqn:E.
    injection H as <- ->. cbn [app]. f_equal. apply IH. reflexivity.
Qed.

Lemma split1_digits_colon :
  forall h t, forallb PyStr.is_digit h = true ->
              PyStr.split1_chars ":"%char (h ++ ":"%char :: t) = (h, Some t).
Proof.
  induction h as [|a h IH]; intros t H; [reflexivity|].
  cbn [forallb] in H. apply andb_prop in H as [Ha Hh].
  cbn [app PyStr.split1_chars]. rewrite (digit_not_colon a Ha), (IH t Hh). reflexivity.
Qed.

(** An identifier field of the canonical layout is padded and cut to ten
    digits. *)
Lemma canonical_field_cik10 :
  forall field, canonical_field field = true ->
                is_cik10 (before_colon (PyStr.zfill 10 field)) = true.
Proof.
  intros field H. unfold canonical_field in H. unfold before_colon.
  rewrite <- (str_chars field).
  destruct (PyStr.split1_chars ":"%char (PyStr.chars field)) as [digits [rest|]] eqn:E;
    apply andb_prop in H as [Hd Hl].
  - apply Nat.eqb_eq in Hl. apply split1_some in E. rewrite E.
    rewrite zfill_long by (rewrite length_app; lia).
    rewrite chars_str, split1_digits_colon by assumption. cbn [fst].
    apply is_cik10_str; assumption.
  - apply Nat.leb_le in Hl.
    assert (Ef : PyStr.chars field = digits).
    { pose proof (split1_no_colon digits Hd) as N.
      clear - E. revert digits E.
      induction (PyStr.chars field) as [|a l IH]; intros digits E.
      - injection E as <-. reflexivity.
      - cbn [PyStr.split1_chars] in E.
        destruct (Ascii.eqb a ":"%char); [discriminate|].
        destruct (PyStr.split1_chars ":"%char l) as [h t].
        injection E as <- ->. rewrite (IH h eq_refl). reflexivity. }
    rewrite Ef, zfill_digits by assumption.
    rewrite split1_no_colon
      by (rewrite forallb_app, forallb_repeat_zero, Hd; reflexivity).
    cbn [fst]. apply is_cik10_str.
    + rewrite length_app, repeat_length. lia.
    + rewrite forallb_app, forallb_repeat_zero, Hd. reflexivity.
Qed.

Lemma digit_char_is_digit :
  forall d, (0 <= d < 10)%Z -> PyStr.is_digit (PyInt.digit_char d) = true.
Proof.
  intros d H. unfold PyInt.digit_char.
  assert (K : Z.to_nat d < 10) by lia.
  destruct (Z.to_nat d) as [|[|[|[|[|[|[|[|[|[|k]]]]]]]]]]; try reflexivity; lia.
Qed.

Lemma digits_rev_digits :
  forall fuel n, (0 <= n)%Z -> forallb PyStr.is_digit (PyInt.digits_rev fuel n) = true.
Proof.
  induction fuel as [|f IH]; intros n Hn; [reflexivity|].
  cbn [PyInt.digits_rev forallb].
  rewrite digit_char_is_digit by (apply Z.mod_pos_bound; lia).
  destruct (n <? 10)%Z; [reflexivity|].
  apply IH. apply Z.div_pos; lia.
Qed.

Lemma digits_rev_length :
  forall fuel k n, (0 <= n < 10 ^ Z.of_nat (S k))%Z ->
                   List.length (PyInt.digits_rev fuel n) <= S k.
Proof.
  induction fuel as [|f IH]; intros k n Hn; [cbn; lia|].
  cbn [PyInt.digits_rev List.length].
  destruct (n <? 10)%Z eqn:E; [cbn; lia|].
  apply Z.ltb_ge in E.
  destruct k as [|k].
  - change (10 ^ Z.of_nat 1)%Z with 10%Z in Hn. lia.
  - apply le_n_S. apply IH.
    rewrite Nat2Z.inj_succ, Z.pow_succ_r in Hn by lia.
    split; [apply Z.div_pos; lia|].
    apply Z.div_lt_upper_bound; lia.
Qed.

(** The decimal text of a non-negative integer below ten thousand million
    pads to ten digits. *)
Lemma zfill_decimal_cik10 :
  forall n, (0 <= n < 10 ^ 10)%Z -> is_cik10 (PyStr.zfill 10 (PyInt.decimal n)) = true.
Proof.
  intros n Hn. unfold PyInt.decimal.
  assert (E : (n <? 0)%Z = false) by (apply Z.ltb_ge; lia). rewrite E.
  rewrite Z.abs_eq by lia.
  set (ds := rev (PyInt.digits_rev (S (Z.to_nat (Z.log2 n))) n)).
  assert (Hd : forallb PyStr.is_digit ds = true).
  { unfold ds. rewrite forallb_forall. intros a Ha. apply in_rev in Ha.
    pose proof (digits_rev_digits (S (Z.to_nat (Z.log2 n))) n (proj1 Hn)) as D.
    rewrite forallb_forall in D. exact (D a Ha). }
  assert (Hl : List.length ds <= 10).
  { unfold ds. rewrite length_rev. apply (digits_rev_length _ 9 n). exact Hn. }
  rewrite <- (str_chars (PyStr.zfill 10 (PyStr.str ds))).
  rewrite zfill_digits by assumption.
  apply is_cik10_str.
  - rewrite length_app, repeat_length. lia.
  - rewrite forallb_app, forallb_repeat_zero, Hd. reflexivity.
Qed.

Lemma to_string_decimal :
  forall n digits, PyInt.to_string n = Ok digits -> digits = PyInt.decimal n.
Proof.
  intros n digits H. unfold PyInt.to_string in H.
  destruct (Z.abs n <? 10 ^ Z.of_nat PyInt.int_max_str_digits)%Z; [|discriminate].
  injection H as <-. reflexivity.
Qed.

(** An identifier found in the registry is the padded decimal text of the
    integer in the first cell of one of its rows. *)
Lemma scan_rows_shape :
  forall company_clean ticker_upper rows cik tk,
    scan_rows company_clean ticker_upper rows = Ok (Some cik, tk) ->
    exists r n, In r rows /\ cell_int (nth 0 r CellNone) = Ok n
                /\ cik = PyStr.zfill 10 (PyInt.decimal n).
Proof.
  intros c t rows cik tk. induction rows as [|r rows IH]; intro H; [discriminate|].
  assert (Hrest : scan_rows c t rows = Ok (Some cik, tk) ->
                  exists r0 n, In r0 (r :: rows) /\ cell_int (nth 0 r0 CellNone) = Ok n
                               /\ cik = PyStr.zfill 10 (PyInt.decimal n)).
  { intro K. destruct (IH K) as (r0 & n & Hin & Hint & Hc).
    exists r0, n. split; [right; assumption|split; assumption]. }
  cbn [scan_rows] in H.
  destruct (List.length r <? 4); [apply Hrest; assumption|].
  unfold bind in H.
  destruct (cell_str (nth 1 r CellNone)) as [legal|]; [|discriminate].
  destruct (cell_str (nth 2 r CellNone)) as [symbol|]; [|discriminate].
  destruct (cell_int (nth 0 r CellNone)) as [n|] eqn:Hint; [|apply Hrest; assumption].
  destruct (PyInt.to_string n) as [digits|] eqn:Hstr; [|apply Hrest; assumption].
  apply to_string_decimal in Hstr. subst digits.
  destruct (String.eqb (PyStr.upper (PyStr.strip symbol)) t).
  - injection H as <- _. exists r, n. split; [left; reflexivity|split; [assumption|reflexivity]].
  - destruct (String.eqb c (clean_company_name (clean_company_name (PyStr.lower legal)))).
    + injection H as <- _.
      exists r, n. split; [left; reflexivity|split; [assumption|reflexivity]].
    + apply Hrest; assumption.
Qed.

(** An identifier found in the archive is cut from the padded identifier
    field of one of its lines. *)
Lemma scan_lines_shape :
  forall search_lower lines cik,
    scan_lines search_lower lines = Some cik ->
    exists line field, In line lines /\ archive_field line = Some field
                       /\ cik = before_colon (PyStr.zfill 10 field).
Proof.
  intros search lines cik. induction lines as [|line lines IH]; intro H; [discriminate|].
  assert (Hrest : scan_lines search lines = Some cik ->
                  exists l field, In l (line :: lines) /\ archive_field l = Some field
                                  /\ cik = before_colon (PyStr.zfill 10 field)).
  { intro K. destruct (IH K) as (l & field & Hin & Hf & Hc).
    exists l, field. split; [right; assumption|split; assumption]. }
  cbn [scan_lines] in H.
  destruct (PyStr.split1_chars ":"%char (PyStr.chars line)) as [name_part [cik_part|]] eqn:E;
    [|apply Hrest; assumption].
  match type of H with
  | (if ?b then _ else _) = _ => destruct b
  end; [|apply Hrest; assumption].
  injection H as <-. exists line, (PyStr.strip (PyStr.str cik_part)).
  split; [left; reflexivity|]. split; [|reflexivity].
  unfold archive_field. rewrite E. reflexivity.
Qed.

(** C4 (as amended). An identifier the registry path returns is the
    decimal text of the integer in a row's first cell, padded with zeros
    to ten characters at least: a 10-character numeric string whenever that
    integer is non-negative and below ten thousand million. An identifier
    the archive path returns is cut, before the first colon, from the
    padded identifier field of a line: a 10-character numeric string
    whenever the field is ten digits followed by a colon, or at most ten
    digits. *)
Theorem resolved_identifier_shape :
  (forall company_name ticker_symbol registry cik tk,
      get_cik_from_ticker_or_name company_name ticker_symbol registry = (Some cik, tk) ->
      exists rows r n,
        registry = HttpBody rows /\ In r rows /\ cell_int (nth 0 r CellNone) = Ok n
        /\ cik = PyStr.zfill 10 (PyInt.decimal n)
        /\ ((0 <= n < 10 ^ 10)%Z -> is_cik10 cik = true))
  /\ (forall company_name use_disk_cache cache_filename archive d cik d',
         get_cik_from_archive company_name use_disk_cache cache_filename archive d
         = Ok (Some cik, d') ->
         PyStr.truthy cik = true ->
         exists data line field,
           (archive = HttpBody data \/ exists f, files d f = Some (FileText data))
           /\ In line (PyStr.splitlines data) /\ archive_field line = Some field
           /\ cik = before_colon (PyStr.zfill 10 field)
           /\ (canonical_field field = true -> is_cik10 cik = true)).
Proof.
  split.
  - intros company_name ticker_symbol registry cik tk H.
    unfold get_cik_from_ticker_or_name in H.
    destruct (negb (PyStr.truthy (strip_or_empty company_name))
              && negb (PyStr.truthy (strip_or_empty ticker_symbol))); [discriminate|].
    destruct registry as [msg|status|rows]; [discriminate|discriminate|].
    destruct (scan_rows (clean_company_name (strip_or_empty company_name))
                        (PyStr.upper (strip_or_empty ticker_symbol)) rows)
      as [found|] eqn:E; [|discriminate].
    subst found. destruct (scan_rows_shape _ _ _ _ _ E) as (r & n & Hin & Hint & Hc).
    exists rows, r, n. repeat split; try assumption.
    intro Hn. subst cik. apply zfill_decimal_cik10. exact Hn.
  - intros company_name use_disk_cache cache_filename archive d cik d' H Hcik.
    unfold get_cik_from_archive in H.
    destruct company_name as [name|]; [|discriminate].
    set (search := clean_company_name (PyStr.strip name)) in H.
    assert (Hscan : forall data,
              (archive = HttpBody data \/ exists f, files d f = Some (FileText data)) ->
              scan_lines search (PyStr.splitlines data) = Some cik ->
              exists data0 line field,
                (archive = HttpBody data0 \/ exists f, files d f = Some (FileText data0))
                /\ In line (PyStr.splitlines data0) /\ archive_field line = Some field
                /\ cik = before_colon (PyStr.zfill 10 field)
                /\ (canonical_field field = true -> is_cik10 cik = true)).
    { intros data Hprov K.
      destruct (scan_lines_shape _ _ _ K) as (line & field & Hin & Hf & Hc).
      exists data, line, field. repeat split; try assumption.
      intro Hcan. subst cik. apply canonical_field_cik10. exact Hcan. }
    set (caching := match cache_filename with
                    | Some f => if use_disk_cache && PyStr.truthy f then Some f else None
                    | None => None
                    end) in H.
    destruct (match caching with Some f => files d f | None => None end)
      as [[data|]|] eqn:Hc.
    + injection H as H _. apply (Hscan data); [|exact H].
      right. destruct caching as [f|]; [|discriminate]. exists f. exact Hc.
    + injection H as <- _. discriminate.
    + destruct archive as [msg|status|data]; try discriminate.
      injection H as H _. apply (Hscan data); [left; reflexivity|exact H].
Qed.

(** The amended claim on the registry of two companies and on an archive
    line in the archive's own layout. *)
Lemma resolved_identifier_shape_witness :
  is_cik10 "0000000002" = true /\ is_cik10 "0000320193" = true.
Proof.
  destruct resolved_identifier_shape as [A B]. split.
  - destruct (A None (Some "ban") (HttpBody registry_two) "0000000002" (Some "BAN"))
      as (rows & r & n & Hreg & Hin & Hint & _ & Hshape); [vm_compute; reflexivity|].
    injection Hreg as <-. apply Hshape.
    destruct Hin as [<-|[<-|[]]]; cbn in Hint; injection Hint as <-; lia.
  - destruct (B (Some "Apple") false None (HttpBody "APPLE INC:0000320193:")
                (disk_of []) "0000320193" (disk_of []))
      as (data & line & field & Hprov & Hin & Hfield & _ & Hshape);
      [vm_compute; reflexivity | reflexivity | ].
    apply Hshape.
    destruct Hprov as [Hd|[f Hd]]; [|discriminate].
    injection Hd as <-.
    destruct Hin as [<-|[]].
    vm_compute in Hfield. injection Hfield as <-. vm_compute; reflexivity.
Defined.

(** C4, counterexample to the claim as stated. A registry row whose
    identifier has eleven digits resolves to an 11-character string, and
    an archive line whose identifier field is [1234:] resolves to a
    9-character string. *)
Lemma resolved_identifier_not_ten_counterexample :
  get_cik_from_ticker_or_name None (Some "ACME") (HttpBody registry_eleven)
  = (Some "12345678901", Some "ACME")
  /\ is_cik10 "12345678901" = false
  /\ get_cik_from_archive (Some "Acme Corp") false None (HttpBody archive_short) (disk_of [])
     = Ok (Some "000001234", disk_of [])
  /\ is_cik10 "000001234" = false.
Proof.
  repeat split; vm_compute; reflexivity.
Qed.

(* ================================================================== *)
(** * The financial line-item extractor *)
(* ================================================================== *)

Lemma dict_get_set_same :
  forall (V : Type) k (v : V) d, dict_get k (dict_set k v d) = Some v.
Proof.
  intros V k v d. induction d as [|[k' v'] d IH]; cbn.
  - rewrite String.eqb_refl. reflexivity.
  - destruct (String.eqb k' k) eqn:E; cbn.
    + rewrite String.eqb_refl. reflexivity.
    + rewrite E. exact IH.
Qed.

Lemma dict_get_set_other :
  forall (V : Type) k k' (v : V) d,
    String.eqb k' k = false -> dict_get k (dict_set k' v d) = dict_get k d.
Proof.
  intros V k k' v d Hk. induction d as [|[k0 v0] d IH]; cbn.
  - rewrite Hk. reflexivity.
  - destruct (String.eqb k0 k') eqn:E; cbn.
    + apply String.eqb_eq in E. subst k0. rewrite Hk. reflexivity.
    + destruct (String.eqb k0 k); [reflexivity|exact IH].
Qed.

(** Whenever the extractor returns, its mapping holds the two keys the
    source sets unconditionally, bound to what the ARPPU and membership
    blocks computed. *)
Lemma extract_financial_data_keys :
  forall text fd,
    extract_financial_data text = Ok fd ->
    dict_get "arppu_data" fd = Some (MetricArppu (extract_arppu text))
    /\ exists m, dict_get "membership_data" fd = Some (MetricMembership m).
Proof.
  intros text fd H. unfold extract_financial_data, bind in H.
  destruct (extract_pretax_margin_data text) as [pretax|]; [|discriminate].
  destruct (extract_membership text) as [membership|]; [|discriminate].
  injection H as <-. split.
  - rewrite dict_get_set_other by reflexivity. apply dict_get_set_same.
  - exists membership. apply dict_get_set_same.
Qed.

Lemma extract_financial_data_nonempty :
  forall text fd, extract_financial_data text = Ok fd -> nonempty fd = true.
Proof.
  intros text fd H. destruct (extract_financial_data_keys text fd H) as [K _].
  destruct fd; [discriminate|reflexivity].
Qed.

(** C10 (failing input). On a text whose membership count is written with
    an ellipsis the extractor returns no mapping: the conversion of the
    captured [...] raises [ValueError], which nothing handles. *)
Theorem financial_extractor_raises_on_ellipsis :
  Re.findall (Re.compile membership_pattern1 Re.I) ellipsis_text = ["..."]
  /\ PyFloat.of_string "..." = Raise ValueError
  /\ extract_financial_data ellipsis_text = Raise ValueError.
Proof.
  repeat split; vm_compute; reflexivity.
Qed.

(* ================================================================== *)
(** * The orchestrator *)
(* ================================================================== *)

Section SearchFacts.

Variable find_all : string -> list tag.
Variable get_text : string -> string.

(** The guard of step 7 never drops a filing: the financial metrics
    always hold their two unconditional keys. *)
Lemma build_entry_always_appends :
  forall f doc_url filing_text exhibit_text keywords r,
    build_entry f doc_url filing_text exhibit_text keywords = Ok r ->
    exists e, r = Some e.
Proof.
  intros f doc_url filing_text exhibit_text keywords r H.
  unfold build_entry, bind in H.
  match type of H with
  | match extract_financial_data ?t with _ => _ end = _ =>
      destruct (extract_financial_data t) as [metrics|] eqn:Hm; [|discriminate]
  end.
  apply extract_financial_data_nonempty in Hm.
  match type of H with
  | match ?g with _ => _ end = _ => destruct g as [guidance|]; [|discriminate]
  end.
  rewrite Hm, orb_true_r in H. cbn [orb] in H.
  injection H as <-. eexists. reflexivity.
Qed.

(** The count a report carries is the length of its timeline. *)
Lemma total_found_is_length :
  forall w company_name ticker_symbol cik form_types start_date end_date keywords
         use_disk_cache s company ticker cik' sic sic_description timeline total s',
    sec_search find_all get_text w company_name ticker_symbol cik form_types
               start_date end_date keywords use_disk_cache s
    = Ok (SearchReport company ticker cik' sic sic_description timeline total, s') ->
    total = List.length timeline.
Proof.
  intros w company_name ticker_symbol cik form_types start_date end_date keywords
         use_disk_cache s company ticker cik' sic sic_description timeline total s' H.
  unfold sec_search, bind in H.
  match type of H with
  | match ?r with _ => _ end = _ => destruct r as [[[c t] s0]|]; [|discriminate]
  end.
  destruct c as [c|]; [|discriminate].
  destruct (negb (PyStr.truthy c)); [discriminate|].
  destruct (submissions w c) as [msg|status|data]; [discriminate|discriminate|].
  destruct (locate_filings form_types start_date end_date (sub_recent data))
    as [raw|[]]; try discriminate.
  destruct (process_filings find_all get_text (documents w) c use_disk_cache keywords raw s0)
    as [[tl s1]|]; [|discriminate].
  injection H as _ _ _ _ _ <- <- _. reflexivity.
Qed.

End SearchFacts.

(** C1 (failing input). A search that locates an annual report, a current
    report and a proxy statement whose texts match no section pattern, no
    metric, no guidance and no nominee still returns the three filings in
    the timeline, with [total_found = 3]. *)
Theorem no_signal_filing_is_kept :
  (forall form, In form ["10-K"; "8-K"; "DEF 14A"] ->
                extract_all_sections widgets form None = [])
  /\ extract_financial_data widgets
     = Ok [("arppu_data", MetricArppu (ArppuData None None None));
           ("membership_data", MetricMembership (MembershipData None))]
  /\ extract_guidance_data widgets = Ok guidance_empty
  /\ extract_board_nominees widgets = []
  /\ sec_search no_tags plain_text acme_world None (Some "ACME") None
                ["10-K"; "8-K"; "DEF 14A"] None None None true (IO acme_disk [])
     = Ok (SearchReport (Some "Acme Corp") "ACME" "0000000001" (Some "3490")
                        (Some "Misc Fabricated Metal Products")
                        acme_timeline 3,
           IO acme_disk []).
Proof.
  split.
  { intros form [<-|[<-|[<-|[]]]]; vm_compute; reflexivity. }
  repeat split; vm_compute; reflexivity.
Qed.

(* ================================================================== *)
(** * The board-nominee extractor *)
(* ================================================================== *)

(** Deduplication only drops values. *)
Lemma distinct_incl :
  forall (A : Type) (eqb : A -> A -> bool) (l seen : list A) (x : A),
    In x (distinct eqb seen l) -> In x l.
Proof.
  intros A eqb. induction l as [|y l IH]; intros seen x H; cbn [distinct] in H.
  - exact H.
  - destruct (mem eqb y seen).
    + right. exact (IH _ _ H).
    + destruct H as [E|H]; [left; exact E|right; exact (IH _ _ H)].
Qed.

Lemma firstn_incl : forall (A : Type) (n : nat) (l : list A) (x : A),
    In x (firstn n l) -> In x l.
Proof.
  intros A. induction n as [|n IH]; intros [|y l] x H; cbn [firstn] in H;
    try contradiction.
  destruct H as [E|H]; [left; exact E|right; exact (IH _ _ H)].
Qed.

(** Every name the extractor returns passed the validation checks; in
    particular none contains a stopword. *)
Lemma extract_board_nominees_valid :
  forall text name,
    In name (extract_board_nominees text) -> valid_name name = true.
Proof.
  intros text name H. unfold extract_board_nominees in H.
  apply firstn_incl, distinct_incl, filter_In in H. apply H.
Qed.

Lemma extract_board_nominees_no_stopword :
  forall text name,
    In name (extract_board_nominees text) -> has_stopword name = false.
Proof.
  intros text name H. apply extract_board_nominees_valid in H.
  unfold valid_name in H.
  repeat (apply andb_prop in H; destruct H as [H ?]).
  destruct (has_stopword name); [discriminate|reflexivity].
Qed.

(** The two header phrases are never returned, whatever the text. *)
Lemma header_phrases_rejected :
  forall text,
    ~ In "Nominating Committee" (extract_board_nominees text)
    /\ ~ In "Principal Occupation" (extract_board_nominees text).
Proof.
  intro text. split; intro H; apply extract_board_nominees_no_stopword in H;
    vm_compute in H; discriminate.
Qed.

(** Where no capitalized word precedes a name, a name followed by its
    age is returned. *)
Lemma plain_table_names_accepted :
  extract_board_nominees plain_table = ["Thomas J. Carley"; "Anthony Meeker"].
Proof. vm_compute. reflexivity. Qed.

(** C9 (failing input). On the nominee table the source describes, placed
    under its header row, the extractor returns no name at all: the table
    pattern lets a name start on the previous line, so the candidates are
    "Occupation / Thomas J. Carley" and "Board / Anthony Meeker", which the
    stopword filter rejects. On the two table lines alone it returns the
    first name and not the second. *)
Theorem nominee_table_names_are_lost :
  PyStr.contains "Nominating Committee" proxy_table = true
  /\ PyStr.contains "Principal Occupation" proxy_table = true
  /\ map Re.group0 (Re.finditer (Re.compile nominee_table_pattern Re.VERBOSE) proxy_table)
     = [("Occupation" ++ PyStr.nl ++ "Thomas J. Carley              65")%string;
        ("Board" ++ PyStr.nl ++ "Anthony Meeker                73")%string]
  /\ extract_board_nominees proxy_table = []
  /\ extract_board_nominees bbsi_table = ["Thomas J. Carley"].
Proof.
  repeat split; vm_compute; reflexivity.
Qed.

(* ================================================================== *)
(** * The margin comparator *)
(* ================================================================== *)

(** ** Searching a text of which a part is known *)

(** A position at which the pattern does not match is passed. *)
Lemma search_from_step :
  forall fl r i pv a s,
    Re.match_at fl r i pv (a :: s) = None ->
    Re.search_from fl r i pv (a :: s) = Re.search_from fl r (S i) (Some a) s.
Proof. intros fl r i pv a s H. cbn [Re.search_from]. rewrite H. reflexivity. Qed.

Ltac skip_prefix := repeat (rewrite search_from_step by (vm_compute; reflexivity)).

(** A run of spaces is passed by a pattern that matches at no space. *)
Lemma spaces_are_skipped :
  forall fl r,
    (forall i pv s, Re.match_at fl r i pv (" "%char :: s) = None) ->
    forall n i pv tail,
      exists pv', Re.search_from fl r i pv (repeat " "%char n ++ tail)
                  = Re.search_from fl r (n + i) pv' tail.
Proof.
  intros fl r H. induction n as [|n IH]; intros i pv tail.
  - exists pv. reflexivity.
  - destruct (IH (S i) (Some " "%char) tail) as (pv' & E).
    exists pv'. cbn [repeat app]. rewrite search_from_step by apply H. rewrite E.
    rewrite Nat.add_succ_r. reflexivity.
Qed.

(** [s[a:b]] past a prefix of the text. *)
Lemma slice_after_prefix :
  forall pre l a b a' b',
    a' = a + List.length pre -> b' = b + List.length pre ->
    PyStr.slice a' b' (PyStr.str (pre ++ l)) = PyStr.slice a b (PyStr.str l).
Proof.
  intros pre l a b a' b' -> ->. unfold PyStr.slice. rewrite !chars_str.
  rewrite skipn_app.
  replace (a + List.length pre - List.length pre) with a by lia.
  rewrite skipn_all2 by lia. cbn [app].
  replace (b + List.length pre - (a + List.length pre)) with (b - a) by lia.
  reflexivity.
Qed.

Lemma slice_whole :
  forall l b, List.length l <= b -> PyStr.slice 0 b (PyStr.str l) = PyStr.str l.
Proof.
  intros l b H. unfold PyStr.slice. rewrite chars_str. cbn [skipn].
  rewrite Nat.sub_0_r, firstn_all2 by exact H. reflexivity.
Qed.

Lemma skipn_repeat_app :
  forall (A : Type) (x : A) k n (l : list A),
    skipn k (repeat x (k + n) ++ l) = repeat x n ++ l.
Proof.
  intros A x k n l. induction k as [|k IH]; [reflexivity|]. exact IH.
Qed.

Lemma firstn_min_length :
  forall (A : Type) (l : list A) n, firstn (Nat.min (List.length l) n) l = firstn n l.
Proof.
  intros A l n. destruct (Nat.le_ge_cases (List.length l) n) as [H|H].
  - rewrite Nat.min_l by exact H. rewrite !firstn_all2; [reflexivity|exact H|lia].
  - rewrite Nat.min_r by exact H. reflexivity.
Qed.

Lemma firstn_repeat_app :
  forall (A : Type) (x : A) k n (l : list A),
    k <= n -> firstn k (repeat x n ++ l) = repeat x k.
Proof.
  intros A x. induction k as [|k IH]; intros n l H; [reflexivity|].
  destruct n as [|n]; [lia|]. cbn [repeat app firstn]. rewrite IH by lia. reflexivity.
Qed.

Lemma chars_length : forall s, List.length (PyStr.chars s) = String.length s.
Proof.
  induction s as [|a s IH]; [reflexivity|]. cbn. f_equal. exact IH.
Qed.

Lemma scope_is_prefix :
  forall (n : N) (text : string),
    (if PyStr.longer_than n text then PyStr.take_N n text else text) = PyStr.take_N n text.
Proof.
  intros n text. unfold PyStr.longer_than, PyStr.take_N, PyStr.take.
  destruct (n <? N.of_nat (String.length text))%N eqn:E; [reflexivity|].
  apply N.ltb_ge in E.
  rewrite firstn_all2; [symmetry; apply str_chars|].
  rewrite chars_length. lia.
Qed.

(** ** The two rules of the first pattern *)

(** The first pattern with a difference in the window: the word captured
    decides the verdict and the side of the bound. *)
Lemma tjx_rule :
  forall text m a direction dm ds actual diff bps,
    Re.search PRETAX_PATTERNS_FINAL.tjx_style (limit_scope text) = Some m ->
    Re.group m 1 = Some a -> PyFloat.of_string a = Ok actual ->
    Re.group m 2 = Some direction ->
    Re.search diff_pattern (nearby m (limit_scope text)) = Some dm ->
    Re.group dm 1 = Some ds -> PyFloat.of_string ds = Ok diff ->
    PyFloat.to_int (PyFloat.mul diff hundred) = Ok bps ->
    (PyStr.lower direction = "above" ->
     extract_pretax_margin_data text
     = Ok (comparison actual "beat" bps (PyFloat.round (PyFloat.sub actual diff) 1)
                      "tjx_style_above_below_plan"))
    /\ (PyStr.lower direction = "below" ->
        extract_pretax_margin_data text
        = Ok (comparison actual "miss" bps (PyFloat.round (PyFloat.add actual diff) 1)
                         "tjx_style_above_below_plan")).
Proof.
  intros text m a direction dm ds actual diff bps Hm Ha Hact Hdir Hdm Hds Hdiff Hbps.
  unfold extract_pretax_margin_data, Re.group_str.
  rewrite Hm, Ha. cbn [bind]. rewrite Hact. cbn [bind]. rewrite Hdir. cbn [bind].
  rewrite Hdm, Hds. cbn [bind]. rewrite Hdiff. cbn [bind]. rewrite Hbps. cbn [bind].
  split; intros ->; reflexivity.
Qed.

(** The first pattern without a difference in the window. *)
Lemma tjx_rule_without_difference :
  forall text m a direction actual,
    Re.search PRETAX_PATTERNS_FINAL.tjx_style (limit_scope text) = Some m ->
    Re.group m 1 = Some a -> PyFloat.of_string a = Ok actual ->
    Re.group m 2 = Some direction ->
    Re.search diff_pattern (nearby m (limit_scope text)) = None ->
    extract_pretax_margin_data text
    = Ok (verdict_only actual
                       (if String.eqb (PyStr.lower direction) "above" then "beat" else "miss")
                       "tjx_style_above_below_plan").
Proof.
  intros text m a direction actual Hm Ha Hact Hdir Hdm.
  unfold extract_pretax_margin_data, Re.group_str.
  rewrite Hm, Ha. cbn [bind]. rewrite Hact. cbn [bind]. rewrite Hdir. cbn [bind].
  rewrite Hdm. reflexivity.
Qed.

(** The second pattern: the difference is its own third group. *)
Lemma explicit_rule :
  forall text m a direction ds actual diff bps,
    Re.search PRETAX_PATTERNS_FINAL.tjx_style (limit_scope text) = None ->
    Re.search PRETAX_PATTERNS_FINAL.explicit_diff (limit_scope text) = Some m ->
    Re.group m 1 = Some a -> PyFloat.of_string a = Ok actual ->
    Re.group m 2 = Some direction ->
    Re.group m 3 = Some ds -> PyFloat.of_string ds = Ok diff ->
    PyFloat.to_int (PyFloat.mul diff hundred) = Ok bps ->
    (PyStr.lower direction = "above" ->
     extract_pretax_margin_data text
     = Ok (comparison actual "beat" bps (PyFloat.round (PyFloat.sub actual diff) 1)
                      "explicit_difference"))
    /\ (PyStr.lower direction = "below" ->
        extract_pretax_margin_data text
        = Ok (comparison actual "miss" bps (PyFloat.round (PyFloat.add actual diff) 1)
                         "explicit_difference")).
Proof.
  intros text m a direction ds actual diff bps Hno Hm Ha Hact Hdir Hds Hdiff Hbps.
  unfold extract_pretax_margin_data, Re.group_str.
  rewrite Hno, Hm, Ha. cbn [bind]. rewrite Hact. cbn [bind]. rewrite Hdir. cbn [bind].
  rewrite Hds. cbn [bind]. rewrite Hdiff. cbn [bind]. rewrite Hbps. cbn [bind].
  split; intros ->; reflexivity.
Qed.

(** Every result that holds a difference: a beat has the bound
    [round(actual - delta, 1)], a miss the bound [round(actual + delta, 1)],
    and the difference in basis points is [int(delta * 100)]. *)
Lemma difference_sets_the_bound :
  forall text d,
    extract_pretax_margin_data text = Ok d ->
    pretax_confidence d = Some "high" ->
    exists actual delta bps source,
      PyFloat.to_int (PyFloat.mul delta hundred) = Ok bps
      /\ (d = comparison actual "beat" bps (PyFloat.round (PyFloat.sub actual delta) 1) source
          \/ d = comparison actual "miss" bps (PyFloat.round (PyFloat.add actual delta) 1)
                            source).
Proof.
  intros text d H Hc. unfold extract_pretax_margin_data, bind in H.
  destruct (Re.search PRETAX_PATTERNS_FINAL.tjx_style (limit_scope text)) as [m|].
  - destruct (Re.group_str TypeError m 1) as [g1|]; [|discriminate].
    destruct (PyFloat.of_string g1) as [actual|]; [|discriminate].
    destruct (Re.group_str AttributeError m 2) as [g2|]; [|discriminate].
    destruct (Re.search diff_pattern (nearby m (limit_scope text))) as [dm|].
    + destruct (Re.group_str TypeError dm 1) as [d1|]; [|discriminate].
      destruct (PyFloat.of_string d1) as [diff|]; [|discriminate].
      destruct (PyFloat.to_int (PyFloat.mul diff hundred)) as [bps|] eqn:Hb; [|discriminate].
      injection H as <-.
      exists actual, diff, bps, "tjx_style_above_below_plan". split; [exact Hb|].
      destruct (String.eqb (PyStr.lower g2) "above"); [left|right]; reflexivity.
    + injection H as <-. discriminate.
  - destruct (Re.search PRETAX_PATTERNS_FINAL.explicit_diff (limit_scope text)) as [m|].
    + destruct (Re.group_str TypeError m 1) as [g1|]; [|discriminate].
      destruct (PyFloat.of_string g1) as [actual|]; [|discriminate].
      destruct (Re.group_str AttributeError m 2) as [g2|]; [|discriminate].
      destruct (Re.group_str TypeError m 3) as [g3|]; [|discriminate].
      destruct (PyFloat.of_string g3) as [diff|]; [|discriminate].
      destruct (PyFloat.to_int (PyFloat.mul diff hundred)) as [bps|] eqn:Hb; [|discriminate].
      injection H as <-.
      exists actual, diff, bps, "explicit_difference". split; [exact Hb|].
      destruct (String.eqb (PyStr.lower g2) "above"); [left|right]; reflexivity.
    + destruct (Re.findall PRETAX_PATTERNS_FINAL.simple (limit_scope text)) as [|x xs].
      * destruct (Re.findall PRETAX_PATTERNS_FINAL.quarterly (limit_scope text)) as [|y ys].
        -- injection H as <-. discriminate.
        -- destruct (mapM PyFloat.of_string (firstn 4 (y :: ys))); [|discriminate].
           injection H as <-. discriminate.
      * destruct (mapM PyFloat.of_string (firstn 3 (x :: xs))); [|discriminate].
        injection H as <-. discriminate.
Qed.

(** ** The window before the match *)

Lemma tjx_fails_on_space :
  forall i pv s,
    Re.match_at (Re.p_flags PRETAX_PATTERNS_FINAL.tjx_style)
                (Re.p_re PRETAX_PATTERNS_FINAL.tjx_style) i pv (" "%char :: s) = None.
Proof. intros i pv s. vm_compute. reflexivity. Qed.

Lemma diff_fails_on_space :
  forall i pv s,
    Re.match_at (Re.p_flags diff_pattern) (Re.p_re diff_pattern) i pv (" "%char :: s) = None.
Proof. intros i pv s. vm_compute. reflexivity. Qed.

Lemma tjx_skips_phrase :
  forall tail,
    Re.search_from (Re.p_flags PRETAX_PATTERNS_FINAL.tjx_style)
                   (Re.p_re PRETAX_PATTERNS_FINAL.tjx_style) 0 None
                   (PyStr.chars "down 2.0 percentage points" ++ tail)
    = Re.search_from (Re.p_flags PRETAX_PATTERNS_FINAL.tjx_style)
                     (Re.p_re PRETAX_PATTERNS_FINAL.tjx_style) 26 (Some "s"%char) tail.
Proof.
  intro tail. cbn [PyStr.chars list_ascii_of_string app].
  skip_prefix. reflexivity.
Qed.

Lemma tjx_finds_sentence :
  forall j pv,
    Re.search_from (Re.p_flags PRETAX_PATTERNS_FINAL.tjx_style)
                   (Re.p_re PRETAX_PATTERNS_FINAL.tjx_style) j pv (PyStr.chars tjx_text)
    = Some (j, 74 + j, [(2, (64 + j, 69 + j)); (1, (24 + j, 28 + j))]).
Proof. intros j pv. vm_compute. reflexivity. Qed.

Lemma diff_finds_phrase_first :
  forall tail,
    Re.search_from (Re.p_flags diff_pattern) (Re.p_re diff_pattern) 0 None
                   (PyStr.chars "down 2.0 percentage points" ++ tail)
    = Some (0, 26, [(1, (5, 8))]).
Proof. intro tail. vm_compute. reflexivity. Qed.

Lemma phrase_then_sentence_scope :
  forall gap, (N.of_nat gap <= 99900)%N ->
    limit_scope (phrase_then_sentence gap) = phrase_then_sentence gap.
Proof.
  intros gap H. unfold limit_scope, PyStr.longer_than, phrase_then_sentence.
  pose proof (len_str (PyStr.chars "down 2.0 percentage points" ++ repeat " "%char gap
             ++ PyStr.chars tjx_text)) as L.
  unfold PyStr.len in L. rewrite L, !length_app, repeat_length.
  change (List.length (PyStr.chars "down 2.0 percentage points")) with 26.
  change (List.length (PyStr.chars tjx_text)) with 74.
  destruct (100000 <? N.of_nat (26 + (gap + 74)))%N eqn:E; [|reflexivity].
  apply N.ltb_lt in E. lia.
Qed.

Lemma phrase_then_sentence_length :
  forall gap, PyStr.len (phrase_then_sentence gap) = gap + 100.
Proof.
  intro gap. unfold phrase_then_sentence.
  rewrite len_str, !length_app, repeat_length. cbn. lia.
Qed.

Lemma phrase_then_sentence_match :
  forall gap,
    Re.search PRETAX_PATTERNS_FINAL.tjx_style (phrase_then_sentence gap)
    = Some (Re.Match (phrase_then_sentence gap) (gap + 26) (74 + (gap + 26))
                     [(2, (64 + (gap + 26), 69 + (gap + 26)));
                      (1, (24 + (gap + 26), 28 + (gap + 26)))]).
Proof.
  intro gap. unfold Re.search, phrase_then_sentence. rewrite chars_str.
  rewrite tjx_skips_phrase.
  destruct (spaces_are_skipped _ _ tjx_fails_on_space gap 26 (Some "s"%char)
                               (PyStr.chars tjx_text)) as (pv' & E).
  rewrite E, tjx_finds_sentence. reflexivity.
Qed.

Lemma phrase_then_sentence_groups :
  forall gap m,
    Re.search PRETAX_PATTERNS_FINAL.tjx_style (phrase_then_sentence gap) = Some m ->
    Re.group m 1 = Some "12.3" /\ Re.group m 2 = Some "above"
    /\ Re.m_start m = gap + 26 /\ Re.m_end m = gap + 100.
Proof.
  intros gap m H. rewrite phrase_then_sentence_match in H. injection H as <-.
  unfold Re.group. cbn [Re.m_caps Re.lookup_group Nat.eqb Re.m_text Re.m_start Re.m_end].
  assert (L : List.length (PyStr.chars "down 2.0 percentage points" ++ repeat " "%char gap)
              = gap + 26).
  { rewrite length_app, repeat_length. cbn. lia. }
  unfold phrase_then_sentence. rewrite app_assoc.
  rewrite (slice_after_prefix _ _ 24 28) by (rewrite L; lia).
  rewrite (slice_after_prefix _ _ 64 69) by (rewrite L; lia).
  repeat split. lia.
Qed.

(** Up to 174 spaces apart, the phrase before the sentence is in the
    window and is the difference read. *)
Lemma phrase_within_window :
  forall gap, gap <= 174 ->
    extract_pretax_margin_data (phrase_then_sentence gap)
    = Ok (comparison (flt "12.3") "beat" 200 (flt "10.3") "tjx_style_above_below_plan").
Proof.
  intros gap Hgap.
  assert (Hscope : limit_scope (phrase_then_sentence gap) = phrase_then_sentence gap)
    by (apply phrase_then_sentence_scope; lia).
  pose proof (phrase_then_sentence_match gap) as Hm.
  destruct (phrase_then_sentence_groups gap _ Hm) as (G1 & G2 & Hs & He).
  set (dm := Re.Match (phrase_then_sentence gap) 0 26 [(1, (5, 8))]).
  assert (Hdm : Re.search diff_pattern
                          (nearby (Re.Match (phrase_then_sentence gap) (gap + 26)
                                            (74 + (gap + 26))
                                            [(2, (64 + (gap + 26), 69 + (gap + 26)));
                                             (1, (24 + (gap + 26), 28 + (gap + 26)))])
                                  (limit_scope (phrase_then_sentence gap)))
                = Some dm).
  { rewrite Hscope. unfold nearby. cbn [Re.m_start Re.m_end].
    rewrite phrase_then_sentence_length.
    replace (gap + 26 - 200) with 0 by lia.
    unfold phrase_then_sentence at 1. rewrite slice_whole.
    - unfold Re.search. rewrite chars_str, diff_finds_phrase_first. reflexivity.
    - rewrite !length_app, repeat_length. cbn. lia. }
  assert (Hds : Re.group dm 1 = Some "2.0").
  { unfold Re.group, dm. cbn [Re.m_caps Re.lookup_group Nat.eqb Re.m_text].
    unfold PyStr.slice, phrase_then_sentence. rewrite chars_str. reflexivity. }
  assert (Hm' : Re.search PRETAX_PATTERNS_FINAL.tjx_style
                           (limit_scope (phrase_then_sentence gap))
                 = Some (Re.Match (phrase_then_sentence gap) (gap + 26) (74 + (gap + 26))
                                  [(2, (64 + (gap + 26), 69 + (gap + 26)));
                                   (1, (24 + (gap + 26), 28 + (gap + 26)))]))
    by (rewrite Hscope; exact Hm).
  apply (proj1 (tjx_rule (phrase_then_sentence gap) _ "12.3" "above" dm "2.0"
                         (flt "12.3") (flt "2.0") 200%Z Hm' G1 eq_refl G2 Hdm Hds
                         eq_refl eq_refl)).
  reflexivity.
Qed.

(** From 200 spaces on, the window starts among the spaces. *)
Lemma phrase_far_window :
  forall k m,
    Re.m_start m = 200 + k + 26 -> Re.m_end m = 200 + k + 100 ->
    nearby m (phrase_then_sentence (200 + k))
    = PyStr.str (repeat " "%char 200 ++ PyStr.chars tjx_text).
Proof.
  intros k m Hs He. unfold nearby. rewrite Hs, He, phrase_then_sentence_length.
  unfold PyStr.slice, phrase_then_sentence. rewrite chars_str.
  replace (200 + k + 26 - 200) with (26 + k) by lia.
  rewrite skipn_app.
  change (List.length (PyStr.chars "down 2.0 percentage points")) with 26.
  rewrite skipn_all2 by (cbn; lia). cbn [app].
  replace (26 + k - 26) with k by lia.
  replace (200 + k) with (k + 200) by lia.
  rewrite skipn_repeat_app.
  rewrite firstn_all2; [reflexivity|].
  rewrite length_app, repeat_length.
  change (List.length (PyStr.chars tjx_text)) with 74. lia.
Qed.

Lemma phrase_beyond_window_far :
  forall k, (N.of_nat (200 + k) <= 99900)%N ->
    extract_pretax_margin_data (phrase_then_sentence (200 + k))
    = Ok (comparison (flt "12.3") "beat" 30 (flt "12.0") "tjx_style_above_below_plan").
Proof.
  intros k Hk.
  pose proof (phrase_then_sentence_scope (200 + k) Hk) as Hscope.
  pose proof (phrase_then_sentence_match (200 + k)) as Hm.
  destruct (phrase_then_sentence_groups (200 + k) _ Hm) as (G1 & G2 & Hs & He).
  set (ctx := PyStr.str (repeat " "%char 200 ++ PyStr.chars tjx_text)).
  set (dm := Re.Match ctx 231 255 [(1, (234, 237))]).
  assert (Hdm : Re.search diff_pattern
                          (nearby (Re.Match (phrase_then_sentence (200 + k)) (200 + k + 26)
                                            (74 + (200 + k + 26))
                                            [(2, (64 + (200 + k + 26), 69 + (200 + k + 26)));
                                             (1, (24 + (200 + k + 26), 28 + (200 + k + 26)))])
                                  (limit_scope (phrase_then_sentence (200 + k))))
                = Some dm).
  { rewrite Hscope, phrase_far_window; [|reflexivity|cbn [Re.m_end]; lia].
    vm_compute. reflexivity. }
  assert (Hm' : Re.search PRETAX_PATTERNS_FINAL.tjx_style
                           (limit_scope (phrase_then_sentence (200 + k)))
                 = Some (Re.Match (phrase_then_sentence (200 + k)) (200 + k + 26)
                                  (74 + (200 + k + 26))
                                  [(2, (64 + (200 + k + 26), 69 + (200 + k + 26)));
                                   (1, (24 + (200 + k + 26), 28 + (200 + k + 26)))]))
    by (rewrite Hscope; exact Hm).
  apply (proj1 (tjx_rule (phrase_then_sentence (200 + k)) _ "12.3" "above" dm "0.3"
                         (flt "12.3") (flt "0.3") 30%Z Hm' G1 eq_refl G2 Hdm eq_refl
                         eq_refl eq_refl)).
  reflexivity.
Qed.

Lemma phrase_beyond_window_near :
  forall j, j < 25 ->
    extract_pretax_margin_data (phrase_then_sentence (175 + j))
    = Ok (comparison (flt "12.3") "beat" 30 (flt "12.0") "tjx_style_above_below_plan").
Proof.
  intros j Hj.
  do 25 (destruct j as [|j]; [vm_compute; reflexivity|]).
  lia.
Qed.

(** From 175 spaces on, the phrase before the sentence is out of the
    window and the sentence's own difference is read. *)
Lemma phrase_beyond_window :
  forall gap, 175 <= gap -> (N.of_nat gap <= 99900)%N ->
    extract_pretax_margin_data (phrase_then_sentence gap)
    = Ok (comparison (flt "12.3") "beat" 30 (flt "12.0") "tjx_style_above_below_plan").
Proof.
  intros gap Hlo Hhi. destruct (Nat.lt_ge_cases gap 200) as [H|H].
  - replace gap with (175 + (gap - 175)) by lia.
    apply phrase_beyond_window_near. lia.
  - replace gap with (200 + (gap - 200)) in * by lia.
    apply phrase_beyond_window_far. exact Hhi.
Qed.

(** ** The window after the match *)

(** The search scope of a text that starts with the sentence: the sentence
    and what followed it, the same for 500 characters. *)
Lemma scope_keeps_head :
  forall l,
    exists l',
      limit_scope (PyStr.str (PyStr.chars "pretax profit margin of 12.3% well above plan" ++ l))
      = PyStr.str (PyStr.chars "pretax profit margin of 12.3% well above plan" ++ l')
      /\ firstn 500 l' = firstn 500 l.
Proof.
  intro l. unfold limit_scope. rewrite scope_is_prefix.
  unfold PyStr.take_N, PyStr.take. rewrite chars_str.
  assert (HK : 545 <= N.to_nat 100000) by lia.
  remember (N.to_nat 100000) as K eqn:EK. clear EK.
  exists (firstn (K - 45) l). split.
  - rewrite firstn_app.
    change (List.length (PyStr.chars "pretax profit margin of 12.3% well above plan")) with 45.
    rewrite firstn_all2; [reflexivity|].
    change (List.length (PyStr.chars "pretax profit margin of 12.3% well above plan")) with 45.
    lia.
  - rewrite firstn_firstn. rewrite Nat.min_l by lia. reflexivity.
Qed.

Lemma tjx_finds_sentence_first :
  forall tail,
    Re.search_from (Re.p_flags PRETAX_PATTERNS_FINAL.tjx_style)
                   (Re.p_re PRETAX_PATTERNS_FINAL.tjx_style) 0 None
                   (PyStr.chars "pretax profit margin of 12.3% well above plan" ++ tail)
    = Some (0, 45, [(2, (35, 40)); (1, (24, 28))]).
Proof. intro tail. vm_compute. reflexivity. Qed.

Lemma diff_skips_sentence :
  forall tail,
    Re.search_from (Re.p_flags diff_pattern) (Re.p_re diff_pattern) 0 None
                   (PyStr.chars "pretax profit margin of 12.3% well above plan" ++ tail)
    = Re.search_from (Re.p_flags diff_pattern) (Re.p_re diff_pattern) 45
                     (Some "n"%char) tail.
Proof.
  intro tail. cbn [PyStr.chars list_ascii_of_string app].
  skip_prefix. reflexivity.
Qed.

Lemma diff_finds_phrase :
  forall j pv,
    Re.search_from (Re.p_flags diff_pattern) (Re.p_re diff_pattern) j pv
                   (PyStr.chars "up 0.3 percentage points")
    = Some (j, 24 + j, [(1, (3 + j, 6 + j))]).
Proof. intros j pv. vm_compute. reflexivity. Qed.

(** What the comparator reads of a text that starts with the sentence:
    the window is the sentence and the 500 characters after it. *)
Lemma sentence_first_window :
  forall l,
    exists st m,
      Re.search PRETAX_PATTERNS_FINAL.tjx_style
                (limit_scope
                   (PyStr.str (PyStr.chars "pretax profit margin of 12.3% well above plan"
                               ++ l)))
      = Some m
      /\ st = limit_scope
                (PyStr.str (PyStr.chars "pretax profit margin of 12.3% well above plan" ++ l))
      /\ Re.group m 1 = Some "12.3" /\ Re.group m 2 = Some "above"
      /\ nearby m st
         = PyStr.str (PyStr.chars "pretax profit margin of 12.3% well above plan"
                      ++ firstn 500 l).
Proof.
  intro l. destruct (scope_keeps_head l) as (l' & Hs & Hl). rewrite Hs.
  exists (PyStr.str (PyStr.chars "pretax profit margin of 12.3% well above plan" ++ l')).
  exists (Re.Match (PyStr.str (PyStr.chars "pretax profit margin of 12.3% well above plan"
                               ++ l'))
                   0 45 [(2, (35, 40)); (1, (24, 28))]).
  split; [|split; [reflexivity|split; [|split]]].
  - unfold Re.search. rewrite chars_str, tjx_finds_sentence_first. reflexivity.
  - unfold Re.group. cbn [Re.m_caps Re.lookup_group Nat.eqb Re.m_text].
    unfold PyStr.slice. rewrite chars_str. reflexivity.
  - unfold Re.group. cbn [Re.m_caps Re.lookup_group Nat.eqb Re.m_text].
    unfold PyStr.slice. rewrite chars_str. reflexivity.
  - unfold nearby. cbn [Re.m_start Re.m_end]. unfold PyStr.slice.
    rewrite len_str, chars_str. cbn [Nat.sub skipn]. rewrite Nat.sub_0_r.
    change (45 + 500) with 545.
    rewrite firstn_min_length, firstn_app.
    change (List.length (PyStr.chars "pretax profit margin of 12.3% well above plan")) with 45.
    change (545 - 45) with 500. rewrite Hl.
    rewrite firstn_all2; [reflexivity|].
    change (List.length (PyStr.chars "pretax profit margin of 12.3% well above plan")) with 45.
    lia.
Qed.

(** Up to 477 spaces after the sentence, a difference phrase is in the
    window (its last letter apart, at 477) and is read. *)
Lemma phrase_after_within_window :
  forall gap, gap <= 477 ->
    extract_pretax_margin_data (sentence_then_phrase gap)
    = Ok (comparison (flt "12.3") "beat" 30 (flt "12.0") "tjx_style_above_below_plan").
Proof.
  intros gap Hgap. destruct (Nat.eq_dec gap 477) as [->|Hne]; [vm_compute; reflexivity|].
  unfold sentence_then_phrase.
  destruct (sentence_first_window (repeat " "%char gap
                                   ++ PyStr.chars "up 0.3 percentage points"))
    as (st & m & Hm & Hst & G1 & G2 & Hn).
  subst st.
  rewrite firstn_all2 in Hn
    by (rewrite length_app, repeat_length;
        change (List.length (PyStr.chars "up 0.3 percentage points")) with 24; lia).
  set (ctx := PyStr.str (PyStr.chars "pretax profit margin of 12.3% well above plan"
                         ++ repeat " "%char gap
                         ++ PyStr.chars "up 0.3 percentage points")) in *.
  set (dm := Re.Match ctx (gap + 45) (24 + (gap + 45))
                      [(1, (3 + (gap + 45), 6 + (gap + 45)))]).
  assert (Hdm : Re.search diff_pattern ctx = Some dm).
  { unfold Re.search, ctx. rewrite chars_str, diff_skips_sentence.
    destruct (spaces_are_skipped _ _ diff_fails_on_space gap 45 (Some "n"%char)
                                 (PyStr.chars "up 0.3 percentage points")) as (pv' & E).
    rewrite E, diff_finds_phrase. reflexivity. }
  assert (Hds : Re.group dm 1 = Some "0.3").
  { unfold Re.group, dm. cbn [Re.m_caps Re.lookup_group Nat.eqb Re.m_text].
    unfold ctx. rewrite app_assoc.
    rewrite (slice_after_prefix _ _ 3 6)
      by (rewrite length_app, repeat_length;
          change (List.length (PyStr.chars "pretax profit margin of 12.3% well above plan"))
            with 45; lia).
    reflexivity. }
  rewrite <- Hn in Hdm.
  apply (proj1 (tjx_rule _ m "12.3" "above" dm "0.3" (flt "12.3") (flt "0.3") 30%Z
                         Hm G1 eq_refl G2 Hdm Hds eq_refl eq_refl)).
  reflexivity.
Qed.

Lemma phrase_after_beyond_window_near :
  forall j, j < 22 ->
    extract_pretax_margin_data (sentence_then_phrase (478 + j))
    = Ok (verdict_only (flt "12.3") "beat" "tjx_style_above_below_plan").
Proof.
  intros j Hj.
  do 22 (destruct j as [|j]; [vm_compute; reflexivity|]).
  lia.
Qed.

(** From 478 spaces on, the phrase after the sentence is out of the
    window: the verdict stands without a difference. *)
Lemma phrase_after_beyond_window :
  forall gap, 478 <= gap ->
    extract_pretax_margin_data (sentence_then_phrase gap)
    = Ok (verdict_only (flt "12.3") "beat" "tjx_style_above_below_plan").
Proof.
  intros gap Hgap. destruct (Nat.lt_ge_cases gap 500) as [H|H].
  - replace gap with (478 + (gap - 478)) by lia.
    apply phrase_after_beyond_window_near. lia.
  - unfold sentence_then_phrase.
    destruct (sentence_first_window (repeat " "%char gap
                                     ++ PyStr.chars "up 0.3 percentage points"))
      as (st & m & Hm & Hst & G1 & G2 & Hn).
    subst st. rewrite firstn_repeat_app in Hn by exact H.
    assert (Hdm : Re.search diff_pattern
                            (PyStr.str
                               (PyStr.chars "pretax profit margin of 12.3% well above plan"
                                ++ repeat " "%char 500)) = None)
      by (vm_compute; reflexivity).
    rewrite <- Hn in Hdm.
    apply (tjx_rule_without_difference _ m "12.3" "above" (flt "12.3")
                                       Hm G1 eq_refl G2 Hdm).
Qed.

(** ** The comparator on the example and around it *)

(** C3, as amended. On the text that is the sentence of the example and
    nothing else the comparator returns [actual_pct = 12.3],
    [beat_or_miss = "beat"], [difference_bps = 30],
    [guidance_high_pct = 12.0] and [confidence = "high"].  In general:
    every result that holds a difference has the bound
    [round(actual - delta, 1)] on a beat and [round(actual + delta, 1)] on
    a miss, with [difference_bps = int(delta * 100)]; the verdict follows
    the word the pattern captures, "above" a beat and "below" a miss,
    which is the first of the two after the margin and not always the
    one next to "plan"; and with the first pattern delta is read from the
    first difference phrase of the window that runs from 200 characters
    before the match to 500 after it, inside the sentence or not: a
    phrase up to 174 spaces before the sentence replaces the sentence's
    own, one further away does not, a phrase up to 477 spaces after a
    sentence that has none is read, and one further away leaves the
    verdict without a difference, at confidence "medium". *)
Theorem margin_comparator_polarity :
  extract_pretax_margin_data tjx_text
  = Ok (comparison (flt "12.3") "beat" 30 (flt "12.0") "tjx_style_above_below_plan")
  /\ (forall text d,
         extract_pretax_margin_data text = Ok d ->
         pretax_confidence d = Some "high" ->
         exists actual delta bps source,
           PyFloat.to_int (PyFloat.mul delta hundred) = Ok bps
           /\ (d = comparison actual "beat" bps
                              (PyFloat.round (PyFloat.sub actual delta) 1) source
               \/ d = comparison actual "miss" bps
                                 (PyFloat.round (PyFloat.add actual delta) 1) source))
  /\ (forall text m a direction dm ds actual diff bps,
         Re.search PRETAX_PATTERNS_FINAL.tjx_style (limit_scope text) = Some m ->
         Re.group m 1 = Some a -> PyFloat.of_string a = Ok actual ->
         Re.group m 2 = Some direction ->
         Re.search diff_pattern (nearby m (limit_scope text)) = Some dm ->
         Re.group dm 1 = Some ds -> PyFloat.of_string ds = Ok diff ->
         PyFloat.to_int (PyFloat.mul diff hundred) = Ok bps ->
         (PyStr.lower direction = "above" ->
          extract_pretax_margin_data text
          = Ok (comparison actual "beat" bps (PyFloat.round (PyFloat.sub actual diff) 1)
                           "tjx_style_above_below_plan"))
         /\ (PyStr.lower direction = "below" ->
             extract_pretax_margin_data text
             = Ok (comparison actual "miss" bps (PyFloat.round (PyFloat.add actual diff) 1)
                              "tjx_style_above_below_plan")))
  /\ (forall text m a direction ds actual diff bps,
         Re.search PRETAX_PATTERNS_FINAL.tjx_style (limit_scope text) = None ->
         Re.search PRETAX_PATTERNS_FINAL.explicit_diff (limit_scope text) = Some m ->
         Re.group m 1 = Some a -> PyFloat.of_string a = Ok actual ->
         Re.group m 2 = Some direction ->
         Re.group m 3 = Some ds -> PyFloat.of_string ds = Ok diff ->
         PyFloat.to_int (PyFloat.mul diff hundred) = Ok bps ->
         (PyStr.lower direction = "above" ->
          extract_pretax_margin_data text
          = Ok (comparison actual "beat" bps (PyFloat.round (PyFloat.sub actual diff) 1)
                           "explicit_difference"))
         /\ (PyStr.lower direction = "below" ->
             extract_pretax_margin_data text
             = Ok (comparison actual "miss" bps (PyFloat.round (PyFloat.add actual diff) 1)
                              "explicit_difference")))
  /\ extract_pretax_margin_data below_then_above_text
     = Ok (comparison (flt "12.3") "miss" 30 (flt "12.6") "tjx_style_above_below_plan")
  /\ (forall gap, gap <= 174 ->
         extract_pretax_margin_data (phrase_then_sentence gap)
         = Ok (comparison (flt "12.3") "beat" 200 (flt "10.3")
                          "tjx_style_above_below_plan"))
  /\ (forall gap, 175 <= gap -> (N.of_nat gap <= 99900)%N ->
         extract_pretax_margin_data (phrase_then_sentence gap)
         = Ok (comparison (flt "12.3") "beat" 30 (flt "12.0")
                          "tjx_style_above_below_plan"))
  /\ (forall gap, gap <= 477 ->
         extract_pretax_margin_data (sentence_then_phrase gap)
         = Ok (comparison (flt "12.3") "beat" 30 (flt "12.0")
                          "tjx_style_above_below_plan"))
  /\ (forall gap, 478 <= gap ->
         extract_pretax_margin_data (sentence_then_phrase gap)
         = Ok (verdict_only (flt "12.3") "beat" "tjx_style_above_below_plan")).
Proof.
  split; [vm_compute; reflexivity|].
  split; [exact difference_sets_the_bound|].
  split; [exact tjx_rule|].
  split; [exact explicit_rule|].
  split; [vm_compute; reflexivity|].
  split; [exact phrase_within_window|].
  split; [exact phrase_beyond_window|].
  split; [exact phrase_after_within_window|exact phrase_after_beyond_window].
Qed.

(** The rules at work: a beat and a miss through the first pattern and a
    beat through the second, from what the patterns capture; the bound of
    the example's result; a phrase 100 spaces before the sentence and one
    300 spaces before it; a phrase 100 spaces after a sentence and one 600
    spaces after it. *)
Lemma margin_comparator_polarity_witness :
  extract_pretax_margin_data tjx_text
  = Ok (comparison (flt "12.3") "beat" 30 (flt "12.0") "tjx_style_above_below_plan")
  /\ extract_pretax_margin_data below_text
     = Ok (comparison (flt "10.0") "miss" 50 (flt "10.5") "tjx_style_above_below_plan")
  /\ extract_pretax_margin_data explicit_text
     = Ok (comparison (flt "11.6") "beat" 70 (flt "10.9") "explicit_difference")
  /\ (exists actual delta bps source,
         PyFloat.to_int (PyFloat.mul delta hundred) = Ok bps
         /\ (comparison (flt "12.3") "beat" 30 (flt "12.0") "tjx_style_above_below_plan"
             = comparison actual "beat" bps
                          (PyFloat.round (PyFloat.sub actual delta) 1) source
             \/ comparison (flt "12.3") "beat" 30 (flt "12.0") "tjx_style_above_below_plan"
                = comparison actual "miss" bps
                             (PyFloat.round (PyFloat.add actual delta) 1) source))
  /\ extract_pretax_margin_data (phrase_then_sentence 100)
     = Ok (comparison (flt "12.3") "beat" 200 (flt "10.3") "tjx_style_above_below_plan")
  /\ extract_pretax_margin_data (phrase_then_sentence 300)
     = Ok (comparison (flt "12.3") "beat" 30 (flt "12.0") "tjx_style_above_below_plan")
  /\ extract_pretax_margin_data (sentence_then_phrase 100)
     = Ok (comparison (flt "12.3") "beat" 30 (flt "12.0") "tjx_style_above_below_plan")
  /\ extract_pretax_margin_data (sentence_then_phrase 600)
     = Ok (verdict_only (flt "12.3") "beat" "tjx_style_above_below_plan").
Proof.
  destruct margin_comparator_polarity as (X & B & T & E & _ & W1 & W2 & W3 & W4).
  split; [exact X|]. split; [|split; [|split; [|split; [|split; [|split]]]]].
  - eapply (T below_text _ "10.0" "below" _ "0.5" (flt "10.0") (flt "0.5") 50%Z);
      vm_compute; reflexivity.
  - eapply (E explicit_text _ "11.6" "above" "0.7" (flt "11.6") (flt "0.7") 70%Z);
      vm_compute; reflexivity.
  - apply (B tjx_text); [exact X|reflexivity].
  - apply W1. lia.
  - apply W2; [lia|vm_compute; discriminate].
  - apply W3. lia.
  - apply W4. lia.
Defined.

(** C3, counterexample to the claim as stated. A text that contains the
    sentence of the example, after a sentence about sales on the same
    line: the difference read is the one about sales, 200 basis points,
    and the bound is 10.3, not 30 and 12.0.  And the sentence with its
    ellipsis spelled out as "was below last year but" ends in "well above
    plan" and is a miss with the bound 12.6. *)
Lemma margin_sentence_in_context_counterexample :
  sales_context
  = ("Comparable sales were down 2.0 percentage points. " ++ tjx_text)%string
  /\ extract_pretax_margin_data sales_context
     = Ok (comparison (flt "12.3") "beat" 200 (flt "10.3") "tjx_style_above_below_plan")
  /\ extract_pretax_margin_data sales_context
     <> Ok (comparison (flt "12.3") "beat" 30 (flt "12.0") "tjx_style_above_below_plan")
  /\ PyStr.endswith below_then_above_text "well above plan" = true
  /\ extract_pretax_margin_data below_then_above_text
     = Ok (comparison (flt "12.3") "miss" 30 (flt "12.6") "tjx_style_above_below_plan")
  /\ beat_or_miss (comparison (flt "12.3") "miss" 30 (flt "12.6")
                              "tjx_style_above_below_plan")
     <> Some "beat".
Proof.
  split; [reflexivity|].
  split; [vm_compute; reflexivity|].
  split; [vm_compute; discriminate|].
  split; [vm_compute; reflexivity|].
  split; [vm_compute; reflexivity|].
  discriminate.
Qed.

(* ================================================================== *)
(** * The guidance extractor *)
(* ================================================================== *)

(** C6. On "revenue guidance of $5.0 billion to $5.2 billion" the
    extractor returns one [revenue_range] entry with [low = 5.0],
    [high = 5.2], [midpoint = 5.1] and [range_pct = 4.0], and confidence
    "high"; and whenever a result holds a structured numeric range its
    confidence is "high". *)
Theorem guidance_revenue_range_example :
  extract_guidance_data guidance_text
  = Ok (GuidanceData
          (Some [RevenueRange (flt "5.0") (flt "5.2") "billion"
                              (Float (flt "4.0")) (flt "5.1")])
          None None None None (Some "high") (Some "structured_guidance"))
  /\ forall text g,
      extract_guidance_data text = Ok g ->
      has_range g = true ->
      guidance_confidence g = Some "high".
Proof.
  split; [vm_compute; reflexivity|].
  intros text g H Hr. unfold extract_guidance_data, bind in H.
  destruct (range_entries value_error revenue_entry rev_pattern1 (Some rev_pattern2) text)
    as [revenue|]; [|discriminate].
  destruct (range_entries value_error margin_entry margin_pattern1 (Some margin_pattern2) text)
    as [margin|]; [|discriminate].
  destruct (range_entries value_error eps_entry eps_pattern1 None text)
    as [eps|]; [|discriminate].
  destruct (is_some revenue || is_some margin || is_some eps).
  - injection H as <-. reflexivity.
  - match type of H with
    | (if ?b then _ else _) = _ => destruct b
    end.
    + injection H as <-. discriminate.
    + destruct (Re.findall (Re.compile fallback_pattern Re.I_S) text).
      * injection H as <-. discriminate.
      * destruct (mapM PyFloat.of_string (firstn 5 (s :: l))); [|discriminate].
        injection H as <-. discriminate.
Qed.

(** The rule on the example sentence: its result holds a revenue range,
    so its confidence is "high". *)
Lemma guidance_revenue_range_example_witness :
  exists g, extract_guidance_data guidance_text = Ok g
            /\ has_range g = true
            /\ guidance_confidence g = Some "high".
Proof.
  destruct guidance_revenue_range_example as [E R].
  eexists. split; [exact E|]. split; [reflexivity|].
  apply (R guidance_text); [exact E|reflexivity].
Defined.

(* ================================================================== *)
(** * Sets, sorting and counting *)
(* ================================================================== *)

Section CollectionFacts.

Variable A : Type.
Variable eqb : A -> A -> bool.
Variable leb : A -> A -> bool.
Variable ltb : A -> A -> bool.

(** The values at hand: on them [eqb] is equality and [leb] is total. *)
Variable P : A -> Prop.
Hypothesis eqb_true : forall a b, P b -> eqb a b = true -> a = b.
Hypothesis eqb_refl : forall a, P a -> eqb a a = true.
Hypothesis leb_total : forall a b, P a -> P b -> leb a b = false -> leb b a = true.
Hypothesis leb_ltb : forall a b, P a -> P b -> leb a b = true -> a <> b -> ltb a b = true.

Lemma eqb_false_neq : forall a b, P a -> eqb a b = false -> a <> b.
Proof. intros a b Pa H E. subst b. rewrite (eqb_refl a Pa) in H. discriminate. Qed.

Lemma mem_In : forall x l, Forall P l -> mem eqb x l = true -> In x l.
Proof.
  intros x l Hl H. unfold mem in H. apply existsb_exists in H as (y & Hy & E).
  rewrite Forall_forall in Hl. rewrite (eqb_true x y (Hl y Hy) E). exact Hy.
Qed.

Lemma In_mem : forall x l, P x -> In x l -> mem eqb x l = true.
Proof.
  intros x l Px H. unfold mem. apply existsb_exists. exists x. split; [exact H|].
  apply eqb_refl. exact Px.
Qed.

Lemma mem_false_not_In : forall x l, P x -> mem eqb x l = false -> ~ In x l.
Proof. intros x l Px H Hin. rewrite (In_mem x l Px Hin) in H. discriminate. Qed.

Lemma distinct_In :
  forall l seen x, Forall P l -> Forall P seen ->
                   (In x (distinct eqb seen l) <-> In x l /\ ~ In x seen).
Proof.
  induction l as [|y l IH]; intros seen x Hl Hs; cbn [distinct].
  - split; [intros []|intros [[] _]].
  - inversion Hl as [|? ? Py Hl']; subst.
    destruct (mem eqb y seen) eqn:M.
    + rewrite (IH seen x Hl' Hs). split.
      * intros [H1 H2]. split; [right; exact H1|exact H2].
      * intros [[E|H1] H2]; [|split; assumption].
        subst y. exfalso. apply H2. apply mem_In; assumption.
    + pose proof (mem_false_not_In y seen Py M) as Ny.
      cbn [In]. rewrite (IH (y :: seen) x Hl' (Forall_cons y Py Hs)). cbn [In]. split.
      * intros [E|[H1 H2]].
        -- subst y. split; [left; reflexivity|exact Ny].
        -- split; [right; exact H1|]. intro K. apply H2. right. exact K.
      * intros [[E|H1] H2]; [left; exact E|].
        destruct (eqb y x) eqn:E.
        -- left. apply eqb_true in E; [exact E|].
           rewrite Forall_forall in Hl'. apply Hl'. exact H1.
        -- right. split; [exact H1|]. intros [K|K]; [|apply H2; exact K].
           apply (eqb_false_neq y x Py E). exact K.
Qed.

Lemma distinct_NoDup :
  forall l seen, Forall P l -> Forall P seen -> NoDup (distinct eqb seen l).
Proof.
  induction l as [|y l IH]; intros seen Hl Hs; cbn [distinct]; [constructor|].
  inversion Hl as [|? ? Py Hl']; subst.
  destruct (mem eqb y seen); [apply IH; assumption|].
  constructor; [|apply IH; [assumption|constructor; assumption]].
  intro K. apply (distinct_In l (y :: seen) y Hl' (Forall_cons y Py Hs)) in K as [_ K].
  apply K. left. reflexivity.
Qed.

Lemma distinct_Forall :
  forall l seen, Forall P l -> Forall P seen -> Forall P (distinct eqb seen l).
Proof.
  intros l seen Hl Hs. rewrite Forall_forall. intros x Hx.
  apply (distinct_In l seen x Hl Hs) in Hx as [Hx _].
  rewrite Forall_forall in Hl. apply Hl. exact Hx.
Qed.

Lemma insert_sorted_perm : forall x l, Permutation (x :: l) (insert_sorted leb x l).
Proof.
  intros x l. induction l as [|y l IH]; cbn [insert_sorted]; [apply Permutation_refl|].
  destruct (leb x y); [apply Permutation_refl|].
  eapply Permutation_trans; [apply perm_swap|]. apply perm_skip. exact IH.
Qed.

Lemma sorted_perm : forall l, Permutation l (sorted leb l).
Proof.
  induction l as [|x l IH]; cbn [sorted]; [apply Permutation_refl|].
  eapply Permutation_trans; [apply perm_skip; exact IH|]. apply insert_sorted_perm.
Qed.

Lemma insert_sorted_Sorted :
  forall x l, P x -> Forall P l ->
              Sorted (fun a b => leb a b = true) l ->
              Sorted (fun a b => leb a b = true) (insert_sorted leb x l).
Proof.
  intros x l Px. induction l as [|y l IH]; intros Hl Hs; cbn [insert_sorted].
  - constructor; constructor.
  - inversion Hl as [|? ? Py Hl']; subst. inversion Hs as [|? ? Hs' Hd]; subst.
    destruct (leb x y) eqn:E.
    + constructor; [exact Hs|constructor; exact E].
    + constructor; [apply IH; assumption|].
      destruct l as [|z l]; cbn [insert_sorted].
      * constructor. apply leb_total; assumption.
      * destruct (leb x z).
        -- constructor. apply leb_total; assumption.
        -- inversion Hd; subst. constructor. assumption.
Qed.

Lemma sorted_Sorted :
  forall l, Forall P l -> Sorted (fun a b => leb a b = true) (sorted leb l).
Proof.
  induction l as [|x l IH]; intro Hl; cbn [sorted]; [constructor|].
  inversion Hl as [|? ? Px Hl']; subst.
  apply insert_sorted_Sorted; [exact Px| |apply IH; exact Hl'].
  apply (Permutation_Forall (sorted_perm l)). exact Hl'.
Qed.

Lemma Sorted_strict :
  forall l, Forall P l -> NoDup l ->
            Sorted (fun a b => leb a b = true) l ->
            Sorted (fun a b => ltb a b = true) l.
Proof.
  induction l as [|x l IH]; intros Hl Hn Hs; [constructor|].
  inversion Hl as [|? ? Px Hl']; subst.
  inversion Hn as [|? ? Hx Hn']; subst.
  inversion Hs as [|? ? Hs' Hd]; subst.
  constructor; [apply IH; assumption|].
  destruct l as [|y l]; [constructor|].
  inversion Hd; subst. inversion Hl'; subst. constructor.
  apply leb_ltb; try assumption.
  intro E. apply Hx. left. symmetry. exact E.
Qed.

Lemma Sorted_firstn :
  forall (R : A -> A -> Prop) l n, Sorted R l -> Sorted R (firstn n l).
Proof.
  intros R l. induction l as [|x l IH]; intros n Hs.
  - rewrite firstn_nil. constructor.
  - destruct n as [|n]; cbn [firstn]; [constructor|].
    inversion Hs as [|? ? Hs' Hd]; subst. constructor; [apply IH; exact Hs'|].
    destruct l as [|y l]; [rewrite firstn_nil; constructor|].
    destruct n as [|n]; cbn [firstn]; [constructor|].
    inversion Hd; subst. constructor. assumption.
Qed.

(** The sorted distinct values of a list: strictly ascending, with the
    elements of the list. *)
Lemma sorted_distinct_spec :
  forall l, Forall P l ->
            Sorted (fun a b => ltb a b = true) (sorted leb (distinct eqb [] l))
            /\ forall v, In v (sorted leb (distinct eqb [] l)) <-> In v l.
Proof.
  intros l Hl.
  pose proof (distinct_Forall l [] Hl (Forall_nil P)) as Hd.
  pose proof (sorted_perm (distinct eqb [] l)) as Hp.
  split.
  - apply Sorted_strict.
    + apply (Permutation_Forall Hp). exact Hd.
    + apply (Permutation_NoDup Hp). apply distinct_NoDup; [exact Hl|constructor].
    + apply sorted_Sorted. exact Hd.
  - intro v. split.
    + intro H. apply (Permutation_in v (Permutation_sym Hp)) in H.
      apply (distinct_In l [] v Hl (Forall_nil P)) in H as [H _]. exact H.
    + intro H. apply (Permutation_in v Hp).
      apply (distinct_In l [] v Hl (Forall_nil P)). split; [exact H|intros []].
Qed.









End CollectionFacts.

(* ================================================================== *)
(** * The ARPPU block *)
(* ================================================================== *)


Lemma float_eqb_true :
  forall a b, pos_finite b -> PyFloat.eqb a b = true -> a = b.
Proof.
  intros a b Pb H.
  destruct b as [s|s| |[|] m e]; cbn in Pb; try contradiction.
  unfold PyFloat.eqb, SFeqb, SFcompare in H.
  destruct a as [s|s| |[|] m' e']; try discriminate.
  - destruct s; discriminate.
  - destruct (Z.compare_spec e' e) as [-> | |]; try discriminate.
    change (Pos.compare_cont Eq m' m) with (Pos.compare m' m) in H.
    destruct (Pos.compare_spec m' m) as [-> | |]; try discriminate. reflexivity.
Qed.

Lemma float_eqb_refl : forall a, pos_finite a -> PyFloat.eqb a a = true.
Proof.
  intros a Pa. destruct a as [s|s| |[|] m e]; cbn in Pa; try contradiction.
  unfold PyFloat.eqb, SFeqb, SFcompare. rewrite Z.compare_refl.
  change (Pos.compare_cont Eq m m) with (Pos.compare m m).
  rewrite Pos.compare_refl. reflexivity.
Qed.

Lemma float_leb_total :
  forall a b, pos_finite a -> pos_finite b ->
              PyFloat.leb a b = false -> PyFloat.leb b a = true.
Proof.
  intros a b Pa Pb.
  destruct a as [s|s| |[|] m1 e1]; cbn in Pa; try contradiction.
  destruct b as [s|s| |[|] m2 e2]; cbn in Pb; try contradiction.
  unfold PyFloat.leb, SFleb, SFcompare.
  change (Pos.compare_cont Eq m1 m2) with (Pos.compare m1 m2).
  change (Pos.compare_cont Eq m2 m1) with (Pos.compare m2 m1).
  rewrite (Z.compare_antisym e1 e2), (Pos.compare_antisym m1 m2).
  destruct (e1 ?= e2)%Z, (m1 ?= m2)%positive; cbn; intro K;
    try reflexivity; discriminate.
Qed.

Lemma float_leb_ltb :
  forall a b, pos_finite a -> pos_finite b ->
              PyFloat.leb a b = true -> a <> b -> PyFloat.ltb a b = true.
Proof.
  intros a b Pa Pb.
  destruct a as [s|s| |[|] m1 e1]; cbn in Pa; try contradiction.
  destruct b as [s|s| |[|] m2 e2]; cbn in Pb; try contradiction.
  unfold PyFloat.leb, PyFloat.ltb, SFleb, SFltb, SFcompare.
  change (Pos.compare_cont Eq m1 m2) with (Pos.compare m1 m2).
  destruct (Z.compare_spec e1 e2) as [-> | |]; intros K N;
    try reflexivity; try discriminate.
  destruct (Pos.compare_spec m1 m2) as [-> | |];
    try reflexivity; try discriminate.
  exfalso. apply N. reflexivity.
Qed.





(* ================================================================== *)
(** * The document fetcher: requests issued and cache files written *)
(* ================================================================== *)

Lemma issued_refl : forall s, issued s s [].
Proof. intro s. reflexivity. Qed.

Lemma issued_trans :
  forall s1 s2 s3 u v, issued s1 s2 u -> issued s2 s3 v -> issued s1 s3 (v ++ u).
Proof.
  unfold issued. intros s1 s2 s3 u v H1 H2. rewrite H2, H1. apply app_assoc.
Qed.

Lemma write_text_frame :
  forall d name content d',
    write_text d name content = Some d' ->
    files d' name = Some (FileText content)
    /\ (forall other, other <> name -> files d' other = files d other)
    /\ write_fails d' = write_fails d.
Proof.
  intros d name content d' H. unfold write_text in H.
  destruct (write_fails d name); [discriminate|]. injection H as <-. cbn.
  rewrite String.eqb_refl. repeat split.
  intros other Hne. apply String.eqb_neq in Hne. rewrite Hne. reflexivity.
Qed.

Lemma write_text_succeeds :
  forall d name content,
    write_fails d name = false -> exists d', write_text d name content = Some d'.
Proof.
  intros d name content H. unfold write_text. rewrite H. eexists. reflexivity.
Qed.

Section FetcherTraces.

Variable find_all : string -> list tag.
Variable get_text : string -> string.

(** Steps 3 to 6 issue at most the request for the exhibit. *)
Lemma process_download_trace :
  forall net cik accession caching exhibit_text html s,
    exists urls,
      issued s (snd (process_download find_all get_text net cik accession caching exhibit_text html s)) urls
      /\ List.length urls <= 1.
Proof.
  intros net cik accession caching exhibit_text html s.
  unfold process_download, issued.
  destruct (find_exhibit_url cik accession (find_all html)) as [exhibit_url|];
    [|exists []; split; [reflexivity|cbn; lia]].
  destruct (PyStr.truthy exhibit_url); [|exists []; split; [reflexivity|cbn; lia]].
  unfold request.
  destruct (net (List.length (io_requests s)) exhibit_url) as [| |status ra body];
    [| |destruct (status =? 200)];
    exists [exhibit_url]; split; try reflexivity; cbn; lia.
Qed.

(** Each attempt issues the request for the filing; the attempt that
    succeeds may add the request for the exhibit. *)
Lemma download_trace :
  forall attempts net url cik accession caching exhibit_text s,
    exists urls,
      issued s (snd (download find_all get_text attempts net url cik accession caching exhibit_text s)) urls
      /\ List.length urls <= attempts + 1.
Proof.
  induction attempts as [|attempts IH];
    intros net url cik accession caching exhibit_text s.
  - exists []. split; [apply issued_refl|cbn; lia].
  - cbn [download]. unfold request.
    set (s1 := IO (io_disk s) (url :: io_requests s)).
    assert (H1 : issued s s1 [url]) by reflexivity.
    assert (Hfail : exists urls, issued s s1 urls /\ List.length urls <= S attempts + 1)
      by (exists [url]; split; [exact H1|cbn; lia]).
    assert (Hrec : exists urls,
               issued s (snd (download find_all get_text attempts net url cik accession
                                            caching exhibit_text s1)) urls
               /\ List.length urls <= S attempts + 1).
    { destruct (IH net url cik accession caching exhibit_text s1) as (urls & Hi & Hl).
      exists (urls ++ [url]). split; [exact (issued_trans _ _ _ _ _ H1 Hi)|].
      rewrite length_app. cbn. lia. }
    destruct (net (List.length (io_requests s)) url) as [| |status ra html].
    + exact Hrec.
    + exact Hfail.
    + destruct (status =? 429).
      * destruct (bind (retry_wait ra) _); assumption.
      * destruct (negb (status =? 200)); [exact Hfail|].
        destruct (process_download_trace net cik accession caching exhibit_text html s1)
          as (urls & Hi & Hl).
        exists (urls ++ [url]). split; [exact (issued_trans _ _ _ _ _ H1 Hi)|].
        rewrite length_app. cbn. lia.
Qed.

(** A cache hit on the filing: the answer comes from the two cache files
    and the state is left as it is. *)
Lemma fetch_hit :
  forall net url cik accession f s t,
    PyStr.truthy f = true ->
    read_cached (io_disk s) f = Some t ->
    PyStr.truthy t = true ->
    fetch_filing_and_exhibit_html find_all get_text net url cik accession true (Some f) s
    = ((t, cached_exhibit (io_disk s) f), s).
Proof.
  intros net url cik accession f s t Hf Hrc Ht.
  unfold fetch_filing_and_exhibit_html, cached_exhibit.
  cbn [andb]. rewrite Hf, Hrc. cbn [truthy_opt]. rewrite Ht.
  destruct (read_cached (io_disk s) (exhibit_cache_name f)) as [e|]; cbn;
    [destruct (PyStr.truthy e)|]; reflexivity.
Qed.

Lemma fetch_trace :
  forall net url cik accession use_disk_cache cache_filename s,
    exists urls,
      issued s (snd (fetch_filing_and_exhibit_html find_all get_text net url cik accession use_disk_cache cache_filename s)) urls
      /\ List.length urls <= 4.
Proof.
  intros net url cik accession use_disk_cache cache_filename s.
  unfold fetch_filing_and_exhibit_html.
  match goal with
  | |- context [match ?c with Some _ => _ | None => _ end] =>
      destruct c as [f|]
  end.
  - destruct (truthy_opt (read_cached (io_disk s) f)
              && truthy_opt (read_cached (io_disk s) (exhibit_cache_name f)));
      [exists []; split; [apply issued_refl|cbn; lia]|].
    destruct (truthy_opt (read_cached (io_disk s) f)
              && negb (truthy_opt (read_cached (io_disk s) (exhibit_cache_name f))));
      [exists []; split; [apply issued_refl|cbn; lia]|].
    apply (download_trace 3).
  - apply (download_trace 3).
Qed.

(** The cache files a download leaves behind. Writes touch the two files
    of the key and nothing else. *)
Lemma process_download_disk :
  forall net cik accession caching exhibit_text html s,
    let r := process_download find_all get_text net cik accession caching exhibit_text html s in
    write_fails (io_disk (snd r)) = write_fails (io_disk s)
    /\ match caching with
       | None => io_disk (snd r) = io_disk s
       | Some f =>
           (forall other, other <> f -> other <> exhibit_cache_name f ->
                          files (io_disk (snd r)) other = files (io_disk s) other)
           /\ (write_fails (io_disk s) f = false ->
               write_fails (io_disk s) (exhibit_cache_name f) = false ->
               f <> exhibit_cache_name f ->
               files (io_disk (snd r)) f = Some (FileText (fst (fst r)))
               /\ files (io_disk (snd r)) (exhibit_cache_name f)
                  = match snd (fst r) with
                    | Some e => if PyStr.truthy e then Some (FileText e)
                                else files (io_disk s) (exhibit_cache_name f)
                    | None => files (io_disk s) (exhibit_cache_name f)
                    end)
       end.
Proof.
  intros net cik accession caching exhibit_text html s.
  unfold process_download.
  set (step := match find_exhibit_url cik accession (find_all html) with
               | Some exhibit_url => _
               | None => _
               end).
  assert (Hd : io_disk (snd step) = io_disk s).
  { subst step.
    destruct (find_exhibit_url cik accession (find_all html)) as [exhibit_url|];
      [|reflexivity].
    destruct (PyStr.truthy exhibit_url); [|reflexivity].
    unfold request.
    destruct (net (List.length (io_requests s)) exhibit_url) as [| |status ra body];
      [| |destruct (status =? 200)]; reflexivity. }
  destruct step as [e s1]. cbn [snd] in Hd. cbn zeta. rewrite Hd.
  destruct caching as [f|]; cbn [snd fst io_disk]; [|split; reflexivity].
  set (t := clean_lines (get_text html)).
  destruct (write_text (io_disk s) f t) as [d1|] eqn:W1.
  - destruct (write_text_frame _ _ _ _ W1) as (F1 & O1 & WF1).
    assert (Hkeep : write_fails d1 = write_fails (io_disk s)
                    /\ (forall other, other <> f -> other <> exhibit_cache_name f ->
                                      files d1 other = files (io_disk s) other)
                    /\ (f <> exhibit_cache_name f ->
                        files d1 f = Some (FileText t)
                        /\ files d1 (exhibit_cache_name f)
                           = files (io_disk s) (exhibit_cache_name f))).
    { split; [exact WF1|]. split; [intros other H1 _; apply O1; exact H1|].
      intro Hne. split; [exact F1|]. apply O1. intro K. apply Hne. symmetry. exact K. }
    destruct e as [e|].
    + destruct (PyStr.truthy e) eqn:Te.
      * destruct (write_text d1 (exhibit_cache_name f) e) as [d2|] eqn:W2.
        -- destruct (write_text_frame _ _ _ _ W2) as (F2 & O2 & WF2).
           split; [rewrite WF2; exact WF1|]. split.
           ++ intros other H1 H2. rewrite (O2 other H2). apply O1. exact H1.
           ++ intros _ _ Hne. split; [rewrite (O2 f Hne); exact F1|exact F2].
        -- split; [exact WF1|]. split; [apply Hkeep|].
           intros _ Wx _. unfold write_text in W2. rewrite WF1, Wx in W2. discriminate.
      * split; [exact WF1|]. split; [apply Hkeep|]. intros _ _ Hne. apply Hkeep. exact Hne.
    + split; [exact WF1|]. split; [apply Hkeep|]. intros _ _ Hne. apply Hkeep. exact Hne.
  - split; [reflexivity|]. split; [reflexivity|].
    intros Wf _ _. unfold write_text in W1. rewrite Wf in W1. discriminate.
Qed.

(** The same for the whole download: a result whose filing text is not
    empty comes from an attempt that succeeded and wrote its cache files. *)
Lemma download_disk :
  forall attempts net url cik accession caching exhibit_text s,
    let r := download find_all get_text attempts net url cik accession caching
                      exhibit_text s in
    write_fails (io_disk (snd r)) = write_fails (io_disk s)
    /\ match caching with
       | None => io_disk (snd r) = io_disk s
       | Some f =>
           (forall other, other <> f -> other <> exhibit_cache_name f ->
                          files (io_disk (snd r)) other = files (io_disk s) other)
           /\ (PyStr.truthy (fst (fst r)) = true ->
               write_fails (io_disk s) f = false ->
               write_fails (io_disk s) (exhibit_cache_name f) = false ->
               f <> exhibit_cache_name f ->
               files (io_disk (snd r)) f = Some (FileText (fst (fst r)))
               /\ files (io_disk (snd r)) (exhibit_cache_name f)
                  = match snd (fst r) with
                    | Some e => if PyStr.truthy e then Some (FileText e)
                                else files (io_disk s) (exhibit_cache_name f)
                    | None => files (io_disk s) (exhibit_cache_name f)
                    end)
       end.
Proof.
  induction attempts as [|attempts IH];
    intros net url cik accession caching exhibit_text s.
  - cbn. split; [reflexivity|]. destruct caching as [f|]; [|reflexivity].
    split; [reflexivity|]. discriminate.
  - cbn [download]. unfold request.
    set (s1 := IO (io_disk s) (url :: io_requests s)).
    assert (Hfail :
              let r := (("", None) : string * option string, s1) in
              write_fails (io_disk (snd r)) = write_fails (io_disk s)
              /\ match caching with
                 | None => io_disk (snd r) = io_disk s
                 | Some f =>
                     (forall other, other <> f -> other <> exhibit_cache_name f ->
                                    files (io_disk (snd r)) other = files (io_disk s) other)
                     /\ (PyStr.truthy (fst (fst r)) = true ->
                         write_fails (io_disk s) f = false ->
                         write_fails (io_disk s) (exhibit_cache_name f) = false ->
                         f <> exhibit_cache_name f ->
                         files (io_disk (snd r)) f = Some (FileText (fst (fst r)))
                         /\ files (io_disk (snd r)) (exhibit_cache_name f)
                            = match snd (fst r) with
                              | Some e => if PyStr.truthy e then Some (FileText e)
                                          else files (io_disk s) (exhibit_cache_name f)
                              | None => files (io_disk s) (exhibit_cache_name f)
                              end)
                 end).
    { cbn. split; [reflexivity|]. destruct caching as [f|]; [|reflexivity].
      split; [reflexivity|]. discriminate. }
    pose proof (IH net url cik accession caching exhibit_text s1) as Hrec.
    pose proof (fun html =>
                  process_download_disk net cik accession caching exhibit_text html s1)
      as Hok.
    destruct (net (List.length (io_requests s)) url) as [| |status ra html].
    + exact Hrec.
    + exact Hfail.
    + destruct (status =? 429).
      * destruct (bind (retry_wait ra) _); assumption.
      * destruct (negb (status =? 200)); [exact Hfail|].
        specialize (Hok html). cbn zeta in Hok.
        destruct Hok as [Hw Hc]. split; [exact Hw|].
        destruct caching as [f|]; [|exact Hc].
        destruct Hc as [Ho Hf]. split; [exact Ho|].
        intros _. exact Hf.
Qed.

Lemma fetch_disk :
  forall net url cik accession use_disk_cache cache_filename s,
    let r := fetch_filing_and_exhibit_html find_all get_text net url cik accession
                                           use_disk_cache cache_filename s in
    (use_disk_cache = false \/ cache_filename = None -> io_disk (snd r) = io_disk s)
    /\ (forall f other,
           cache_filename = Some f -> other <> f -> other <> exhibit_cache_name f ->
           files (io_disk (snd r)) other = files (io_disk s) other).
Proof.
  intros net url cik accession use_disk_cache cache_filename s.
  unfold fetch_filing_and_exhibit_html. cbn zeta.
  destruct cache_filename as [f|].
  - destruct (use_disk_cache && PyStr.truthy f) eqn:Hc.
    + assert (Hframe : forall other, other <> f -> other <> exhibit_cache_name f ->
                files (io_disk (snd
                  (if truthy_opt (read_cached (io_disk s) f)
                      && truthy_opt (read_cached (io_disk s) (exhibit_cache_name f))
                   then ((match read_cached (io_disk s) f with Some t => t | None => "" end,
                          read_cached (io_disk s) (exhibit_cache_name f)), s)
                   else if truthy_opt (read_cached (io_disk s) f)
                           && negb (truthy_opt (read_cached (io_disk s)
                                                            (exhibit_cache_name f)))
                   then ((match read_cached (io_disk s) f with Some t => t | None => "" end,
                          None), s)
                   else download find_all get_text 3 net url cik accession (Some f)
                                 (read_cached (io_disk s) (exhibit_cache_name f)) s))) other
                = files (io_disk s) other).
      { intros other H1 H2.
        destruct (truthy_opt (read_cached (io_disk s) f)
                  && truthy_opt (read_cached (io_disk s) (exhibit_cache_name f)));
          [reflexivity|].
        destruct (truthy_opt (read_cached (io_disk s) f)
                  && negb (truthy_opt (read_cached (io_disk s) (exhibit_cache_name f))));
          [reflexivity|].
        apply (download_disk 3 net url cik accession (Some f)); assumption. }
      split.
      * intros [Hu|Hn]; [|discriminate]. subst use_disk_cache. discriminate.
      * intros f' other E. injection E as <-. apply Hframe.
    + pose proof (download_disk 3 net url cik accession None None s) as [_ Hd].
      cbn zeta in Hd. split.
      * intros _. exact Hd.
      * intros f' other _ _ _. rewrite Hd. reflexivity.
  - pose proof (download_disk 3 net url cik accession None None s) as [_ Hd].
    cbn zeta in Hd. split.
    + intros _. exact Hd.
    + intros f' other E. discriminate.
Qed.

(** A cache miss on the filing: the download runs, carrying the exhibit
    text read from the cache. *)
Lemma fetch_miss :
  forall net url cik accession f s,
    PyStr.truthy f = true ->
    truthy_opt (read_cached (io_disk s) f) = false ->
    fetch_filing_and_exhibit_html find_all get_text net url cik accession true (Some f) s
    = download find_all get_text 3 net url cik accession (Some f)
               (read_cached (io_disk s) (exhibit_cache_name f)) s.
Proof.
  intros net url cik accession f s Hf Hmiss.
  unfold fetch_filing_and_exhibit_html. cbn [andb]. rewrite Hf, Hmiss. reflexivity.
Qed.

End FetcherTraces.

(** X1. One call of the fetcher issues at most four requests: up to three
    attempts at the filing and one request for the exhibit. The bound is
    reached when two attempts time out and the third finds an exhibit
    link. *)
Theorem fetch_issues_at_most_four_requests :
  (forall find_all get_text net url cik accession use_disk_cache cache_filename s,
      exists urls,
        issued s (snd (fetch_filing_and_exhibit_html find_all get_text net url cik
                                                     accession use_disk_cache
                                                     cache_filename s)) urls
        /\ List.length urls <= 4)
  /\ issued (IO empty_disk [])
            (snd (fetch_filing_and_exhibit_html one_link plain_text slow_start
                    "https://www.sec.gov/Archives/edgar/data/1/2/d.htm" "1" "2"
                    false None (IO empty_disk [])))
            ["https://www.sec.gov/Archives/edgar/data/1/2/ex99.htm";
             "https://www.sec.gov/Archives/edgar/data/1/2/d.htm";
             "https://www.sec.gov/Archives/edgar/data/1/2/d.htm";
             "https://www.sec.gov/Archives/edgar/data/1/2/d.htm"].
Proof.
  split.
  - intros. apply fetch_trace.
  - vm_compute. reflexivity.
Qed.

(** X2. The fetcher writes no file but the two cache files of its key:
    without disk caching, or without a cache file name, the cache
    directory is left as it is; with both, every other file is. *)
Theorem fetch_writes_only_its_cache_files :
  forall find_all get_text net url cik accession use_disk_cache cache_filename s,
    let s' := snd (fetch_filing_and_exhibit_html find_all get_text net url cik accession
                                                 use_disk_cache cache_filename s) in
    (use_disk_cache = false \/ cache_filename = None -> io_disk s' = io_disk s)
    /\ (forall f other,
           cache_filename = Some f -> other <> f -> other <> exhibit_cache_name f ->
           files (io_disk s') other = files (io_disk s) other).
Proof.
  intros. apply fetch_disk.
Qed.

(** X3. Cache round trip. When a fetch with disk caching returns a filing
    text that is not empty and the cache files can be written, a second
    fetch for the same key returns the same filing text without a request
    and whatever the network answers. The exhibit comes back too when it
    was not empty; otherwise the second fetch returns what the exhibit
    cache file held before. *)
Theorem fetch_round_trip :
  forall find_all get_text net net' url cik accession f s t e s',
    PyStr.truthy f = true ->
    write_fails (io_disk s) f = false ->
    write_fails (io_disk s) (exhibit_cache_name f) = false ->
    f <> exhibit_cache_name f ->
    fetch_filing_and_exhibit_html find_all get_text net url cik accession true (Some f) s
    = ((t, e), s') ->
    PyStr.truthy t = true ->
    fetch_filing_and_exhibit_html find_all get_text net' url cik accession true (Some f) s'
    = ((t, if truthy_opt e then e else cached_exhibit (io_disk s) f), s').
Proof.
  intros find_all get_text net net' url cik accession f s t e s' Hf Wf Wx Hne H Ht.
  destruct (truthy_opt (read_cached (io_disk s) f)) eqn:Hhit.
  - destruct (read_cached (io_disk s) f) as [t0|] eqn:Hrc; [|discriminate].
    cbn [truthy_opt] in Hhit.
    rewrite (fetch_hit find_all get_text net url cik accession f s t0 Hf Hrc Hhit) in H.
    injection H as <- <- <-.
    rewrite (fetch_hit find_all get_text net' url cik accession f s t0 Hf Hrc Hhit).
    destruct (truthy_opt (cached_exhibit (io_disk s) f)); reflexivity.
  - rewrite (fetch_miss find_all get_text net url cik accession f s Hf Hhit) in H.
    pose proof (download_disk find_all get_text 3 net url cik accession (Some f)
                              (read_cached (io_disk s) (exhibit_cache_name f)) s) as D.
    cbn zeta in D. rewrite H in D. cbn [fst snd] in D.
    destruct D as (_ & _ & D). destruct (D Ht Wf Wx Hne) as [Df Dx].
    assert (Hrc : read_cached (io_disk s') f = Some t)
      by (unfold read_cached; rewrite Df; reflexivity).
    rewrite (fetch_hit find_all get_text net' url cik accession f s' t Hf Hrc Ht).
    f_equal. f_equal. unfold cached_exhibit, read_cached. rewrite Dx.
    destruct e as [x|]; cbn [truthy_opt]; [destruct (PyStr.truthy x) eqn:Tx|];
      try reflexivity.
    rewrite Tx. reflexivity.
Qed.

(** The round trip at a download that finds an exhibit: the two texts come
    back from the cache with the network down. *)
Lemma fetch_round_trip_witness :
  exists s',
    fetch_filing_and_exhibit_html one_link plain_text (always "Quarterly results")
                                  "u" "1" "2" true (Some "k.txt") (IO empty_disk [])
    = (("Quarterly results", Some "Quarterly results"), s')
    /\ fetch_filing_and_exhibit_html one_link plain_text offline
                                     "u" "1" "2" true (Some "k.txt") s'
       = (("Quarterly results", Some "Quarterly results"), s').
Proof.
  eexists. split; [vm_compute; reflexivity|].
  apply (fetch_round_trip one_link plain_text (always "Quarterly results") offline
                          "u" "1" "2" "k.txt" (IO empty_disk [])
                          "Quarterly results" (Some "Quarterly results"));
    try reflexivity.
  vm_compute. discriminate.
Defined.

(* ================================================================== *)
(** * Identifier resolution: what an answer rests on *)
(* ================================================================== *)

Lemma scan_rows_sound :
  forall cc tu rows cik tk,
    scan_rows cc tu rows = Ok (cik, tk) ->
    (cik = None /\ tk = None)
    \/ exists pre r post c t,
        rows = pre ++ r :: post
        /\ Forall (row_silent cc tu) pre
        /\ row_matches cc tu r c t
        /\ cik = Some c /\ tk = Some t.
Proof.
  intros cc tu rows cik tk. induction rows as [|r rows IH]; intro H.
  - injection H as <- <-. left. split; reflexivity.
  - assert (Hskip : row_silent cc tu r ->
                    scan_rows cc tu rows = Ok (cik, tk) ->
                    (cik = None /\ tk = None)
                    \/ exists pre r0 post c t,
                        r :: rows = pre ++ r0 :: post
                        /\ Forall (row_silent cc tu) pre
                        /\ row_matches cc tu r0 c t
                        /\ cik = Some c /\ tk = Some t).
    { intros Hs K. destruct (IH K) as [L|(pre & r0 & post & c & t & E & Hp & Hm & Hc)];
        [left; exact L|right].
      exists (r :: pre), r0, post, c, t. rewrite E.
      split; [reflexivity|]. split; [constructor; assumption|]. split; assumption. }
    cbn [scan_rows] in H.
    destruct (List.length r <? 4) eqn:Hlen.
    { apply Hskip; [|exact H]. unfold row_silent. cbn [scan_rows]. rewrite Hlen.
      reflexivity. }
    unfold bind in H.
    destruct (cell_str (nth 1 r CellNone)) as [legal|] eqn:Hlegal; [|discriminate].
    destruct (cell_str (nth 2 r CellNone)) as [symbol|] eqn:Hsym; [|discriminate].
    destruct (cell_int (nth 0 r CellNone)) as [n|] eqn:Hint.
    2:{ apply Hskip; [|exact H]. unfold row_silent. cbn [scan_rows]. unfold bind.
        rewrite Hlen, Hlegal, Hsym, Hint. reflexivity. }
    destruct (PyInt.to_string n) as [digits|] eqn:Hstr.
    2:{ apply Hskip; [|exact H]. unfold row_silent. cbn [scan_rows]. unfold bind.
        rewrite Hlen, Hlegal, Hsym, Hint, Hstr. reflexivity. }
    pose proof (to_string_decimal _ _ Hstr) as Hd.
    assert (Hrow : forall t,
               t = PyStr.upper (PyStr.strip symbol) ->
               (t = tu \/ cc = clean_company_name (clean_company_name (PyStr.lower legal))) ->
               row_matches cc tu r (PyStr.zfill 10 digits) t).
    { intros t Et Hm. split; [apply Nat.ltb_ge in Hlen; exact Hlen|].
      exists legal, symbol, n. rewrite Hd. repeat split; assumption. }
    destruct (String.eqb (PyStr.upper (PyStr.strip symbol)) tu) eqn:Ht.
    + injection H as <- <-. right.
      exists [], r, rows, (PyStr.zfill 10 digits), (PyStr.upper (PyStr.strip symbol)).
      split; [reflexivity|]. split; [constructor|].
      split; [|split; reflexivity].
      apply Hrow; [reflexivity|]. left. apply String.eqb_eq. exact Ht.
    + destruct (String.eqb cc (clean_company_name (clean_company_name (PyStr.lower legal))))
        eqn:Hn.
      * injection H as <- <-. right.
        exists [], r, rows, (PyStr.zfill 10 digits), (PyStr.upper (PyStr.strip symbol)).
        split; [reflexivity|]. split; [constructor|].
        split; [|split; reflexivity].
        apply Hrow; [reflexivity|]. right. apply String.eqb_eq. exact Hn.
      * apply Hskip; [|exact H]. unfold row_silent. cbn [scan_rows]. unfold bind.
        rewrite Hlen, Hlegal, Hsym, Hint, Hstr, Ht, Hn. reflexivity.
Qed.

(** X4. The resolver returns an identifier together with a ticker, or
    neither. An answer is read from the first row of the registry that is
    not skipped: it is that row's identifier, padded, and that row's
    ticker, upper-cased, and the row matches the query by its ticker or by
    its normalized name. *)
Theorem resolver_answer_is_sound :
  (forall company_name ticker_symbol registry,
      let cc := clean_company_name (strip_or_empty company_name) in
      let tu := PyStr.upper (strip_or_empty ticker_symbol) in
      get_cik_from_ticker_or_name company_name ticker_symbol registry = (None, None)
      \/ exists pre r post cik ticker,
          registry = HttpBody (pre ++ r :: post)
          /\ Forall (row_silent cc tu) pre
          /\ row_matches cc tu r cik ticker
          /\ get_cik_from_ticker_or_name company_name ticker_symbol registry
             = (Some cik, Some ticker))
  /\ get_cik_from_ticker_or_name (Some "Banana") None (HttpBody registry_two)
     = (Some "0000000002", Some "BAN").
Proof.
  split; [|vm_compute; reflexivity].
  intros company_name ticker_symbol registry cc tu.
  unfold get_cik_from_ticker_or_name.
  destruct (negb (PyStr.truthy (strip_or_empty company_name))
            && negb (PyStr.truthy (strip_or_empty ticker_symbol)));
    [left; reflexivity|].
  destruct registry as [msg|status|rows]; try (left; reflexivity).
  fold cc tu.
  destruct (scan_rows cc tu rows) as [[cik tk]|e] eqn:H; [|left; reflexivity].
  destruct (scan_rows_sound cc tu rows cik tk H)
    as [[-> ->]|(pre & r & post & c & t & -> & Hp & Hm & -> & ->)];
    [left; reflexivity|right].
  exists pre, r, post, c, t.
  split; [reflexivity|]. split; [exact Hp|]. split; [exact Hm|reflexivity].
Qed.





(** X6. Archive cache round trip. Once the archive has been downloaded
    with disk caching, the cache file holds it, and every later lookup, for
    any company name and whatever the service answers, gives what the same
    lookup gave when the archive was downloaded. *)
Theorem archive_cache_round_trip :
  forall name f data d,
    PyStr.truthy f = true ->
    files d f = None ->
    write_fails d f = false ->
    exists x d',
      get_cik_from_archive (Some name) true (Some f) (HttpBody data) d = Ok (x, d')
      /\ files d' f = Some (FileText data)
      /\ forall name' archive',
          get_cik_from_archive (Some name') true (Some f) archive' d'
          = get_cik_from_archive (Some name') true (Some f) (HttpBody data) d.
Proof.
  intros name f data d Hf Hnone Hw.
  destruct (write_text_succeeds d f data Hw) as [d1 W].
  destruct (write_text_frame _ _ _ _ W) as (F1 & _ & _).
  exists (scan_lines (clean_company_name (PyStr.strip name)) (PyStr.splitlines data)), d1.
  unfold get_cik_from_archive. cbn [andb]. rewrite Hf, Hnone, W, F1.
  split; [reflexivity|]. split; [reflexivity|]. intros name' archive'. reflexivity.
Qed.

(** The round trip at a first lookup that downloads [archive_three]: a
    second lookup, for another company and with the service down, reads
    the saved copy. *)
Lemma archive_cache_round_trip_witness :
  exists d',
    get_cik_from_archive (Some "Acme Corp.") true (Some "cik-lookup-data.txt")
                         (HttpBody archive_three) empty_disk
    = Ok (Some "0000001234", d')
    /\ get_cik_from_archive (Some "Zero Holdings") true (Some "cik-lookup-data.txt")
                            (HttpStatus 503) d'
       = Ok (None, d').
Proof.
  destruct (archive_cache_round_trip "Acme Corp." "cik-lookup-data.txt" archive_three
                                     empty_disk eq_refl eq_refl eq_refl)
    as (x & d' & H1 & Hfile & H2).
  exists d'.
  assert (E : get_cik_from_archive (Some "Acme Corp.") true (Some "cik-lookup-data.txt")
                                   (HttpBody archive_three) empty_disk
              = Ok (Some "0000001234",
                    match write_text empty_disk "cik-lookup-data.txt" archive_three with
                    | Some d1 => d1
                    | None => empty_disk
                    end)) by (vm_compute; reflexivity).
  rewrite E in H1. injection H1 as <- <-.
  split; [exact E|].
  rewrite (H2 "Zero Holdings" (HttpStatus 503)). vm_compute. reflexivity.
Defined.

(* ================================================================== *)
(** * The search: requests, timeline and errors *)
(* ================================================================== *)

Section SearchTraces.

Variable find_all : string -> list tag.
Variable get_text : string -> string.

Lemma build_entry_key :
  forall f url filing_text exhibit_text keywords e,
    build_entry f url filing_text exhibit_text keywords = Ok (Some e) ->
    entry_key e = (filing_date f, form f, accession_number f, url).
Proof.
  intros f url filing_text exhibit_text keywords e H.
  unfold build_entry, bind in H.
  match type of H with
  | match extract_financial_data ?t with _ => _ end = _ =>
      destruct (extract_financial_data t) as [metrics|]; [|discriminate]
  end.
  match type of H with
  | match ?g with _ => _ end = _ => destruct g as [guidance|]; [|discriminate]
  end.
  match type of H with
  | (if ?b then _ else _) = _ => destruct b; [|discriminate]
  end.
  injection H as <-. reflexivity.
Qed.

(** The download loop: at most four requests for each filing, and a
    timeline that keeps the order of the filings. *)
Lemma process_filings_facts :
  forall net cik use_disk_cache keywords raw s timeline s',
    process_filings find_all get_text net cik use_disk_cache keywords raw s
    = Ok (timeline, s') ->
    (exists urls, issued s s' urls /\ List.length urls <= 4 * List.length raw)
    /\ subseq (map entry_key timeline) (map (filing_key cik) raw).
Proof.
  intros net cik use_disk_cache keywords raw.
  induction raw as [|f raw IH]; intros s timeline s' H.
  - injection H as <- <-. split; [exists []; split; [apply issued_refl|cbn; lia]|].
    constructor.
  - cbn [process_filings] in H. cbn zeta in H.
    match type of H with
    | context [fetch_filing_and_exhibit_html find_all get_text net ?u cik ?a
                                              use_disk_cache ?c s] =>
        pose proof (fetch_trace find_all get_text net u cik a use_disk_cache c s)
          as (urls1 & Hi1 & Hl1);
        destruct (fetch_filing_and_exhibit_html find_all get_text net u cik a
                                                use_disk_cache c s)
          as [[filing_text exhibit_text] s1]
    end.
    cbn [snd] in Hi1.
    assert (Hstep : forall tl,
               process_filings find_all get_text net cik use_disk_cache keywords raw s1
               = Ok (tl, s') ->
               (exists urls, issued s s' urls /\ List.length urls <= 4 * List.length (f :: raw))
               /\ subseq (map entry_key tl) (map (filing_key cik) raw)).
    { intros tl K. destruct (IH s1 tl s' K) as [(urls & Hi & Hl) Hs].
      split; [|exact Hs].
      exists (urls ++ urls1). split; [exact (issued_trans _ _ _ _ _ Hi1 Hi)|].
      rewrite length_app. cbn [List.length]. lia. }
    destruct (negb (PyStr.truthy filing_text)).
    + destruct (Hstep timeline H) as [Hu Hs]. split; [exact Hu|].
      cbn [map]. constructor. exact Hs.
    + unfold bind in H.
      match type of H with
      | match build_entry ?f0 ?u ?t ?x ?k with _ => _ end = _ =>
          destruct (build_entry f0 u t x k) as [entry|] eqn:Hentry; [|discriminate]
      end.
      destruct (process_filings find_all get_text net cik use_disk_cache keywords raw s1)
        as [[tl s2]|] eqn:Hrest; [|discriminate].
      injection H as <- <-.
      destruct (Hstep tl eq_refl) as [Hu Hs]. split; [exact Hu|].
      destruct entry as [e|].
      * cbn [map]. rewrite (build_entry_key _ _ _ _ _ _ Hentry).
        apply (subseq_keep (filing_key cik f)). exact Hs.
      * cbn [map]. constructor. exact Hs.
Qed.

(** What a search that returns went through: the state after the
    identifier is resolved holds the requests made so far, an error leaves
    it as it is, and a report comes from the download loop run on the
    filings located in the submissions of the identifier reported. *)
Lemma sec_search_inv :
  forall w company_name ticker_symbol cik form_types start_date end_date keywords
         use_disk_cache s r s',
    sec_search find_all get_text w company_name ticker_symbol cik form_types
               start_date end_date keywords use_disk_cache s = Ok (r, s') ->
    exists s0,
      io_requests s0 = io_requests s
      /\ match r with
         | SearchError _ _ => s' = s0
         | SearchReport _ _ cik' _ _ timeline total =>
             exists data located,
               submissions w cik' = HttpBody data
               /\ locate_filings form_types start_date end_date (sub_recent data)
                  = Ok located
               /\ process_filings find_all get_text (documents w) cik' use_disk_cache
                                  keywords located s0 = Ok (timeline, s')
               /\ total = List.length timeline
         end.
Proof.
  intros w company_name ticker_symbol cik form_types start_date end_date keywords
         use_disk_cache s r s' H.
  unfold sec_search, bind in H.
  match type of H with
  | match ?R with _ => _ end = _ =>
      assert (HR : forall c t s0, R = Ok (c, t, s0) -> io_requests s0 = io_requests s);
      [|destruct R as [[[c t] s0]|]; [specialize (HR c t s0 eq_refl)|discriminate]]
  end.
  { intros c t s0.
    destruct ((truthy_opt company_name || truthy_opt ticker_symbol)
              && negb (truthy_opt cik)); [|intro K; injection K as _ _ <-; reflexivity].
    destruct (get_cik_from_ticker_or_name company_name ticker_symbol (registry w))
      as [found ticker].
    destruct (negb (truthy_opt found)); [|intro K; injection K as _ _ <-; reflexivity].
    destruct (get_cik_from_archive company_name use_disk_cache
                                   (Some "cik-lookup-data.txt") (archive w) (io_disk s))
      as [[from_archive d]|]; [|discriminate].
    intro K. injection K as _ _ <-. reflexivity. }
  exists s0. split; [exact HR|].
  destruct c as [c|]; [|injection H as <- <-; reflexivity].
  destruct (negb (PyStr.truthy c)); [injection H as <- <-; reflexivity|].
  destruct (submissions w c) as [msg|status|data] eqn:Hsub;
    [injection H as <- <-; reflexivity|injection H as <- <-; reflexivity|].
  destruct (locate_filings form_types start_date end_date (sub_recent data))
    as [raw|[]] eqn:Hloc; try discriminate; [|injection H as <- <-; reflexivity].
  destruct (process_filings find_all get_text (documents w) c use_disk_cache keywords raw s0)
    as [[tl s1]|] eqn:Hproc; [|discriminate].
  injection H as <- <-.
  exists data, raw. repeat split; assumption.
Qed.

End SearchTraces.

(** X7. A search that reports an error has issued no request for a
    document. A search that returns a report has issued at most four
    requests for each filing located in the submissions of the company. *)
Theorem search_requests_are_bounded :
  forall find_all get_text w company_name ticker_symbol cik form_types start_date
         end_date keywords use_disk_cache s r s',
    sec_search find_all get_text w company_name ticker_symbol cik form_types
               start_date end_date keywords use_disk_cache s = Ok (r, s') ->
    exists urls,
      issued s s' urls
      /\ match r with
         | SearchError _ _ => urls = []
         | SearchReport _ _ cik' _ _ _ _ =>
             exists data located,
               submissions w cik' = HttpBody data
               /\ locate_filings form_types start_date end_date (sub_recent data)
                  = Ok located
               /\ List.length urls <= 4 * List.length located
         end.
Proof.
  intros find_all get_text w company_name ticker_symbol cik form_types start_date
         end_date keywords use_disk_cache s r s' H.
  destruct (sec_search_inv _ _ _ _ _ _ _ _ _ _ _ _ _ _ H) as (s0 & Hreq & Hr).
  destruct r as [msg hint|company ticker cik' sic sicd timeline total].
  - subst s'. exists []. split; [unfold issued; rewrite Hreq; reflexivity|reflexivity].
  - destruct Hr as (data & located & Hsub & Hloc & Hproc & _).
    destruct (process_filings_facts _ _ _ _ _ _ _ _ _ _ Hproc) as [(urls & Hi & Hl) _].
    exists urls. split; [unfold issued in *; rewrite Hi, Hreq; reflexivity|].
    exists data, located. repeat split; assumption.
Qed.

(** The bound at a search that downloads its three filings: one request
    for each. *)
Lemma search_requests_are_bounded_witness :
  exists r s' urls,
    sec_search no_tags plain_text acme_online None (Some "ACME") None
               ["10-K"; "8-K"; "DEF 14A"] None None None false (IO empty_disk [])
    = Ok (r, s')
    /\ issued (IO empty_disk []) s' urls
    /\ List.length urls = 3.
Proof.
  assert (H : sec_search no_tags plain_text acme_online None (Some "ACME") None
                         ["10-K"; "8-K"; "DEF 14A"] None None None false
                         (IO empty_disk [])
              = Ok (SearchReport (Some "Acme Corp") "ACME" "0000000001" (Some "3490")
                                 (Some "Misc Fabricated Metal Products") acme_timeline 3,
                    IO empty_disk
                       [doc_url "0000000001" (Filing "DEF 14A" "2024-01-15"
                                                     "0000000001-24-000001" "acmeproxy.htm");
                        doc_url "0000000001" (Filing "8-K" "2024-02-01"
                                                     "0000000001-24-000002" "acme8k.htm");
                        doc_url "0000000001" (Filing "10-K" "2024-03-01"
                                                     "0000000001-24-000003" "acme10k.htm")]))
    by (vm_compute; reflexivity).
  destruct (search_requests_are_bounded _ _ _ _ _ _ _ _ _ _ _ _ _ _ H)
    as (urls & Hi & _).
  do 2 eexists. exists urls. split; [exact H|]. split; [exact Hi|].
  unfold issued in Hi. cbn [io_requests] in Hi. rewrite app_nil_r in Hi. subst urls.
  reflexivity.
Defined.

(** X8. The timeline of a report follows the filings located in the
    submissions of the company: each entry carries the date, form and
    accession number of a located filing and the address built from the
    identifier, the accession number and the primary document; the entries
    come in the order of the index, and [total_found] counts them. *)
Theorem timeline_follows_located_filings :
  forall find_all get_text w company_name ticker_symbol cik form_types start_date
         end_date keywords use_disk_cache s company ticker cik' sic sic_description
         timeline total s',
    sec_search find_all get_text w company_name ticker_symbol cik form_types
               start_date end_date keywords use_disk_cache s
    = Ok (SearchReport company ticker cik' sic sic_description timeline total, s') ->
    exists data located,
      submissions w cik' = HttpBody data
      /\ locate_filings form_types start_date end_date (sub_recent data) = Ok located
      /\ subseq (map entry_key timeline) (map (filing_key cik') located)
      /\ total = List.length timeline.
Proof.
  intros find_all get_text w company_name ticker_symbol cik form_types start_date
         end_date keywords use_disk_cache s company ticker cik' sic sic_description
         timeline total s' H.
  destruct (sec_search_inv _ _ _ _ _ _ _ _ _ _ _ _ _ _ H)
    as (s0 & _ & data & located & Hsub & Hloc & Hproc & Htot).
  destruct (process_filings_facts _ _ _ _ _ _ _ _ _ _ Hproc) as [_ Hs].
  exists data, located. repeat split; assumption.
Qed.

(** The timeline of the Acme search read from the cache: the three
    located filings, in the order of the index. *)
Lemma timeline_follows_located_filings_witness :
  exists data located,
    submissions acme_world "0000000001" = HttpBody data
    /\ locate_filings ["10-K"; "8-K"; "DEF 14A"] None None (sub_recent data) = Ok located
    /\ subseq (map entry_key acme_timeline) (map (filing_key "0000000001") located)
    /\ 3 = List.length acme_timeline.
Proof.
  apply (timeline_follows_located_filings
           no_tags plain_text acme_world None (Some "ACME") None
           ["10-K"; "8-K"; "DEF 14A"] None None None true (IO acme_disk [])
           (Some "Acme Corp") "ACME" "0000000001" (Some "3490")
           (Some "Misc Fabricated Metal Products") acme_timeline 3 (IO acme_disk [])).
  vm_compute. reflexivity.
Defined.

(** X9. A search by ticker alone, for a ticker the registry does not
    resolve, does not return the "Company not found" error: the archive
    fallback is called with no company name and raises [AttributeError],
    which the search lets through. *)
Theorem ticker_only_search_raises_when_unlisted :
  forall find_all get_text w ticker cik form_types start_date end_date keywords
         use_disk_cache s,
    PyStr.truthy ticker = true ->
    truthy_opt cik = false ->
    truthy_opt (fst (get_cik_from_ticker_or_name None (Some ticker) (registry w))) = false ->
    sec_search find_all get_text w None (Some ticker) cik form_types
               start_date end_date keywords use_disk_cache s
    = Raise AttributeError.
Proof.
  intros find_all get_text w ticker cik form_types start_date end_date keywords
         use_disk_cache s Ht Hc Hf.
  unfold sec_search. cbn [truthy_opt orb]. rewrite Ht, Hc. cbn [negb andb].
  destruct (get_cik_from_ticker_or_name None (Some ticker) (registry w)) as [found tk].
  cbn [fst] in Hf. rewrite Hf. reflexivity.
Qed.

(** The search for the ticker ZZZZ in a registry of two other companies. *)
Lemma ticker_only_search_raises_when_unlisted_witness :
  sec_search no_tags plain_text two_company_world None (Some "ZZZZ") None
             ["10-K"] None None None false (IO empty_disk [])
  = Raise AttributeError.
Proof.
  apply ticker_only_search_raises_when_unlisted; vm_compute; reflexivity.
Defined.

(** X10. A cached copy of the archive that cannot be read blocks the
    fallback: the lookup answers with the empty text without asking the
    service, so a search by a name the registry does not resolve reports
    "Company not found" even when the archive lists the company. *)
Theorem unreadable_archive_cache_blocks_the_fallback :
  forall find_all get_text w name ticker_symbol cik form_types start_date end_date
         keywords s,
    PyStr.truthy name = true ->
    truthy_opt cik = false ->
    truthy_opt (fst (get_cik_from_ticker_or_name (Some name) ticker_symbol (registry w)))
    = false ->
    files (io_disk s) "cik-lookup-data.txt" = Some FileUnreadable ->
    get_cik_from_archive (Some name) true (Some "cik-lookup-data.txt") (archive w)
                         (io_disk s)
    = Ok (Some "", io_disk s)
    /\ sec_search find_all get_text w (Some name) ticker_symbol cik form_types
                  start_date end_date keywords true s
       = Ok (SearchError ("Company not found: " ++ name)
                         (Some "Try variations of the name or use ticker symbol"),
             s).
Proof.
  intros find_all get_text w name ticker_symbol cik form_types start_date end_date
         keywords s Hn Hc Hf Hfile.
  assert (Ha : get_cik_from_archive (Some name) true (Some "cik-lookup-data.txt")
                                    (archive w) (io_disk s)
               = Ok (Some "", io_disk s)).
  { unfold get_cik_from_archive. cbn [andb PyStr.truthy PyStr.is_empty negb].
    rewrite Hfile. reflexivity. }
  split; [exact Ha|].
  unfold sec_search. cbn [truthy_opt orb]. rewrite Hn, Hc. cbn [negb andb orb].
  destruct (get_cik_from_ticker_or_name (Some name) ticker_symbol (registry w))
    as [found tk].
  cbn [fst] in Hf. rewrite Hf. cbn [negb]. rewrite Ha. cbn [bind].
  change (PyStr.truthy "") with false. cbn [negb].
  unfold or_else. cbn [truthy_opt]. rewrite Hn.
  destruct s as [d reqs]. reflexivity.
Qed.

(** The search for Acme in a world whose archive lists it: with the
    broken cache the company is not found. *)
Lemma unreadable_archive_cache_blocks_the_fallback_witness :
  sec_search no_tags plain_text archive_only_world (Some "Acme Corp") None None
             ["10-K"] None None None true (IO broken_archive_cache [])
  = Ok (SearchError "Company not found: Acme Corp"
                    (Some "Try variations of the name or use ticker symbol"),
        IO broken_archive_cache [])
  /\ exists d,
      get_cik_from_archive (Some "Acme Corp") true (Some "cik-lookup-data.txt")
                           (archive archive_only_world) empty_disk
      = Ok (Some "0000001234", d).
Proof.
  split.
  - apply (unreadable_archive_cache_blocks_the_fallback
             no_tags plain_text archive_only_world "Acme Corp" None None ["10-K"]
             None None None (IO broken_archive_cache [])); reflexivity.
  - eexists. vm_compute. reflexivity.
Defined.

(* ================================================================== *)
(** * The filings located in the index *)
(* ================================================================== *)

Lemma index_nth_error : forall xs i x, index xs i = Ok x -> nth_error xs i = Some x.
Proof.
  intros xs i x H. unfold index in H.
  destruct (nth_error xs i); [injection H as <-; reflexivity|discriminate].
Qed.

Lemma parse_recent_provenance :
  forall form_types hdf start_dt end_dt recent n i located,
    parse_recent form_types hdf start_dt end_dt recent i n = Ok located ->
    forall f, In f located -> exists j, i <= j < i + n /\ row_at recent j f.
Proof.
  intros form_types hdf start_dt end_dt recent.
  induction n as [|n IH]; intros i located H f Hin.
  - injection H as <-. destruct Hin.
  - assert (Hrest : forall l,
               parse_recent form_types hdf start_dt end_dt recent (S i) n = Ok l ->
               In f l -> exists j, i <= j < i + S n /\ row_at recent j f).
    { intros l K Hl. destruct (IH (S i) l K f Hl) as (j & Hj & Hr).
      exists j. split; [lia|exact Hr]. }
    cbn [parse_recent] in H. unfold bind in H.
    destruct (index (idx_form recent) i) as [fm|] eqn:Hf; [|discriminate].
    destruct (index (idx_filingDate recent) i) as [fd|] eqn:Hd; [|discriminate].
    destruct (negb (form_matches form_types fm)); [exact (Hrest _ H Hin)|].
    destruct (hdf && negb (date_kept start_dt end_dt fd)); [exact (Hrest _ H Hin)|].
    destruct (index (idx_accessionNumber recent) i) as [acc|] eqn:Ha; [|discriminate].
    destruct (index (idx_primaryDocument recent) i) as [doc|] eqn:Hp; [|discriminate].
    destruct (parse_recent form_types hdf start_dt end_dt recent (S i) n) as [rest|] eqn:Hr;
      [|discriminate].
    injection H as <-. destruct Hin as [<-|Hin]; [|exact (Hrest _ eq_refl Hin)].
    exists i. split; [lia|].
    repeat split; cbn; apply index_nth_error; assumption.
Qed.

(** X11. The filings located are the rows of the index whose form
    contains a requested form type and, when a date bound is given, whose
    date parses and lies within the bounds. A row whose date does not
    parse is therefore located exactly when no date bound is given. *)
Theorem located_filings_are_the_kept_rows :
  forall form_types start_date end_date recent located,
    locate_filings form_types start_date end_date recent = Ok located ->
    exists start_dt end_dt,
      parse_bound start_date = Ok start_dt
      /\ parse_bound end_date = Ok end_dt
      /\ (forall f,
             In f located
             <-> exists i,
                 row_at recent i f
                 /\ row_kept form_types (truthy_opt start_date || truthy_opt end_date)
                             start_dt end_dt f = true)
      /\ (forall i f e,
             row_at recent i f ->
             form_matches form_types (form f) = true ->
             strptime (filing_date f) = Raise e ->
             (In f located <-> truthy_opt start_date || truthy_opt end_date = false)).
Proof.
  intros form_types start_date end_date recent located H.
  unfold locate_filings, bind in H.
  destruct (parse_bound start_date) as [start_dt|] eqn:Hs; [|discriminate].
  destruct (parse_bound end_date) as [end_dt|] eqn:He; [|discriminate].
  exists start_dt, end_dt. split; [reflexivity|]. split; [reflexivity|].
  set (hdf := truthy_opt start_date || truthy_opt end_date) in *.
  assert (Hiff : forall f,
             In f located
             <-> exists i, row_at recent i f
                           /\ row_kept form_types hdf start_dt end_dt f = true).
  { intro f. split.
    - intro Hin.
      destruct (parse_recent_provenance _ _ _ _ _ _ _ _ H f Hin) as (j & _ & Hr).
      exists j. split; [exact Hr|]. exact (parse_recent_sound _ _ _ _ _ _ _ _ H f Hin).
    - intros (i & Hr & Hk).
      apply (parse_recent_complete _ _ _ _ _ _ _ _ H i f); [|exact Hr|exact Hk].
      split; [lia|]. cbn. apply nth_error_Some. destruct Hr as (R1 & _).
      rewrite R1. discriminate. }
  split; [exact Hiff|].
  intros i f e Hr Hform Hbad. rewrite Hiff.
  assert (Hk : row_kept form_types hdf start_dt end_dt f = negb hdf).
  { unfold row_kept, date_kept. rewrite Hform, Hbad. cbn [andb].
    destruct hdf; reflexivity. }
  split.
  - intros (j & _ & K). rewrite Hk in K. destruct hdf; [discriminate|reflexivity].
  - intro K. exists i. split; [exact Hr|]. rewrite Hk, K. reflexivity.
Qed.

(** The row dated 2024-13-45: left out under a start date, located
    without bounds. *)
Lemma located_filings_are_the_kept_rows_witness :
  (exists located,
      locate_filings ["10-K"] (Some "2024-01-01") None index_odd_date = Ok located
      /\ ~ In filing_odd_date located)
  /\ (exists located,
         locate_filings ["10-K"] None None index_odd_date = Ok located
         /\ In filing_odd_date located).
Proof.
  assert (Hrow : row_at index_odd_date 0 filing_odd_date) by (repeat split).
  assert (Hbad : strptime (filing_date filing_odd_date) = Raise ValueError)
    by (vm_compute; reflexivity).
  split.
  - eexists. split; [vm_compute; reflexivity|].
    destruct (located_filings_are_the_kept_rows
                ["10-K"] (Some "2024-01-01") None index_odd_date _ eq_refl)
      as (sdt & edt & _ & _ & _ & Hodd).
    intro Hin. apply (Hodd 0 filing_odd_date ValueError Hrow eq_refl Hbad) in Hin.
    discriminate.
  - eexists. split; [vm_compute; reflexivity|].
    destruct (located_filings_are_the_kept_rows
                ["10-K"] None None index_odd_date _ eq_refl)
      as (sdt & edt & _ & _ & _ & Hodd).
    apply (Hodd 0 filing_odd_date ValueError Hrow eq_refl Hbad). reflexivity.
Defined.

(* ================================================================== *)
(** * The fact extractors: what their results always satisfy *)
(* ================================================================== *)

Lemma membership_band_pos_finite :
  forall v, membership_in_band v = true -> pos_finite v.
Proof.
  intros v H. unfold membership_in_band in H. apply andb_prop in H as [H1 H2].
  let low := eval vm_compute in (PyFloat.of_Z 50) in
    change (PyFloat.of_Z 50) with low in H1.
  let top := eval vm_compute in (PyFloat.of_Z 500) in
    change (PyFloat.of_Z 500) with top in H2.
  destruct v as [s|s| |s m e].
  - cbn in H1. discriminate.
  - destruct s; cbn in H1, H2; discriminate.
  - cbn in H1. discriminate.
  - destruct s; [cbn in H1; discriminate|exact I].
Qed.

Lemma extract_membership_shape :
  forall text m,
    extract_membership text = Ok m ->
    memberships_millions m = None
    \/ exists raw,
        memberships_millions m
        = Some (sorted (fun a b => PyFloat.leb b a)
                       (distinct PyFloat.eqb [] (filter membership_in_band raw))).
Proof.
  intros text m H. unfold extract_membership, bind in H.
  repeat match type of H with
         | match ?x with _ => _ end = _ => destruct x; try discriminate
         end;
    injection H as <-; cbn [memberships_millions];
    match goal with
    | |- context [match ?o with Some _ => _ | None => _ end] => destruct o
    end;
    first [left; reflexivity | right; eexists; reflexivity].
Qed.

(** X12. The membership counts the extractor returns are in strictly
    descending order, hence without repetition, and every one lies in the
    band from 50 to 500 million. *)
Theorem membership_counts_descend_within_band :
  forall text fd m l,
    extract_financial_data text = Ok fd ->
    dict_get "membership_data" fd = Some (MetricMembership m) ->
    memberships_millions m = Some l ->
    Sorted float_gt l /\ forall v, In v l -> membership_in_band v = true.
Proof.
  intros text fd m l H Hget Hl.
  unfold extract_financial_data, bind in H.
  destruct (extract_pretax_margin_data text) as [pretax|]; [|discriminate].
  destruct (extract_membership text) as [membership|] eqn:Hm; [|discriminate].
  injection H as <-. rewrite dict_get_set_same in Hget. injection Hget as <-.
  destruct (extract_membership_shape text membership Hm) as [K|[raw K]];
    rewrite K in Hl; [discriminate|]. injection Hl as <-.
  assert (HP : Forall pos_finite (filter membership_in_band raw)).
  { apply Forall_forall. intros v Hv. apply filter_In in Hv as [_ Hv].
    apply membership_band_pos_finite. exact Hv. }
  destruct (sorted_distinct_spec PyFloat.float PyFloat.eqb
              (fun a b => PyFloat.leb b a) (fun a b => PyFloat.ltb b a)
              pos_finite float_eqb_true float_eqb_refl
              (fun a b Pa Pb => float_leb_total b a Pb Pa)
              (fun a b Pa Pb Hle Hne =>
                 float_leb_ltb b a Pb Pa Hle (fun E => Hne (eq_sym E)))
              (filter membership_in_band raw) HP) as [Hs Hin].
  split; [exact Hs|].
  intros v Hv. apply Hin in Hv. apply filter_In in Hv as [_ Hv]. exact Hv.
Qed.

(** The counts of a text that mentions 280.6 and 301.6 million. *)
Lemma membership_counts_descend_within_band_witness :
  exists fd,
    extract_financial_data membership_text = Ok fd
    /\ dict_get "membership_data" fd
       = Some (MetricMembership (MembershipData (Some [flt "301.6"; flt "280.6"])))
    /\ Sorted float_gt [flt "301.6"; flt "280.6"].
Proof.
  assert (H : exists fd,
             extract_financial_data membership_text = Ok fd
             /\ dict_get "membership_data" fd
                = Some (MetricMembership
                          (MembershipData (Some [flt "301.6"; flt "280.6"]))))
    by (eexists; split; vm_compute; reflexivity).
  destruct H as (fd & H1 & H2). exists fd. split; [exact H1|]. split; [exact H2|].
  apply (membership_counts_descend_within_band membership_text fd _ _ H1 H2 eq_refl).
Defined.

Lemma NoDup_firstn : forall (A : Type) (n : nat) (l : list A), NoDup l -> NoDup (firstn n l).
Proof.
  intros A. induction n as [|n IH]; intros [|x l] H; cbn [firstn]; try constructor.
  - inversion H as [|? ? Hx Hl]; subst. intro K. apply Hx.
    exact (firstn_incl A n l x K).
  - inversion H; subst. apply IH. assumption.
Qed.

Lemma length_firstn_le : forall (A : Type) (n : nat) (l : list A),
    List.length (firstn n l) <= n.
Proof.
  intros A. induction n as [|n IH]; intros [|x l]; cbn [firstn List.length]; try lia.
  specialize (IH l). lia.
Qed.

Lemma string_distinct_NoDup :
  forall l seen, NoDup (distinct String.eqb seen l).
Proof.
  intros l seen.
  apply (distinct_NoDup string String.eqb (fun _ => True)).
  - intros a b _ H. apply String.eqb_eq. exact H.
  - intros a _. apply String.eqb_refl.
  - apply Forall_forall. intros; exact I.
  - apply Forall_forall. intros; exact I.
Qed.

(** X13. The nominee list holds at most fifteen names, none twice, and
    every name passed the validation: two to four words, no stopword
    inside, every word of more than one character capitalized, and not one
    of the four known false positives. *)
Theorem nominees_are_validated_and_distinct :
  forall text,
    let names := extract_board_nominees text in
    List.length names <= 15
    /\ NoDup names
    /\ forall name,
        In name names ->
        2 <= List.length (PyStr.split_ws name) <= 4
        /\ has_stopword name = false
        /\ forallb starts_upper
                   (filter (fun w => 1 <? PyStr.len w) (PyStr.split_ws name)) = true
        /\ ~ In name ["The Board"; "Board Of"; "Our Board"; "The Company"].
Proof.
  intros text names. subst names. unfold extract_board_nominees.
  split; [apply length_firstn_le|]. split; [apply NoDup_firstn, string_distinct_NoDup|].
  intros name H. apply firstn_incl, distinct_incl, filter_In in H. destruct H as [_ H].
  unfold valid_name in H.
  apply andb_prop in H as [H Hfp]. apply andb_prop in H as [H Hup].
  apply andb_prop in H as [H Hstop]. apply andb_prop in H as [Hlo Hhi].
  apply Nat.leb_le in Hlo, Hhi.
  split; [split; assumption|].
  split; [destruct (has_stopword name); [discriminate|reflexivity]|].
  split; [exact Hup|].
  intro Hin. apply negb_true_iff in Hfp. unfold mem in Hfp.
  assert (K : existsb (String.eqb name)
                      ["The Board"; "Board Of"; "Our Board"; "The Company"] = true).
  { apply existsb_exists. exists name. split; [exact Hin|apply String.eqb_refl]. }
  rewrite K in Hfp. discriminate.
Qed.

(* ================================================================== *)
(** * The margin comparator: result shapes and search scope *)
(* ================================================================== *)

Lemma mapM_length :
  forall (A B : Type) (f : A -> result B) xs ys,
    mapM f xs = Ok ys -> List.length ys = List.length xs.
Proof.
  intros A B f. induction xs as [|x xs IH]; intros ys H.
  - injection H as <-. reflexivity.
  - cbn [mapM] in H. unfold bind in H.
    destruct (f x) as [y|]; [|discriminate].
    destruct (mapM f xs) as [ys'|]; [|discriminate].
    injection H as <-. cbn. rewrite (IH ys' eq_refl). reflexivity.
Qed.

Lemma firstn_cons_length :
  forall (A : Type) (n : nat) (x : A) (l : list A),
    1 <= List.length (firstn (S n) (x :: l)) <= S n.
Proof.
  intros A n x l. split; [cbn; lia|apply length_firstn_le].
Qed.

(** X14. A result of the margin comparator has one of five shapes: empty;
    a verdict with its difference and guidance bound, at confidence
    "high"; a verdict alone, at confidence "medium"; one to three margin
    values, or one to four quarterly values, at confidence "low". The
    verdict is "beat" or "miss". *)
Theorem pretax_result_has_one_of_five_shapes :
  forall text d,
    extract_pretax_margin_data text = Ok d ->
    d = pretax_empty
    \/ (exists actual verdict bps guidance source,
           d = PretaxData (Some actual) (Some verdict) (Some bps) (Some guidance)
                          None None (Some "high") (Some source)
           /\ (verdict = "beat" \/ verdict = "miss")
           /\ (source = "tjx_style_above_below_plan" \/ source = "explicit_difference"))
    \/ (exists actual verdict,
           d = PretaxData (Some actual) (Some verdict) None None
                          None None (Some "medium") (Some "tjx_style_above_below_plan")
           /\ (verdict = "beat" \/ verdict = "miss"))
    \/ (exists values,
           d = PretaxData None None None None (Some values) None
                          (Some "low") (Some "simple_extraction")
           /\ 1 <= List.length values <= 3)
    \/ (exists values,
           d = PretaxData None None None None None (Some values)
                          (Some "low") (Some "quarterly_mentions")
           /\ 1 <= List.length values <= 4).
Proof.
  intros text d H. unfold extract_pretax_margin_data, bind in H.
  assert (Hv : forall direction : string,
             (if String.eqb direction "above" then "beat" else "miss") = "beat"
             \/ (if String.eqb direction "above" then "beat" else "miss") = "miss")
    by (intro direction; destruct (String.eqb direction "above"); [left|right]; reflexivity).
  destruct (Re.search PRETAX_PATTERNS_FINAL.tjx_style (limit_scope text)) as [m|].
  - destruct (Re.group_str TypeError m 1) as [g1|]; [|discriminate].
    destruct (PyFloat.of_string g1) as [actual|]; [|discriminate].
    destruct (Re.group_str AttributeError m 2) as [g2|]; [|discriminate].
    destruct (Re.search diff_pattern (nearby m (limit_scope text))) as [dm|].
    + destruct (Re.group_str TypeError dm 1) as [d1|]; [|discriminate].
      destruct (PyFloat.of_string d1) as [diff|]; [|discriminate].
      destruct (PyFloat.to_int (PyFloat.mul diff hundred)) as [bps|]; [|discriminate].
      injection H as <-. right. left.
      do 5 eexists. split; [reflexivity|]. split; [apply Hv|left; reflexivity].
    + injection H as <-. right. right. left.
      do 2 eexists. split; [reflexivity|apply Hv].
  - destruct (Re.search PRETAX_PATTERNS_FINAL.explicit_diff (limit_scope text)) as [m|].
    + destruct (Re.group_str TypeError m 1) as [g1|]; [|discriminate].
      destruct (PyFloat.of_string g1) as [actual|]; [|discriminate].
      destruct (Re.group_str AttributeError m 2) as [g2|]; [|discriminate].
      destruct (Re.group_str TypeError m 3) as [g3|]; [|discriminate].
      destruct (PyFloat.of_string g3) as [diff|]; [|discriminate].
      destruct (PyFloat.to_int (PyFloat.mul diff hundred)) as [bps|]; [|discriminate].
      injection H as <-. right. left.
      do 5 eexists. split; [reflexivity|]. split; [apply Hv|right; reflexivity].
    + destruct (Re.findall PRETAX_PATTERNS_FINAL.simple (limit_scope text)) as [|x xs].
      * destruct (Re.findall PRETAX_PATTERNS_FINAL.quarterly (limit_scope text)) as [|y ys].
        -- injection H as <-. left. reflexivity.
        -- destruct (mapM PyFloat.of_string (firstn 4 (y :: ys))) as [values|] eqn:Hm;
             [|discriminate].
           injection H as <-. do 4 right. exists values. split; [reflexivity|].
           rewrite (mapM_length _ _ _ _ _ Hm). apply firstn_cons_length.
      * destruct (mapM PyFloat.of_string (firstn 3 (x :: xs))) as [values|] eqn:Hm;
          [|discriminate].
        injection H as <-. do 3 right. left. exists values. split; [reflexivity|].
        rewrite (mapM_length _ _ _ _ _ Hm). apply firstn_cons_length.
Qed.

(** The shape of the result on the sentence of the margin example; a
    sentence with the margin alone gives the one value at confidence
    "low". *)
Lemma pretax_result_has_one_of_five_shapes_witness :
  extract_pretax_margin_data "Our pretax profit margin of 11.5% was flat."
  = Ok (PretaxData None None None None (Some [flt "11.5"]) None
                   (Some "low") (Some "simple_extraction"))
  /\ exists d,
    extract_pretax_margin_data tjx_text = Ok d
    /\ pretax_confidence d = Some "high"
    /\ (d = pretax_empty
        \/ (exists actual verdict bps guidance source,
               d = PretaxData (Some actual) (Some verdict) (Some bps) (Some guidance)
                              None None (Some "high") (Some source)
               /\ (verdict = "beat" \/ verdict = "miss")
               /\ (source = "tjx_style_above_below_plan"
                   \/ source = "explicit_difference"))
        \/ (exists actual verdict,
               d = PretaxData (Some actual) (Some verdict) None None
                              None None (Some "medium")
                              (Some "tjx_style_above_below_plan")
               /\ (verdict = "beat" \/ verdict = "miss"))
        \/ (exists values,
               d = PretaxData None None None None (Some values) None
                              (Some "low") (Some "simple_extraction")
               /\ 1 <= List.length values <= 3)
        \/ (exists values,
               d = PretaxData None None None None None (Some values)
                              (Some "low") (Some "quarterly_mentions")
               /\ 1 <= List.length values <= 4)).
Proof.
  assert (H : extract_pretax_margin_data tjx_text
              = Ok (comparison (flt "12.3") "beat" 30 (flt "12.0")
                               "tjx_style_above_below_plan"))
    by (vm_compute; reflexivity).
  split; [vm_compute; reflexivity|].
  eexists. split; [exact H|]. split; [reflexivity|].
  exact (pretax_result_has_one_of_five_shapes tjx_text _ H).
Defined.

Lemma take_N_idem :
  forall (n : N) (text : string),
    PyStr.take_N n (PyStr.take_N n text) = PyStr.take_N n text.
Proof.
  intros n text. unfold PyStr.take_N, PyStr.take. rewrite chars_str.
  rewrite firstn_firstn, Nat.min_id. reflexivity.
Qed.

(** X15. The margin comparator reads the first 100,000 characters of a
    text and nothing after them: cutting the text there leaves the result
    as it is. *)
Theorem pretax_search_scope_is_a_prefix :
  forall text,
    extract_pretax_margin_data (PyStr.take_N 100000 text)
    = extract_pretax_margin_data text.
Proof.
  intro text.
  assert (E : limit_scope (PyStr.take_N 100000 text) = limit_scope text).
  { unfold limit_scope. rewrite !scope_is_prefix. apply take_N_idem. }
  unfold extract_pretax_margin_data. rewrite E. reflexivity.
Qed.

(* ================================================================== *)
(** * The metric lists of the financial extractor *)
(* ================================================================== *)

Lemma dict_set_In :
  forall (V : Type) k (v : V) k' v' d,
    In (k, v) (dict_set k' v' d) -> (k = k' /\ v = v') \/ In (k, v) d.
Proof.
  intros V k v k' v'. induction d as [|[k0 v0] d IH]; cbn [dict_set]; intro H.
  - destruct H as [H|[]]. injection H as <- <-. left. split; reflexivity.
  - destruct (String.eqb k0 k').
    + destruct H as [H|H]; [injection H as <- <-; left; split; reflexivity|].
      right. right. exact H.
    + destruct H as [H|H]; [right; left; exact H|].
      destruct (IH H) as [L|R]; [left; exact L|right; right; exact R].
Qed.

Lemma distinct_length_le :
  forall (A : Type) (eqb : A -> A -> bool) (l seen : list A),
    List.length (distinct eqb seen l) <= List.length l.
Proof.
  intros A eqb. induction l as [|x l IH]; intro seen; cbn [distinct List.length]; [lia|].
  destruct (mem eqb x seen); [specialize (IH seen)|specialize (IH (x :: seen))];
    cbn [List.length]; lia.
Qed.

Lemma normalize_value_unwrapped :
  forall m,
    PyStr.startswith (normalize_value m) "(" && PyStr.endswith (normalize_value m) ")"
    = false.
Proof.
  intro m. unfold normalize_value.
  destruct (PyStr.startswith (PyStr.strip m) "(" && PyStr.endswith (PyStr.strip m) ")")
    eqn:E; [reflexivity|exact E].
Qed.

Lemma clean_matches_facts :
  forall matches,
    List.length (clean_matches matches) <= 10
    /\ NoDup (clean_matches matches)
    /\ forall v, In v (clean_matches matches) ->
                 PyStr.startswith v "(" && PyStr.endswith v ")" = false.
Proof.
  intro matches. unfold clean_matches. split; [|split].
  - etransitivity; [apply distinct_length_le|].
    rewrite length_map. apply length_firstn_le.
  - apply string_distinct_NoDup.
  - intros v H. apply distinct_incl, in_map_iff in H. destruct H as (m & <- & _).
    apply normalize_value_unwrapped.
Qed.

(** X16. Every list of values the financial extractor files under a
    metric name belongs to a metric of its table, holds between one and
    ten values, holds none twice, and holds no value still wrapped in
    parentheses: an amount written "(123)" is reported as "-123". *)
Theorem metric_lists_are_short_and_distinct :
  forall text fd k values,
    extract_financial_data text = Ok fd ->
    In (k, MetricValues values) fd ->
    In k (map fst metrics)
    /\ 1 <= List.length values <= 10
    /\ NoDup values
    /\ forall v, In v values ->
                 PyStr.startswith v "(" && PyStr.endswith v ")" = false.
Proof.
  intros text fd k values H Hin.
  unfold extract_financial_data, bind in H.
  destruct (extract_pretax_margin_data text) as [pretax|]; [|discriminate].
  destruct (extract_membership text) as [membership|]; [|discriminate].
  injection H as <-.
  apply dict_set_In in Hin. destruct Hin as [[_ K]|Hin]; [discriminate|].
  apply dict_set_In in Hin. destruct Hin as [[_ K]|Hin]; [discriminate|].
  assert (Hbase : In (k, MetricValues values) (flat_map (extract_metric text) metrics)).
  { destruct (pretax_nonempty pretax); [|exact Hin].
    apply dict_set_In in Hin. destruct Hin as [[_ K]|Hin]; [discriminate|exact Hin]. }
  apply in_flat_map in Hbase. destruct Hbase as ([name pattern] & Hm & He).
  unfold extract_metric in He.
  destruct (Re.findall (Re.compile pattern Re.I) text) as [|x xs]; [destruct He|].
  destruct (clean_matches_facts (x :: xs)) as (Hlen & Hnd & Hun).
  destruct (clean_matches (x :: xs)) as [|c cs] eqn:Hc; [destruct He|].
  destruct He as [He|[]]. injection He as <- <-.
  split; [apply in_map_iff; exists (name, pattern); split; [reflexivity|exact Hm]|].
  split; [split; [cbn; lia|exact Hlen]|]. split; assumption.
Qed.

(** The revenue list of a text that gives one amount in parentheses,
    twice, and one plain amount. *)
Lemma metric_lists_are_short_and_distinct_witness :
  exists fd,
    extract_financial_data "Total revenues (1,234) Total revenues (1,234) Total revenues 5,678"
    = Ok fd
    /\ In ("total_revenue", MetricValues ["-1,234"; "5,678"]) fd
    /\ NoDup ["-1,234"; "5,678"].
Proof.
  assert (H : exists fd,
             extract_financial_data
               "Total revenues (1,234) Total revenues (1,234) Total revenues 5,678"
             = Ok fd
             /\ In ("total_revenue", MetricValues ["-1,234"; "5,678"]) fd)
    by (eexists; split; [vm_compute; reflexivity|left; reflexivity]).
  destruct H as (fd & H1 & H2). exists fd. split; [exact H1|]. split; [exact H2|].
  apply (metric_lists_are_short_and_distinct _ fd _ _ H1 H2).
Defined.

(* ================================================================== *)
(** * The guidance extractor: result shapes and list bounds *)
(* ================================================================== *)

Lemma collect_length :
  forall (A B : Type) (handled : exn -> bool) (f : A -> result B) l ys,
    collect handled f l = Ok ys -> List.length ys <= List.length l.
Proof.
  intros A B handled f. induction l as [|x l IH]; intros ys H.
  - injection H as <-. cbn. lia.
  - cbn [collect] in H. unfold bind in H. destruct (f x) as [y|e].
    + destruct (collect handled f l) as [ys'|]; [|discriminate].
      injection H as <-. specialize (IH ys' eq_refl). cbn. lia.
    + destruct (handled e); [|discriminate]. specialize (IH ys H). cbn. lia.
Qed.

Lemma range_entries_length :
  forall (B : Type) handled (entry : list string -> result B) p1 p2 text l,
    range_entries handled entry p1 p2 text = Ok (Some l) -> List.length l <= 3.
Proof.
  intros B handled entry p1 p2 text l H. unfold range_entries, bind in H.
  assert (K : forall matches ys,
             collect handled entry (firstn 3 matches) = Ok ys -> List.length ys <= 3).
  { intros matches ys Hc. apply collect_length in Hc.
    pose proof (length_firstn_le _ 3 matches). lia. }
  destruct (matches_of p1 text) as [matches|].
  - destruct (collect handled entry (firstn 3 matches)) as [ys|] eqn:Hc; [|discriminate].
    injection H as <-. exact (K _ _ Hc).
  - destruct p2 as [p|]; [|discriminate].
    destruct (matches_of p text) as [matches|]; [|discriminate].
    destruct (collect handled entry (firstn 3 matches)) as [ys|] eqn:Hc; [|discriminate].
    injection H as <-. exact (K _ _ Hc).
Qed.

Lemma string_leb_ltb :
  forall a b : string, String.leb a b = true -> a <> b -> String.ltb a b = true.
Proof.
  intros a b H Hne. unfold String.leb in H. unfold String.ltb.
  destruct (String.compare a b) eqn:E; [|reflexivity|discriminate].
  exfalso. apply Hne. apply String.compare_eq_iff. exact E.
Qed.

Lemma period_list_facts :
  forall x found,
    let l := firstn 5 (sorted String.leb (distinct String.eqb [] (x :: found))) in
    1 <= List.length l <= 5 /\ Sorted string_lt l.
Proof.
  intros x found l. subst l.
  set (d := distinct String.eqb [] (x :: found)).
  assert (Hd : 1 <= List.length (sorted String.leb d)).
  { rewrite <- (Permutation_length (sorted_perm string String.leb d)).
    subst d. cbn. lia. }
  split.
  - split; [|apply length_firstn_le].
    destruct (sorted String.leb d) as [|y ys]; [cbn in Hd; lia|cbn; lia].
  - apply Sorted_firstn.
    assert (HP : Forall (fun _ : string => True) d) by (apply Forall_forall; intros; exact I).
    apply (Sorted_strict string String.leb String.ltb (fun _ => True)).
    + intros a b _ _. apply string_leb_ltb.
    + apply Forall_forall. intros; exact I.
    + apply (Permutation_NoDup (sorted_perm string String.leb d)).
      apply string_distinct_NoDup.
    + apply (sorted_Sorted string String.leb (fun _ => True)); [|exact HP].
      intros a b _ _ H. destruct (String.leb_total a b) as [K|K]; [|exact K].
      rewrite K in H. discriminate.
Qed.

(** X17. A result of the guidance extractor has one of four shapes:
    empty; one or more range keys, at confidence "high"; period mentions
    alone, at confidence "low"; or one to five unstructured values, at
    confidence "very_low" and with nothing else. A range list holds at
    most three entries; the period list holds one to five periods in
    strictly ascending order. *)
Theorem guidance_result_is_classified :
  forall text g,
    extract_guidance_data text = Ok g ->
    (forall l, revenue_range g = Some l -> List.length l <= 3)
    /\ (forall l, margin_range g = Some l -> List.length l <= 3)
    /\ (forall l, eps_range g = Some l -> List.length l <= 3)
    /\ (forall l, periods g = Some l -> 1 <= List.length l <= 5 /\ Sorted string_lt l)
    /\ (g = guidance_empty
        \/ (has_range g = true
            /\ guidance_values g = None
            /\ guidance_confidence g = Some "high"
            /\ guidance_source g = Some "structured_guidance")
        \/ (has_range g = false
            /\ is_some (periods g) = true
            /\ guidance_values g = None
            /\ guidance_confidence g = Some "low"
            /\ guidance_source g = Some "period_mentions_only")
        \/ (exists values,
               g = GuidanceData None None None None (Some values)
                                (Some "very_low") (Some "unstructured_mentions")
               /\ 1 <= List.length values <= 5)).
Proof.
  intros text g H. unfold extract_guidance_data, bind in H.
  destruct (range_entries value_error revenue_entry rev_pattern1 (Some rev_pattern2) text)
    as [revenue|] eqn:Hrev; [|discriminate].
  destruct (range_entries value_error margin_entry margin_pattern1 (Some margin_pattern2)
                          text) as [margin|] eqn:Hmar; [|discriminate].
  destruct (range_entries value_error eps_entry eps_pattern1 None text)
    as [eps|] eqn:Heps; [|discriminate].
  assert (Hr : forall l, revenue = Some l -> List.length l <= 3)
    by (intros l ->; exact (range_entries_length _ _ _ _ _ _ _ Hrev)).
  assert (Hm : forall l, margin = Some l -> List.length l <= 3)
    by (intros l ->; exact (range_entries_length _ _ _ _ _ _ _ Hmar)).
  assert (He : forall l, eps = Some l -> List.length l <= 3)
    by (intros l ->; exact (range_entries_length _ _ _ _ _ _ _ Heps)).
  set (period_list := match periods_found text with
                      | [] => None
                      | _ :: _ =>
                          Some (firstn 5 (sorted String.leb
                                                 (distinct String.eqb []
                                                           (periods_found text))))
                      end) in H.
  assert (Hp : forall l, period_list = Some l ->
                         1 <= List.length l <= 5 /\ Sorted string_lt l).
  { intros l K. subst period_list.
    destruct (periods_found text) as [|x found]; [discriminate|].
    injection K as <-. apply period_list_facts. }
  destruct (is_some revenue || is_some margin || is_some eps) eqn:Hany.
  - injection H as <-. cbn [revenue_range margin_range eps_range periods].
    repeat (split; [assumption|]). right. left.
    split; [exact Hany|]. repeat split.
  - destruct (is_some period_list) eqn:Hsome.
    + injection H as <-. cbn [revenue_range margin_range eps_range periods].
      split; [discriminate|]. split; [discriminate|]. split; [discriminate|].
      split; [exact Hp|]. right. right. left. repeat split. exact Hsome.
    + destruct period_list as [pl|] eqn:Hpl; [discriminate|].
      destruct (Re.findall (Re.compile fallback_pattern Re.I_S) text) as [|x xs].
      * injection H as <-. repeat (split; [discriminate|]). left. reflexivity.
      * destruct (mapM PyFloat.of_string (firstn 5 (x :: xs))) as [values|] eqn:Hv;
          [|discriminate].
        injection H as <-. repeat (split; [discriminate|]). do 3 right.
        exists values. split; [reflexivity|].
        rewrite (mapM_length _ _ _ _ _ Hv). apply firstn_cons_length.
Qed.

(** The limits at the sentence of the guidance example, and the period
    list of a sentence that names three periods, one of them twice. *)
Lemma guidance_result_is_classified_witness :
  (exists g,
      extract_guidance_data guidance_text = Ok g
      /\ forall l, revenue_range g = Some l -> List.length l <= 3)
  /\ extract_guidance_data "Results for Q4 2024, fiscal 2025 and FY2023, after Q4 2024."
     = Ok (GuidanceData None None None (Some ["2023"; "2025"; "Q4 2024"]) None
                        (Some "low") (Some "period_mentions_only")).
Proof.
  split; [|vm_compute; reflexivity].
  assert (H : exists g, extract_guidance_data guidance_text = Ok g)
    by (eexists; vm_compute; reflexivity).
  destruct H as [g H]. exists g. split; [exact H|].
  destruct (guidance_result_is_classified guidance_text g H) as (Hr & _). exact Hr.
Defined.

(* ================================================================== *)
(** * The section extractor: keys, length and white space *)
(* ================================================================== *)

Lemma lstrip_length : forall l, List.length (PyStr.lstrip_chars l) <= List.length l.
Proof.
  induction l as [|a l IH]; cbn [PyStr.lstrip_chars]; [lia|].
  destruct (PyStr.is_space a); cbn [List.length]; lia.
Qed.

Lemma rstrip_length : forall l, List.length (PyStr.rstrip_chars l) <= List.length l.
Proof.
  intro l. unfold PyStr.rstrip_chars. rewrite length_rev.
  etransitivity; [apply lstrip_length|]. rewrite length_rev. lia.
Qed.

Lemma strip_length : forall s, PyStr.len (PyStr.strip s) <= PyStr.len s.
Proof.
  intro s. unfold PyStr.strip. rewrite len_str.
  etransitivity; [apply rstrip_length|].
  etransitivity; [apply lstrip_length|].
  unfold PyStr.len. rewrite chars_length. lia.
Qed.

Lemma lstrip_idem :
  forall l, PyStr.lstrip_chars (PyStr.lstrip_chars l) = PyStr.lstrip_chars l.
Proof.
  induction l as [|a l IH]; [reflexivity|]. cbn [PyStr.lstrip_chars].
  destruct (PyStr.is_space a) eqn:E; [exact IH|].
  cbn [PyStr.lstrip_chars]. rewrite E. reflexivity.
Qed.

Lemma lstrip_app :
  forall x y,
    PyStr.lstrip_chars (x ++ y)
    = match PyStr.lstrip_chars x with
      | [] => PyStr.lstrip_chars y
      | z => z ++ y
      end.
Proof.
  induction x as [|a x IH]; intro y; [reflexivity|].
  cbn [app PyStr.lstrip_chars]. destruct (PyStr.is_space a); [apply IH|reflexivity].
Qed.

Lemma rstrip_cons :
  forall a l,
    PyStr.rstrip_chars (a :: l)
    = match PyStr.rstrip_chars l with
      | [] => if PyStr.is_space a then [] else [a]
      | x => a :: x
      end.
Proof.
  intros a l. unfold PyStr.rstrip_chars. cbn [rev]. rewrite lstrip_app.
  destruct (PyStr.lstrip_chars (rev l)) as [|z zs] eqn:E.
  - cbn [rev PyStr.lstrip_chars]. destruct (PyStr.is_space a); reflexivity.
  - rewrite rev_app_distr. cbn [rev app].
    destruct (rev zs ++ [z]) as [|w ws] eqn:K; [|reflexivity].
    destruct (rev zs); discriminate.
Qed.

Lemma lstrip_rstrip_comm :
  forall l,
    PyStr.lstrip_chars (PyStr.rstrip_chars l) = PyStr.rstrip_chars (PyStr.lstrip_chars l).
Proof.
  induction l as [|a l IH]; [reflexivity|].
  rewrite rstrip_cons. cbn [PyStr.lstrip_chars].
  destruct (PyStr.rstrip_chars l) as [|x xs] eqn:E.
  - destruct (PyStr.is_space a) eqn:Sa.
    + rewrite <- IH. reflexivity.
    + cbn [PyStr.lstrip_chars]. rewrite Sa, rstrip_cons, E, Sa. reflexivity.
  - cbn [PyStr.lstrip_chars]. destruct (PyStr.is_space a) eqn:Sa.
    + rewrite <- IH. reflexivity.
    + rewrite rstrip_cons, E. reflexivity.
Qed.

Lemma rstrip_idem :
  forall l, PyStr.rstrip_chars (PyStr.rstrip_chars l) = PyStr.rstrip_chars l.
Proof.
  intro l. unfold PyStr.rstrip_chars. rewrite rev_involutive, lstrip_idem. reflexivity.
Qed.

Lemma strip_idem : forall s, PyStr.strip (PyStr.strip s) = PyStr.strip s.
Proof.
  intro s. unfold PyStr.strip. rewrite chars_str.
  rewrite lstrip_rstrip_comm, lstrip_idem, rstrip_idem. reflexivity.
Qed.

Lemma subseq_In :
  forall (A : Type) (l1 l2 : list A), subseq l1 l2 -> forall x, In x l1 -> In x l2.
Proof.
  intros A l1 l2 H. induction H as [|y l1 l2 H IH|y l1 l2 H IH]; intros x Hx.
  - exact Hx.
  - right. exact (IH x Hx).
  - destruct Hx as [<-|Hx]; [left; reflexivity|right; exact (IH x Hx)].
Qed.

Lemma subseq_NoDup :
  forall (A : Type) (l1 l2 : list A), subseq l1 l2 -> NoDup l2 -> NoDup l1.
Proof.
  intros A l1 l2 H. induction H as [|y l1 l2 H IH|y l1 l2 H IH]; intro Hn.
  - exact Hn.
  - inversion Hn; subst. apply IH. assumption.
  - inversion Hn as [|? ? Hy Hl]; subst. constructor; [|apply IH; exact Hl].
    intro K. apply Hy. exact (subseq_In _ _ _ H y K).
Qed.

Lemma extract_section_shape :
  forall text name pattern,
    extract_section text (name, pattern) = []
    \/ exists c, extract_section text (name, pattern)
                 = [(name, PyStr.strip (PyStr.take_N 12000 c))].
Proof.
  intros text name pattern. unfold extract_section.
  destruct (Re.search (Re.compile pattern Re.I_S) text) as [m|]; [|left; reflexivity].
  destruct (if Re.no_group_matched m then Some (Re.group0 m) else Re.group m 1) as [c|];
    [right; exists c; reflexivity|left; reflexivity].
Qed.

Lemma sections_keys_subseq :
  forall text table,
    subseq (dict_keys (flat_map (extract_section text) table)) (map fst table).
Proof.
  intros text. induction table as [|[name pattern] table IH]; [constructor|].
  cbn [flat_map map fst]. unfold dict_keys in *. rewrite map_app.
  destruct (extract_section_shape text name pattern) as [E|[c E]]; rewrite E; cbn [map app fst].
  - constructor. exact IH.
  - apply (subseq_keep name). exact IH.
Qed.

Lemma section_tables_NoDup : forall form, NoDup (map fst (section_patterns form)).
Proof.
  intro form. unfold section_patterns.
  destruct (PyStr.contains "8-K" (PyStr.upper form));
    [|destruct (PyStr.contains "DEF 14A" (PyStr.upper form)
               || PyStr.contains "DEFA14A" (PyStr.upper form))];
    cbn [map fst patterns_8k patterns_proxy patterns_periodic];
    repeat (constructor;
            [cbn [In]; intro H;
             repeat (destruct H as [H|H]; [discriminate H|]); exact H|]);
    constructor.
Qed.

(** X18. The sections extracted from a filing are named after patterns of
    the table of its form type, in the order of the table and each name at
    most once; a section text has at most 12,000 characters and no white
    space at either end. *)
Theorem sections_follow_the_form_table :
  forall text form keywords,
    let sections := extract_all_sections text form keywords in
    subseq (dict_keys sections) (map fst (section_patterns form))
    /\ NoDup (dict_keys sections)
    /\ forall name content,
        In (name, content) sections ->
        (N.of_nat (PyStr.len content) <= 12000)%N
        /\ PyStr.strip content = content.
Proof.
  intros text form keywords sections. subst sections. unfold extract_all_sections.
  pose proof (sections_keys_subseq text (section_patterns form)) as Hs.
  split; [exact Hs|].
  split; [exact (subseq_NoDup _ _ _ Hs (section_tables_NoDup form))|].
  intros name content H. apply in_flat_map in H. destruct H as ([n p] & _ & H).
  destruct (extract_section_shape text n p) as [E|[c E]]; rewrite E in H; [destruct H|].
  destruct H as [H|[]]. injection H as <- <-. split; [|apply strip_idem].
  pose proof (strip_length (PyStr.take_N 12000 c)) as H1.
  assert (H2 : PyStr.len (PyStr.take_N 12000 c) <= N.to_nat 12000).
  { unfold PyStr.take_N, PyStr.take. rewrite len_str. apply length_firstn_le. }
  lia.
Qed.

(* ================================================================== *)
(** * The cleaned text of a document *)
(* ================================================================== *)

Lemma chars_app : forall a b : string, PyStr.chars (a ++ b) = PyStr.chars a ++ PyStr.chars b.
Proof.
  induction a as [|x a IH]; intro b; [reflexivity|]. cbn. f_equal. apply IH.
Qed.

Lemma lstrip_In : forall l a, In a (PyStr.lstrip_chars l) -> In a l.
Proof.
  induction l as [|x l IH]; intros a H; [exact H|]. cbn [PyStr.lstrip_chars] in H.
  destruct (PyStr.is_space x); [right; exact (IH a H)|exact H].
Qed.

Lemma rstrip_In : forall l a, In a (PyStr.rstrip_chars l) -> In a l.
Proof.
  intros l a H. unfold PyStr.rstrip_chars in H.
  apply in_rev, lstrip_In, in_rev in H. exact H.
Qed.

Lemma strip_In : forall s a, In a (PyStr.chars (PyStr.strip s)) -> In a (PyStr.chars s).
Proof.
  intros s a H. unfold PyStr.strip in H. rewrite chars_str in H.
  apply rstrip_In, lstrip_In in H. exact H.
Qed.

(** No line of [splitlines] holds a line boundary. *)
Lemma splitlines_chars_clean :
  forall l cur after_cr,
    (forall a, In a cur -> PyStr.is_linebreak a = false) ->
    Forall (fun line => forall a, In a line -> PyStr.is_linebreak a = false)
           (PyStr.splitlines_chars cur after_cr l).
Proof.
  induction l as [|x l IH]; intros cur after_cr Hcur; cbn [PyStr.splitlines_chars].
  - destruct cur as [|c cur]; [constructor|].
    constructor; [|constructor]. intros a Ha. apply in_rev in Ha. exact (Hcur a Ha).
  - destruct (after_cr && Ascii.eqb x PyStr.LF); [apply IH; exact Hcur|].
    destruct (PyStr.is_linebreak x) eqn:E.
    + constructor; [|apply IH; intros a []].
      intros a Ha. apply in_rev in Ha. exact (Hcur a Ha).
    + apply IH. intros a [<-|Ha]; [exact E|exact (Hcur a Ha)].
Qed.

(** Reading a run of characters that holds no line boundary. *)
Lemma splitlines_chars_run :
  forall c cur after_cr rest,
    (forall a, In a c -> PyStr.is_linebreak a = false) ->
    PyStr.splitlines_chars cur after_cr (c ++ rest)
    = PyStr.splitlines_chars (rev c ++ cur)
                             (match c with [] => after_cr | _ => false end) rest.
Proof.
  induction c as [|x c IH]; intros cur after_cr rest Hc; [reflexivity|].
  cbn [app PyStr.splitlines_chars].
  assert (Hx : PyStr.is_linebreak x = false) by (apply Hc; left; reflexivity).
  assert (Hlf : Ascii.eqb x PyStr.LF = false).
  { destruct (Ascii.eqb x PyStr.LF) eqn:E; [|reflexivity].
    apply Ascii.eqb_eq in E. subst x. vm_compute in Hx. discriminate. }
  rewrite Hlf, andb_false_r, Hx.
  rewrite (IH (x :: cur) false rest) by (intros a Ha; apply Hc; right; exact Ha).
  cbn [rev]. rewrite <- app_assoc. cbn [app]. destruct c; reflexivity.
Qed.

Lemma splitlines_join :
  forall ls, Forall clean_line ls -> PyStr.splitlines (PyStr.join PyStr.nl ls) = ls.
Proof.
  unfold PyStr.splitlines.
  induction ls as [|l ls IH]; intro H; [reflexivity|].
  inversion H as [|? ? (Ht & Hl & _) Hls]; subst.
  assert (Hne : rev (PyStr.chars l) <> []).
  { destruct l as [|a l]; [discriminate|]. cbn. intro K.
    apply (f_equal (@List.length ascii)) in K. rewrite length_app in K. cbn in K. lia. }
  destruct ls as [|l2 ls].
  - cbn [PyStr.join].
    rewrite <- (app_nil_r (PyStr.chars l)), (splitlines_chars_run _ [] false [] Hl).
    rewrite app_nil_r. cbn [PyStr.splitlines_chars].
    destruct (rev (PyStr.chars l)) as [|c cs] eqn:E; [contradiction|].
    rewrite <- E, rev_involutive. cbn [map]. rewrite str_chars. reflexivity.
  - change (PyStr.join PyStr.nl (l :: l2 :: ls))
      with (l ++ PyStr.nl ++ PyStr.join PyStr.nl (l2 :: ls))%string.
    rewrite !chars_app. change (PyStr.chars PyStr.nl) with [PyStr.LF]. cbn [app].
    rewrite (splitlines_chars_run _ [] false _ Hl). rewrite app_nil_r.
    cbn [PyStr.splitlines_chars].
    replace (match PyStr.chars l with [] => false | _ :: _ => false end) with false
      by (destruct (PyStr.chars l); reflexivity).
    cbn [andb]. change (PyStr.is_linebreak PyStr.LF) with true. cbn iota.
    change (Ascii.eqb PyStr.LF PyStr.CR) with false.
    rewrite rev_involutive. cbn [map]. rewrite str_chars. f_equal.
    exact (IH Hls).
Qed.

Lemma clean_lines_lines :
  forall text,
    Forall clean_line (filter PyStr.truthy (map PyStr.strip (PyStr.splitlines text))).
Proof.
  intro text. apply Forall_forall. intros l H.
  apply filter_In in H as [H Ht]. apply in_map_iff in H as (raw & <- & Hraw).
  split; [exact Ht|]. split; [|apply strip_idem].
  intros a Ha. apply strip_In in Ha.
  unfold PyStr.splitlines in Hraw. apply in_map_iff in Hraw as (line & <- & Hline).
  rewrite chars_str in Ha.
  pose proof (splitlines_chars_clean (PyStr.chars text) [] false (fun a0 K => match K with end))
    as Hall.
  rewrite Forall_forall in Hall. exact (Hall line Hline a Ha).
Qed.

(** X19. The text the fetcher makes of a document is a list of lines,
    none of them empty, none with white space at either end; cleaning it
    again gives the same text, so a text read back from the cache is in
    the form a download gives it. *)
Theorem clean_lines_is_idempotent :
  forall text,
    (exists lines,
        clean_lines text = PyStr.join PyStr.nl lines
        /\ Forall clean_line lines
        /\ PyStr.splitlines (clean_lines text) = lines)
    /\ clean_lines (clean_lines text) = clean_lines text.
Proof.
  intro text.
  pose proof (clean_lines_lines text) as Hl.
  pose proof (splitlines_join _ Hl) as Hs.
  split.
  - exists (filter PyStr.truthy (map PyStr.strip (PyStr.splitlines text))).
    split; [reflexivity|]. split; [exact Hl|exact Hs].
  - set (ls := filter PyStr.truthy (map PyStr.strip (PyStr.splitlines text))) in *.
    assert (E : filter PyStr.truthy (map PyStr.strip ls) = ls).
    { clearbody ls. clear Hs.
      induction Hl as [|l ls (Ht & _ & Hstrip) Hls IH]; [reflexivity|].
      cbn [map filter]. rewrite Hstrip, Ht, IH. reflexivity. }
    change (clean_lines text) with (PyStr.join PyStr.nl ls).
    unfold clean_lines. rewrite Hs, E. reflexivity.
Qed.

(* ================================================================== *)
(** * Where a fetched text comes from *)
(* ================================================================== *)

Section FetcherProvenance.

Variable find_all : string -> list tag.
Variable get_text : string -> string.

Lemma download_provenance :
  forall attempts net url cik accession caching exhibit_text s,
    let r := download find_all get_text attempts net url cik accession caching
                      exhibit_text s in
    PyStr.truthy (fst (fst r)) = true ->
    exists k retry_after html,
      k < attempts
      /\ net (List.length (io_requests s) + k) url = Reply 200 retry_after html
      /\ fst (fst r) = clean_lines (get_text html).
Proof.
  induction attempts as [|attempts IH];
    intros net url cik accession caching exhibit_text s; cbn zeta.
  - cbn. discriminate.
  - cbn [download]. unfold request.
    set (s1 := IO (io_disk s) (url :: io_requests s)).
    assert (Hrec : PyStr.truthy
                     (fst (fst (download find_all get_text attempts net url cik accession
                                         caching exhibit_text s1))) = true ->
                   exists k retry_after html,
                     k < S attempts
                     /\ net (List.length (io_requests s) + k) url = Reply 200 retry_after html
                     /\ fst (fst (download find_all get_text attempts net url cik accession
                                           caching exhibit_text s1))
                        = clean_lines (get_text html)).
    { intro Ht.
      destruct (IH net url cik accession caching exhibit_text s1 Ht)
        as (k & ra & html & Hk & Hnet & Htext).
      exists (S k), ra, html. split; [lia|]. split; [|exact Htext].
      subst s1. cbn [io_requests List.length] in Hnet.
      replace (List.length (io_requests s) + S k)
        with (S (List.length (io_requests s)) + k) by lia.
      exact Hnet. }
    destruct (net (List.length (io_requests s)) url) as [| |status ra html] eqn:Hnet.
    + exact Hrec.
    + cbn. discriminate.
    + destruct (status =? 429) eqn:H429.
      * destruct (bind (retry_wait ra) _); first [exact Hrec | cbn; discriminate].
      * destruct (status =? 200) eqn:H200; cbn [negb]; [|cbn; discriminate].
        apply Nat.eqb_eq in H200. subst status. intros _.
        exists 0, ra, html. split; [lia|]. split; [rewrite Nat.add_0_r; exact Hnet|].
        unfold process_download.
        match goal with
        | |- context [match ?c with Some _ => _ | None => _ end] => destruct c as [u|]
        end; [destruct (PyStr.truthy u);
              [unfold request;
               destruct (net (List.length (io_requests s1)) u) as [| |st r b];
               [| |destruct (st =? 200)]|]|];
          reflexivity.
Qed.

End FetcherProvenance.

(** X20. A filing text that is not empty has one of two origins: the
    filing's cache file, read with disk caching on, the state being left
    as it is; or the body of a reply with status 200 to one of the first
    three requests for the filing's address, cleaned. No other reply, and
    no exhibit, ever supplies the filing text. *)
Theorem fetched_text_has_a_source :
  forall find_all get_text net url cik accession use_disk_cache cache_filename s t e s',
    fetch_filing_and_exhibit_html find_all get_text net url cik accession
                                  use_disk_cache cache_filename s = ((t, e), s') ->
    PyStr.truthy t = true ->
    (exists f,
        cache_filename = Some f /\ use_disk_cache = true
        /\ files (io_disk s) f = Some (FileText t) /\ s' = s)
    \/ (exists k retry_after html,
           k < 3
           /\ net (List.length (io_requests s) + k) url = Reply 200 retry_after html
           /\ t = clean_lines (get_text html)).
Proof.
  intros find_all get_text net url cik accession use_disk_cache cache_filename s t e s'
         H Ht.
  unfold fetch_filing_and_exhibit_html in H.
  assert (Hdown : forall caching x,
             download find_all get_text 3 net url cik accession caching x s
             = ((t, e), s') ->
             exists k retry_after html,
               k < 3
               /\ net (List.length (io_requests s) + k) url = Reply 200 retry_after html
               /\ t = clean_lines (get_text html)).
  { intros caching x K.
    pose proof (download_provenance find_all get_text 3 net url cik accession caching x s)
      as P. cbn zeta in P. rewrite K in P. exact (P Ht). }
  destruct cache_filename as [f|]; [|right; exact (Hdown _ _ H)].
  destruct (use_disk_cache && PyStr.truthy f) eqn:Hc; [|right; exact (Hdown _ _ H)].
  apply andb_prop in Hc as [Hu Hf].
  assert (Hhit : forall x,
             truthy_opt (read_cached (io_disk s) f) = true ->
             ((match read_cached (io_disk s) f with Some t0 => t0 | None => "" end, x), s)
             = ((t, e), s') ->
             exists f0,
               Some f = Some f0 /\ use_disk_cache = true
               /\ files (io_disk s) f0 = Some (FileText t) /\ s' = s).
  { intros x Hr K. exists f. unfold read_cached in *.
    destruct (files (io_disk s) f) as [[t0|]|]; try discriminate.
    injection K as <- _ <-. repeat split. exact Hu. }
  destruct (truthy_opt (read_cached (io_disk s) f)) eqn:Hr; cbn [andb] in H.
  - destruct (truthy_opt (read_cached (io_disk s) (exhibit_cache_name f)));
      cbn [negb] in H; left; exact (Hhit _ eq_refl H).
  - right. exact (Hdown _ _ H).
Qed.

(** The source of the text fetched through [slow_start]: the reply to the
    third request. *)
Lemma fetched_text_has_a_source_witness :
  exists e s',
    fetch_filing_and_exhibit_html no_tags plain_text slow_start "u" "1" "2" false None
                                  (IO empty_disk [])
    = (("Quarterly results", e), s')
    /\ exists k retry_after html,
        k < 3
        /\ slow_start (0 + k) "u" = Reply 200 retry_after html
        /\ "Quarterly results" = clean_lines (plain_text html).
Proof.
  assert (H : fetch_filing_and_exhibit_html no_tags plain_text slow_start "u" "1" "2"
                                            false None (IO empty_disk [])
              = (("Quarterly results", None), IO empty_disk ["u"; "u"; "u"]))
    by (vm_compute; reflexivity).
  do 2 eexists. split; [exact H|].
  destruct (fetched_text_has_a_source _ _ _ _ _ _ _ _ _ _ _ _ H eq_refl)
    as [(f & K & _)|K]; [discriminate|exact K].
Defined.

(* ================================================================== *)
(** * The exhibit link *)
(* ================================================================== *)

Lemma exhibit_full_url_absolute :
  forall cik accession href,
    PyStr.startswith (exhibit_full_url cik accession href) "http" = true.
Proof.
  intros cik accession href. unfold exhibit_full_url.
  destruct (PyStr.startswith href "http") eqn:E; [exact E|].
  destruct (PyStr.startswith href "/"); reflexivity.
Qed.

(** X21. The exhibit address comes from the first element, in document
    order, that offers a link and looks like Exhibit 99.1 by its text or
    its link; the address is absolute: the link itself when it starts with
    "http", the link on www.sec.gov when it starts with a slash, and
    otherwise the link inside the filing's archive folder. *)
Theorem exhibit_link_is_the_first_match :
  forall cik accession tags url,
    find_exhibit_url cik accession tags = Some url ->
    PyStr.startswith url "http" = true
    /\ exists before t after href,
        tags = before ++ t :: after
        /\ tag_link t = Some href
        /\ PyStr.truthy href = true
        /\ match_conditions (PyStr.lower (tag_text t)) (PyStr.lower href) = true
        /\ url = exhibit_full_url cik accession href
        /\ find_exhibit_url cik accession before = None.
Proof.
  intros cik accession tags url H.
  split.
  - revert H. induction tags as [|t tags IH]; intro H; [discriminate|].
    cbn [find_exhibit_url] in H.
    destruct (tag_link t) as [href|]; [|exact (IH H)].
    destruct (PyStr.truthy href && match_conditions (PyStr.lower (tag_text t))
                                                    (PyStr.lower href));
      [|exact (IH H)].
    injection H as <-. apply exhibit_full_url_absolute.
  - revert H. induction tags as [|t tags IH]; intro H; [discriminate|].
    assert (Hskip : find_exhibit_url cik accession [t] = None ->
                    find_exhibit_url cik accession tags = Some url ->
                    exists before t0 after href,
                      t :: tags = before ++ t0 :: after
                      /\ tag_link t0 = Some href
                      /\ PyStr.truthy href = true
                      /\ match_conditions (PyStr.lower (tag_text t0)) (PyStr.lower href)
                         = true
                      /\ url = exhibit_full_url cik accession href
                      /\ find_exhibit_url cik accession before = None).
    { intros Hn K.
      destruct (IH K) as (before & t0 & after & href & E & Hl & Ht & Hm & Hu & Hb).
      exists (t :: before), t0, after, href. rewrite E.
      split; [reflexivity|]. repeat (split; [assumption|]).
      cbn [find_exhibit_url] in Hn |- *.
      destruct (tag_link t) as [h|]; [|exact Hb].
      destruct (PyStr.truthy h && match_conditions (PyStr.lower (tag_text t))
                                                   (PyStr.lower h));
        [discriminate|exact Hb]. }
    cbn [find_exhibit_url] in H, Hskip.
    destruct (tag_link t) as [href|] eqn:Hl; [|exact (Hskip eq_refl H)].
    destruct (PyStr.truthy href && match_conditions (PyStr.lower (tag_text t))
                                                    (PyStr.lower href)) eqn:Hc;
      [|exact (Hskip eq_refl H)].
    apply andb_prop in Hc as [Ht Hm]. injection H as <-.
    exists [], t, tags, href. repeat split; assumption.
Qed.

(** Three elements: a link that is no exhibit, a table cell that names
    Exhibit 99.1 and holds a relative link, and a later press release. *)
Lemma exhibit_link_is_the_first_match_witness :
  find_exhibit_url "320193" "0000320193-24-000001"
    [Tag "a" "Home" (Some "/index.htm") None;
     Tag "td" "EX-99.1 Earnings" None (Some "ex991.htm");
     Tag "a" "Press release" (Some "https://example.com/pr.htm") None]
  = Some "https://www.sec.gov/Archives/edgar/data/320193/000032019324000001/ex991.htm"
  /\ PyStr.startswith
       "https://www.sec.gov/Archives/edgar/data/320193/000032019324000001/ex991.htm"
       "http" = true.
Proof.
  assert (H : find_exhibit_url "320193" "0000320193-24-000001"
                [Tag "a" "Home" (Some "/index.htm") None;
                 Tag "td" "EX-99.1 Earnings" None (Some "ex991.htm");
                 Tag "a" "Press release" (Some "https://example.com/pr.htm") None]
              = Some "https://www.sec.gov/Archives/edgar/data/320193/000032019324000001/ex991.htm")
    by (vm_compute; reflexivity).
  split; [exact H|].
  destruct (exhibit_link_is_the_first_match _ _ _ _ H) as [Habs _]. exact Habs.
Defined.

(* ================================================================== *)
(** * The entries of a timeline *)
(* ================================================================== *)

Section TimelineEntries.

Variable find_all : string -> list tag.
Variable get_text : string -> string.

Lemma build_entry_facts :
  forall f url filing_text exhibit_text keywords e,
    build_entry f url filing_text exhibit_text keywords = Ok (Some e) ->
    te_form e = form f
    /\ (PyStr.contains "8-K" (PyStr.upper (form f)) = false ->
        te_guidance_data e = guidance_empty)
    /\ (PyStr.contains "DEF 14A" (PyStr.upper (form f)) = false ->
        te_board_nominees e = [])
    /\ te_sections_found e = dict_keys (te_sections e)
    /\ te_metrics_found e = dict_keys (te_financial_metrics e)
    /\ (forall k, In k (te_sections_found e) ->
                  k = "exhibit_99_1" \/ In k (map fst (section_patterns (form f)))).
Proof.
  intros f url filing_text exhibit_text keywords e H.
  unfold build_entry, bind in H.
  match type of H with
  | match extract_financial_data ?t with _ => _ end = _ =>
      destruct (extract_financial_data t) as [metrics|]; [|discriminate]
  end.
  destruct (PyStr.contains "8-K" (PyStr.upper (form f))) eqn:H8.
  - match type of H with
    | match ?g with _ => _ end = _ => destruct g as [guidance|]; [|discriminate]
    end.
    match type of H with
    | (if ?b then _ else _) = _ => destruct b; [|discriminate]
    end.
    injection H as <-. cbn.
    split; [reflexivity|]. split; [discriminate|].
    split; [intro K; rewrite K; reflexivity|].
    split; [reflexivity|]. split; [reflexivity|].
    intros k Hk.
    match type of Hk with
    | In k (dict_keys ?d) => set (sections := d) in *
    end.
    assert (Hin : exists v, In (k, v) sections)
      by (unfold dict_keys in Hk; apply in_map_iff in Hk as ([k0 v] & <- & Hv);
          exists v; exact Hv).
    destruct Hin as [v Hv]. subst sections.
    assert (Hbase : In (k, v) (extract_all_sections filing_text (form f) keywords) ->
                    In k (map fst (section_patterns (form f)))).
    { intro K.
      apply (subseq_In _ _ _ (sections_keys_subseq filing_text (section_patterns (form f)))).
      unfold dict_keys. apply in_map_iff. exists (k, v). split; [reflexivity|exact K]. }
    destruct exhibit_text as [x|]; [destruct (PyStr.truthy x)|];
      try (right; exact (Hbase Hv)).
    apply dict_set_In in Hv. destruct Hv as [[-> _]|Hv]; [left; reflexivity|].
    right. exact (Hbase Hv).
  - cbn [bind] in H.
    match type of H with
    | (if ?b then _ else _) = _ => destruct b; [|discriminate]
    end.
    injection H as <-. cbn.
    split; [reflexivity|]. split; [reflexivity|].
    split; [intro K; rewrite K; reflexivity|].
    split; [reflexivity|]. split; [reflexivity|].
    intros k Hk.
    match type of Hk with
    | In k (dict_keys ?d) => set (sections := d) in *
    end.
    assert (Hin : exists v, In (k, v) sections)
      by (unfold dict_keys in Hk; apply in_map_iff in Hk as ([k0 v] & <- & Hv);
          exists v; exact Hv).
    destruct Hin as [v Hv]. subst sections.
    assert (Hbase : In (k, v) (extract_all_sections filing_text (form f) keywords) ->
                    In k (map fst (section_patterns (form f)))).
    { intro K.
      apply (subseq_In _ _ _ (sections_keys_subseq filing_text (section_patterns (form f)))).
      unfold dict_keys. apply in_map_iff. exists (k, v). split; [reflexivity|exact K]. }
    destruct exhibit_text as [x|]; [destruct (PyStr.truthy x)|];
      try (right; exact (Hbase Hv)).
    apply dict_set_In in Hv. destruct Hv as [[-> _]|Hv]; [left; reflexivity|].
    right. exact (Hbase Hv).
Qed.

Lemma process_filings_entries :
  forall net cik use_disk_cache keywords raw s timeline s',
    process_filings find_all get_text net cik use_disk_cache keywords raw s
    = Ok (timeline, s') ->
    forall e, In e timeline ->
              exists f url filing_text exhibit_text,
                In f raw
                /\ build_entry f url filing_text exhibit_text keywords = Ok (Some e).
Proof.
  intros net cik use_disk_cache keywords raw.
  induction raw as [|f raw IH]; intros s timeline s' H e He.
  - injection H as <- <-. destruct He.
  - cbn [process_filings] in H. cbn zeta in H.
    match type of H with
    | context [fetch_filing_and_exhibit_html find_all get_text net ?u cik ?a
                                              use_disk_cache ?c s] =>
        destruct (fetch_filing_and_exhibit_html find_all get_text net u cik a
                                                use_disk_cache c s)
          as [[filing_text exhibit_text] s1]
    end.
    assert (Hrest : forall tl,
               process_filings find_all get_text net cik use_disk_cache keywords raw s1
               = Ok (tl, s') ->
               In e tl ->
               exists f0 url ft et,
                 In f0 (f :: raw) /\ build_entry f0 url ft et keywords = Ok (Some e)).
    { intros tl K Hin. destruct (IH s1 tl s' K e Hin) as (f0 & u & ft & et & Hf & Hb).
      exists f0, u, ft, et. split; [right; exact Hf|exact Hb]. }
    destruct (negb (PyStr.truthy filing_text)); [exact (Hrest _ H He)|].
    unfold bind in H.
    match type of H with
    | match build_entry ?f0 ?u ?t ?x ?k with _ => _ end = _ =>
        destruct (build_entry f0 u t x k) as [entry|] eqn:Hentry; [|discriminate]
    end.
    destruct (process_filings find_all get_text net cik use_disk_cache keywords raw s1)
      as [[tl s2]|] eqn:Hproc; [|discriminate].
    injection H as <- <-.
    destruct entry as [e0|]; [|exact (Hrest _ eq_refl He)].
    destruct He as [<-|He]; [|exact (Hrest _ eq_refl He)].
    do 4 eexists. split; [left; reflexivity|exact Hentry].
Qed.

End TimelineEntries.

(** X22. In every entry of a timeline, guidance is present only for a form
    whose name contains "8-K" and nominees only for one whose name contains
    "DEF 14A" (so a DEFA14A filing has none); [sections_found] and
    [metrics_found] list the keys of the entry's sections and metrics, and
    a section name is "exhibit_99_1" or a name of the form's table. *)
Theorem timeline_entries_match_their_form :
  forall find_all get_text w company_name ticker_symbol cik form_types start_date
         end_date keywords use_disk_cache s company ticker cik' sic sic_description
         timeline total s' e,
    sec_search find_all get_text w company_name ticker_symbol cik form_types
               start_date end_date keywords use_disk_cache s
    = Ok (SearchReport company ticker cik' sic sic_description timeline total, s') ->
    In e timeline ->
    (PyStr.contains "8-K" (PyStr.upper (te_form e)) = false ->
     te_guidance_data e = guidance_empty)
    /\ (PyStr.contains "DEF 14A" (PyStr.upper (te_form e)) = false ->
        te_board_nominees e = [])
    /\ te_sections_found e = dict_keys (te_sections e)
    /\ te_metrics_found e = dict_keys (te_financial_metrics e)
    /\ (forall k, In k (te_sections_found e) ->
                  k = "exhibit_99_1" \/ In k (map fst (section_patterns (te_form e)))).
Proof.
  intros find_all get_text w company_name ticker_symbol cik form_types start_date
         end_date keywords use_disk_cache s company ticker cik' sic sic_description
         timeline total s' e H He.
  destruct (sec_search_inv _ _ _ _ _ _ _ _ _ _ _ _ _ _ H)
    as (s0 & _ & data & located & _ & _ & Hproc & _).
  destruct (process_filings_entries _ _ _ _ _ _ _ _ _ _ Hproc e He)
    as (f & url & ft & et & _ & Hb).
  destruct (build_entry_facts _ _ _ _ _ _ Hb) as (Hf & H8 & Hd & Hs & Hm & Hk).
  rewrite Hf. repeat split; assumption.
Qed.

(** The first entry of the Acme timeline, an annual report: no guidance,
    no nominees. *)
Lemma timeline_entries_match_their_form_witness :
  let e := no_signal_entry
             "2024-03-01" "10-K" "0000000001-24-000003"
             "https://www.sec.gov/Archives/edgar/data/0000000001/000000000124000003/acme10k.htm" in
  te_guidance_data e = guidance_empty
  /\ te_board_nominees e = []
  /\ te_sections_found e = dict_keys (te_sections e).
Proof.
  intro e.
  destruct (timeline_entries_match_their_form
              no_tags plain_text acme_world None (Some "ACME") None
              ["10-K"; "8-K"; "DEF 14A"] None None None true (IO acme_disk [])
              (Some "Acme Corp") "ACME" "0000000001" (Some "3490")
              (Some "Misc Fabricated Metal Products") acme_timeline 3 (IO acme_disk []) e)
    as (H8 & Hd & Hs & _); [vm_compute; reflexivity|left; reflexivity|].
  split; [apply H8; vm_compute; reflexivity|].
  split; [apply Hd; vm_compute; reflexivity|exact Hs].
Defined.

(* ================================================================== *)
(** * Retries, explicit identifiers and date bounds *)
(* ================================================================== *)

Section FetcherRetries.

Variable find_all : string -> list tag.
Variable get_text : string -> string.

Lemma repeat_shift :
  forall (A : Type) (x : A) n l, repeat x n ++ x :: l = x :: repeat x n ++ l.
Proof.
  intros A x. induction n as [|n IH]; intro l; [reflexivity|].
  cbn [repeat app]. rewrite IH. reflexivity.
Qed.

Lemma download_exhausted :
  forall attempts net url cik accession caching exhibit_text s,
    (forall k, k < attempts ->
               retried (net (List.length (io_requests s) + k) url) = true) ->
    download find_all get_text attempts net url cik accession caching exhibit_text s
    = (("", None), IO (io_disk s) (repeat url attempts ++ io_requests s)).
Proof.
  induction attempts as [|attempts IH];
    intros net url cik accession caching exhibit_text s H.
  - destruct s as [d reqs]. reflexivity.
  - cbn [download]. unfold request.
    set (s1 := IO (io_disk s) (url :: io_requests s)).
    assert (Hrec : download find_all get_text attempts net url cik accession caching
                            exhibit_text s1
                   = (("", None),
                      IO (io_disk s) (repeat url (S attempts) ++ io_requests s))).
    { rewrite (IH net url cik accession caching exhibit_text s1).
      - subst s1. cbn [io_disk io_requests repeat app]. rewrite repeat_shift. reflexivity.
      - intros k Hk. subst s1. cbn [io_requests List.length].
        replace (S (List.length (io_requests s)) + k)
          with (List.length (io_requests s) + S k) by lia.
        apply H. lia. }
    pose proof (H 0 ltac:(lia)) as H0. rewrite Nat.add_0_r in H0.
    destruct (net (List.length (io_requests s)) url) as [| |status ra body];
      cbn [retried] in H0; [exact Hrec|discriminate|].
    apply andb_prop in H0 as [H429 Hra]. rewrite H429.
    destruct (bind (retry_wait ra) _); [exact Hrec|discriminate].
Qed.

(** The pause of a 429 goes through exactly when the header is missing or
    holds an integer below [2^1024 - 2^970]. *)
Lemma pause_goes_through :
  forall ra,
    (exists u, (wait_time <- retry_wait ra ;; sleep wait_time) = Ok u)
    <-> ra = None
        \/ exists wait w, ra = Some wait /\ PyInt.of_string wait = Ok w
                          /\ (w < 2 ^ 1024 - 2 ^ 970)%Z.
Proof.
  intro ra. unfold retry_wait, sleep, PyFloat.of_int.
  destruct ra as [wait|].
  - destruct (PyInt.of_string wait) as [w|e] eqn:Hw; cbn [bind].
    + remember (2 ^ 1024 - 2 ^ 970)%Z as T eqn:HT.
      assert (HT0 : (0 < T)%Z) by (subst T; reflexivity).
      clear HT.
      destruct (w <=? 0)%Z eqn:H0.
      * apply Z.leb_le in H0. split; [|intros _; exists tt; reflexivity].
        intros _. right. exists wait, w.
        split; [reflexivity|]. split; [exact Hw|lia].
      * apply Z.leb_gt in H0. destruct (T <=? Z.abs w)%Z eqn:H1; cbn [bind].
        -- apply Z.leb_le in H1. split; [intros [u Hu]; discriminate|].
           intros [Hn|(wait' & w' & Hs & Hw' & Hlt)]; [discriminate|].
           injection Hs as <-. rewrite Hw in Hw'. injection Hw' as <-. lia.
        -- apply Z.leb_gt in H1. split; [|intros _; exists tt; reflexivity].
           intros _. right. exists wait, w.
           split; [reflexivity|]. split; [exact Hw|lia].
    + split; [intros [u Hu]; discriminate|].
      intros [Hn|(wait' & w' & Hs & Hw' & _)]; [discriminate|].
      injection Hs as <-. rewrite Hw in Hw'. discriminate.
  - split; [intros _; left; reflexivity|]. intros _. exists tt. reflexivity.
Qed.

End FetcherRetries.

(** X23. Retries end after three attempts. When each of the first three
    replies to the filing's address is a timeout or a status 429 whose
    pause goes through, a fetch without disk caching returns the empty
    text and no exhibit after exactly three requests; the pause of a 429
    goes through exactly when its [Retry-After] is missing or an integer
    below [2^1024 - 2^970].  A status 429 whose [Retry-After] is not an
    integer, or is an integer of [2^1024 - 2^970] or more, which the event
    loop cannot turn into a time, ends the fetch at once with the same
    answer, after one request. *)
Theorem retries_end_after_three_attempts :
  forall find_all get_text net url cik accession cache_filename s,
    ((forall k, k < 3 -> retried (net (List.length (io_requests s) + k) url) = true) ->
     fetch_filing_and_exhibit_html find_all get_text net url cik accession false
                                   cache_filename s
     = (("", None), IO (io_disk s) ([url; url; url] ++ io_requests s)))
    /\ (forall status ra body,
           retried (Reply status ra body) = true
           <-> status = 429
               /\ (ra = None
                   \/ exists wait w, ra = Some wait /\ PyInt.of_string wait = Ok w
                                     /\ (w < 2 ^ 1024 - 2 ^ 970)%Z))
    /\ (forall wait body e,
           net (List.length (io_requests s)) url = Reply 429 (Some wait) body ->
           PyInt.of_string wait = Raise e ->
           fetch_filing_and_exhibit_html find_all get_text net url cik accession false
                                         cache_filename s
           = (("", None), IO (io_disk s) (url :: io_requests s)))
    /\ (forall wait body w,
           net (List.length (io_requests s)) url = Reply 429 (Some wait) body ->
           PyInt.of_string wait = Ok w ->
           (2 ^ 1024 - 2 ^ 970 <= w)%Z ->
           fetch_filing_and_exhibit_html find_all get_text net url cik accession false
                                         cache_filename s
           = (("", None), IO (io_disk s) (url :: io_requests s))).
Proof.
  intros find_all get_text net url cik accession cache_filename s.
  assert (E : fetch_filing_and_exhibit_html find_all get_text net url cik accession false
                                            cache_filename s
              = download find_all get_text 3 net url cik accession None None s)
    by (unfold fetch_filing_and_exhibit_html; destruct cache_filename; reflexivity).
  rewrite E. split; [|split; [|split]].
  - intro H. apply (download_exhausted find_all get_text 3). exact H.
  - intros status ra body. cbn [retried].
    pose proof (pause_goes_through ra) as P.
    destruct (bind (retry_wait ra) _) as [u|e] eqn:Hp.
    + rewrite andb_true_r, Nat.eqb_eq. split.
      * intro Hs. split; [exact Hs|]. apply P. exists u. reflexivity.
      * intros [Hs _]. exact Hs.
    + rewrite andb_false_r. split; [discriminate|].
      intros [_ Hr]. apply P in Hr. destruct Hr as [u Hu]. discriminate.
  - intros wait body e Hnet Hw.
    cbn [download]. unfold request. rewrite Hnet. cbn [Nat.eqb retry_wait].
    rewrite Hw. reflexivity.
  - intros wait body w Hnet Hw Hbig.
    cbn [download]. unfold request. rewrite Hnet. cbn [Nat.eqb].
    destruct (bind (retry_wait (Some wait)) _) as [u|e] eqn:Hp; [|reflexivity].
    assert (P : exists u, (wait_time <- retry_wait (Some wait) ;; sleep wait_time) = Ok u)
      by (exists u; exact Hp).
    apply pause_goes_through in P.
    destruct P as [Hn|(wait' & w' & Hs & Hw' & Hlt)]; [discriminate|].
    injection Hs as <-. rewrite Hw in Hw'. injection Hw' as <-. lia.
Qed.

(** Three replies 429 with an integer wait; one whose wait is a date; one
    whose wait is padded with a separator [int] does not skip; one whose
    wait is beyond every float. *)
Lemma retries_end_after_three_attempts_witness :
  fetch_filing_and_exhibit_html no_tags plain_text rate_limited "u" "1" "2" false None
                                (IO empty_disk [])
  = (("", None), IO empty_disk ["u"; "u"; "u"])
  /\ fetch_filing_and_exhibit_html no_tags plain_text retry_after_date "u" "1" "2" false
                                   None (IO empty_disk [])
     = (("", None), IO empty_disk ["u"])
  /\ fetch_filing_and_exhibit_html no_tags plain_text retry_after_padded "u" "1" "2" false
                                   None (IO empty_disk [])
     = (("", None), IO empty_disk ["u"])
  /\ fetch_filing_and_exhibit_html no_tags plain_text retry_after_huge "u" "1" "2" false
                                   None (IO empty_disk [])
     = (("", None), IO empty_disk ["u"]).
Proof.
  split; [|split; [|split]].
  - apply (retries_end_after_three_attempts
             no_tags plain_text rate_limited "u" "1" "2" None (IO empty_disk [])).
    intros k Hk. reflexivity.
  - apply (proj1 (proj2 (proj2 (retries_end_after_three_attempts
                    no_tags plain_text retry_after_date "u" "1" "2" None
                    (IO empty_disk []))))
                 "Wed, 21 Oct 2026 07:28:00 GMT" "" ValueError);
      vm_compute; reflexivity.
  - apply (proj1 (proj2 (proj2 (retries_end_after_three_attempts
                    no_tags plain_text retry_after_padded "u" "1" "2" None
                    (IO empty_disk []))))
                 (String (ascii_of_nat 31) "5") "" ValueError);
      vm_compute; reflexivity.
  - apply (proj2 (proj2 (proj2 (retries_end_after_three_attempts
                    no_tags plain_text retry_after_huge "u" "1" "2" None
                    (IO empty_disk []))))
                 (PyStr.str ("1"%char :: repeat "0"%char 320)) "" (10 ^ 320)%Z).
    + reflexivity.
    + vm_compute; reflexivity.
    + vm_compute; discriminate.
Defined.

(** X24. An identifier given to the search is used as it is given: the
    registry and the archive are not consulted, so the answer is the same
    in every world with the same submissions and documents, and a report
    carries the identifier unchanged (it is not padded) with the ticker
    given, or the empty text. *)
Theorem explicit_identifier_is_used_as_given :
  forall find_all get_text w w' company_name ticker_symbol cik form_types start_date
         end_date keywords use_disk_cache s,
    PyStr.truthy cik = true ->
    submissions w cik = submissions w' cik ->
    documents w = documents w' ->
    sec_search find_all get_text w company_name ticker_symbol (Some cik) form_types
               start_date end_date keywords use_disk_cache s
    = sec_search find_all get_text w' company_name ticker_symbol (Some cik) form_types
                 start_date end_date keywords use_disk_cache s
    /\ forall company ticker cik' sic sic_description timeline total s',
        sec_search find_all get_text w company_name ticker_symbol (Some cik) form_types
                   start_date end_date keywords use_disk_cache s
        = Ok (SearchReport company ticker cik' sic sic_description timeline total, s') ->
        cik' = cik
        /\ ticker = match ticker_symbol with Some t => t | None => "" end.
Proof.
  intros find_all get_text w w' company_name ticker_symbol cik form_types start_date
         end_date keywords use_disk_cache s Hc Hsub Hdoc.
  unfold sec_search. cbn [truthy_opt]. rewrite Hc. cbn [negb].
  rewrite andb_false_r. cbn [bind]. rewrite Hc. cbn [negb]. rewrite Hsub, Hdoc.
  split; [reflexivity|].
  intros company ticker cik' sic sic_description timeline total s' H.
  destruct (submissions w' cik) as [msg|status|data]; try discriminate.
  destruct (locate_filings form_types start_date end_date (sub_recent data))
    as [raw|[]]; try discriminate.
  unfold bind in H.
  destruct (process_filings find_all get_text (documents w') cik use_disk_cache keywords
                            raw s) as [[tl s1]|]; [|discriminate].
  injection H as _ <- <- _ _ _ _ _. split; [reflexivity|].
  destruct ticker_symbol as [t|]; [|reflexivity].
  destruct t; reflexivity.
Qed.

(** The search for the identifier "1" in the Acme world with the network
    down: the report carries "1". *)
Lemma explicit_identifier_is_used_as_given_witness :
  exists company ticker cik' sic sic_description timeline total s',
    sec_search no_tags plain_text acme_world None None (Some "1") ["10-K"]
               None None None false (IO empty_disk [])
    = Ok (SearchReport company ticker cik' sic sic_description timeline total, s')
    /\ cik' = "1" /\ ticker = "".
Proof.
  assert (H : sec_search no_tags plain_text acme_world None None (Some "1") ["10-K"]
                         None None None false (IO empty_disk [])
              = Ok (SearchReport (Some "Acme Corp") "" "1" (Some "3490")
                                 (Some "Misc Fabricated Metal Products") [] 0,
                    IO empty_disk
                       ["https://www.sec.gov/Archives/edgar/data/1/000000000124000003/acme10k.htm"]))
    by (vm_compute; reflexivity).
  do 8 eexists. split; [exact H|].
  destruct (explicit_identifier_is_used_as_given
              no_tags plain_text acme_world acme_world None None "1" ["10-K"]
              None None None false (IO empty_disk []) eq_refl eq_refl eq_refl)
    as [_ K].
  exact (K _ _ _ _ _ _ _ _ H).
Defined.

(** X25. A date bound that is given and is not a calendar date in the
    form YYYY-MM-DD makes the search return the error "Invalid date
    format. Use YYYY-MM-DD", once the submissions have been fetched and
    before any filing is read; an empty bound counts as not given. *)
Theorem invalid_date_bound_is_an_error :
  forall find_all get_text w company_name ticker_symbol cik form_types start_date
         end_date keywords use_disk_cache s data,
    PyStr.truthy cik = true ->
    submissions w cik = HttpBody data ->
    (exists bound,
        (start_date = Some bound
         \/ (end_date = Some bound /\ exists d, parse_bound start_date = Ok d))
        /\ PyStr.truthy bound = true
        /\ strptime bound = Raise ValueError) ->
    sec_search find_all get_text w company_name ticker_symbol (Some cik) form_types
               start_date end_date keywords use_disk_cache s
    = Ok (SearchError "Invalid date format. Use YYYY-MM-DD" None, s).
Proof.
  intros find_all get_text w company_name ticker_symbol cik form_types start_date
         end_date keywords use_disk_cache s data Hc Hsub (bound & Hwhich & Ht & Hbad).
  assert (Hloc : locate_filings form_types start_date end_date (sub_recent data)
                 = Raise ValueError).
  { unfold locate_filings, bind.
    destruct Hwhich as [->|[-> [d Hd]]].
    - cbn [parse_bound]. rewrite Ht. unfold bind. rewrite Hbad. reflexivity.
    - rewrite Hd. cbn [parse_bound]. rewrite Ht. unfold bind. rewrite Hbad. reflexivity. }
  unfold sec_search. cbn [truthy_opt]. rewrite Hc. cbn [negb].
  rewrite andb_false_r. cbn [bind]. rewrite Hc. cbn [negb].
  rewrite Hsub, Hloc. reflexivity.
Qed.

(** The 30th of February as a start date. *)
Lemma invalid_date_bound_is_an_error_witness :
  sec_search no_tags plain_text acme_world None None (Some "0000000001") ["10-K"]
             (Some "2024-02-30") None None false (IO empty_disk [])
  = Ok (SearchError "Invalid date format. Use YYYY-MM-DD" None, IO empty_disk []).
Proof.
  apply (invalid_date_bound_is_an_error
           no_tags plain_text acme_world None None "0000000001" ["10-K"]
           (Some "2024-02-30") None None false (IO empty_disk []) acme_submission);
    [reflexivity|reflexivity|].
  exists "2024-02-30". split; [left; reflexivity|]. split; vm_compute; reflexivity.
Defined.
